(** * SoapyBladeRF streaming engine: a shallow embedding of
      [bladeRF_Streaming.cpp] and the properties of its stream calls.

    The C++ object [bladeRF_SoapySDR] becomes a record that is threaded
    through every call; the member functions [setupStream],
    [activateStream], [deactivateStream], [readStream] and [writeStream]
    become functions from the old object to a result and the new object.
    Calls into libbladeRF are recorded, in order, in the [_dev]
    component; what the device answers is an explicit argument of the
    call that consults it, so that every statement below holds for every
    device behaviour.

    Integers are [Z]; where the source relies on a fixed width the
    wrap-around is written out ([to_size_t], [to_int], [to_uint]).
    [float] is IEEE-754 binary32, through the executable [SpecFloat]
    operations at precision 24 and maximal exponent 128. *)

From Stdlib Require Import ZArith QArith Qround Qpower Bool String Ascii Lia.
From Stdlib Require Import SpecFloat.
From stdpp Require Import base strings list gmap pretty.

Open Scope Z_scope.

(** ** Fixed-width integers *)

(** Conversion to [size_t] and to the 64-bit tick counters. *)
Definition to_size_t (z : Z) : Z := z mod 2 ^ 64.

(** Conversion to [unsigned int], the type of libbladeRF's sample counts
    and timeouts. *)
Definition to_uint (z : Z) : Z := z mod 2 ^ 32.

(** Conversion to [int] (two's complement), as for the value returned by
    [readStream] and [writeStream]. *)
Definition to_int (z : Z) : Z := (z + 2 ^ 31) mod 2 ^ 32 - 2 ^ 31.

(** Conversion to [int16_t] and [int8_t]. *)
Definition to_int16 (z : Z) : Z := (z + 2 ^ 15) mod 2 ^ 16 - 2 ^ 15.
Definition to_int8 (z : Z) : Z := (z + 2 ^ 7) mod 2 ^ 8 - 2 ^ 7.

(** ** Constants of the two libraries the file is written against

    The flag bits, result codes and error codes come from the headers of
    SoapySDR and libbladeRF, which are not part of this repository.  They
    are parameters of the development, together with the few facts about
    them that the proofs use; [upstream] below gives the values of the
    released headers. *)

Class ApiConstants := {
  (* SoapySDR/Constants.h *)
  SOAPY_SDR_TX : Z;
  SOAPY_SDR_RX : Z;
  SOAPY_SDR_END_BURST : Z;
  SOAPY_SDR_HAS_TIME : Z;
  (* defined only by recent SoapySDR versions: the source tests for them
     with the preprocessor *)
  SOAPY_SDR_USER_FLAG0 : option Z;
  SOAPY_SDR_USER_FLAG1 : option Z;
  (* SoapySDR/Errors.h *)
  SOAPY_SDR_TIMEOUT : Z;
  SOAPY_SDR_STREAM_ERROR : Z;
  SOAPY_SDR_OVERFLOW : Z;
  SOAPY_SDR_NOT_SUPPORTED : Z;
  SOAPY_SDR_TIME_ERROR : Z;
  SOAPY_SDR_UNDERFLOW : Z;
  (* SoapySDR/Formats.h *)
  SOAPY_SDR_CS16 : string;
  SOAPY_SDR_CF32 : string;
  (* libbladeRF.h *)
  BLADERF_ERR_TIMEOUT : Z;
  BLADERF_ERR_TIME_PAST : Z;
  BLADERF_META_FLAG_TX_BURST_START : Z;
  BLADERF_META_FLAG_TX_BURST_END : Z;
  BLADERF_META_FLAG_TX_NOW : Z;
  BLADERF_META_FLAG_TX_UPDATE_TIMESTAMP : Z;
  BLADERF_META_FLAG_RX_NOW : Z;
  BLADERF_META_FLAG_RX_HW_MINIEXP1 : Z;
  BLADERF_META_FLAG_RX_HW_MINIEXP2 : Z;
  BLADERF_META_STATUS_OVERRUN : Z;
  BLADERF_META_STATUS_UNDERRUN : Z;
  (* what the proofs need to know about them *)
  direction_distinct : SOAPY_SDR_RX <> SOAPY_SDR_TX;
  err_timeout_nonzero : BLADERF_ERR_TIMEOUT <> 0;
  err_time_past_nonzero : BLADERF_ERR_TIME_PAST <> 0;
  burst_end_not_start :
    Z.land BLADERF_META_FLAG_TX_BURST_START BLADERF_META_FLAG_TX_BURST_END = 0;
  burst_end_not_now :
    Z.land BLADERF_META_FLAG_TX_NOW BLADERF_META_FLAG_TX_BURST_END = 0;
  burst_end_not_update :
    Z.land BLADERF_META_FLAG_TX_UPDATE_TIMESTAMP BLADERF_META_FLAG_TX_BURST_END = 0
}.

(** The values of SoapySDR 0.8 and libbladeRF 2.x. *)
#[refine] Instance upstream : ApiConstants := {|
  SOAPY_SDR_TX := 0;
  SOAPY_SDR_RX := 1;
  SOAPY_SDR_END_BURST := 2;
  SOAPY_SDR_HAS_TIME := 4;
  SOAPY_SDR_USER_FLAG0 := Some 65536;
  SOAPY_SDR_USER_FLAG1 := Some 131072;
  SOAPY_SDR_TIMEOUT := -1;
  SOAPY_SDR_STREAM_ERROR := -2;
  SOAPY_SDR_OVERFLOW := -4;
  SOAPY_SDR_NOT_SUPPORTED := -5;
  SOAPY_SDR_TIME_ERROR := -6;
  SOAPY_SDR_UNDERFLOW := -7;
  SOAPY_SDR_CS16 := "CS16";
  SOAPY_SDR_CF32 := "CF32";
  BLADERF_ERR_TIMEOUT := -6;
  BLADERF_ERR_TIME_PAST := -14;
  BLADERF_META_FLAG_TX_BURST_START := 1;
  BLADERF_META_FLAG_TX_BURST_END := 2;
  BLADERF_META_FLAG_TX_NOW := 4;
  BLADERF_META_FLAG_TX_UPDATE_TIMESTAMP := 8;
  BLADERF_META_FLAG_RX_NOW := 2147483648;
  BLADERF_META_FLAG_RX_HW_MINIEXP1 := 65536;
  BLADERF_META_FLAG_RX_HW_MINIEXP2 := 131072;
  BLADERF_META_STATUS_OVERRUN := 1;
  BLADERF_META_STATUS_UNDERRUN := 2
|}.
Proof. all: done. Defined.

(** [enum bladerf_format], restricted to the tags the file uses. *)
Inductive bladerf_format :=
| BLADERF_FORMAT_SC16_Q11
| BLADERF_FORMAT_SC16_Q11_META
| BLADERF_FORMAT_SC8_Q7
| BLADERF_FORMAT_SC8_Q7_META
| BLADERF_FORMAT_SC16_Q11_PACKED.

(** [enum bladerf_channel_layout]. *)
Inductive bladerf_channel_layout :=
| BLADERF_RX_X1 | BLADERF_TX_X1 | BLADERF_RX_X2 | BLADERF_TX_X2.

(** [struct bladerf_metadata], the fields the file reads or writes. *)
Record bladerf_metadata := {
  md_timestamp : Z;
  md_flags : Z;
  md_status : Z;
  md_actual_count : Z
}.

(** [std::memset(&md, 0, sizeof(md))]. *)
Definition md_zero : bladerf_metadata :=
  {| md_timestamp := 0; md_flags := 0; md_status := 0; md_actual_count := 0 |}.

(** ** The device

    One constructor per libbladeRF entry point the file calls, carrying
    the arguments of the call. *)
Inductive DevCall :=
| bladerf_sync_config (layout : bladerf_channel_layout) (fmt : bladerf_format)
    (num_buffers buffer_size num_transfers stream_timeout : Z)
| bladerf_enable_module (direction ch : Z) (enable : bool)
| bladerf_sync_rx (num_samples : Z) (md : bladerf_metadata) (timeout_ms : Z)
| bladerf_sync_tx (samples : list Z) (num_samples : Z) (md : bladerf_metadata)
    (timeout_ms : Z)
| bladerf_get_timestamp_tx.

(** What the device answers to a synchronous receive or transmit: the
    return code, the metadata it leaves in [md], and, for a receive, the
    16-bit words it stored through the sample pointer. *)
Record DevReply := {
  dr_ret : Z;
  dr_md : bladerf_metadata;
  dr_data : list Z
}.

(** ** The stream object *)

(** [struct StreamMetadata] of the class header: an RX command or a TX
    status event.  A field the source leaves unassigned when it builds a
    value is 0 here; no statement below reads such a field. *)
Record StreamMetadata := {
  sm_flags : Z;
  sm_timeNs : Z;
  sm_numElems : Z;
  sm_code : Z
}.

Definition set_sm_flags (f : Z) (c : StreamMetadata) : StreamMetadata :=
  {| sm_flags := f; sm_timeNs := sm_timeNs c;
     sm_numElems := sm_numElems c; sm_code := sm_code c |}.

Definition set_sm_numElems (n : Z) (c : StreamMetadata) : StreamMetadata :=
  {| sm_flags := sm_flags c; sm_timeNs := sm_timeNs c;
     sm_numElems := n; sm_code := sm_code c |}.

(** The members of [bladeRF_SoapySDR] that the streaming file touches.
    [_dev] is the device handle: the calls made through it so far, oldest
    first.  The conversion buffers are arrays of [int16_t]; the two
    queues have their front at the head of the list. *)
Record bladeRF_SoapySDR := {
  _dev : list DevCall;
  _sample_format : bladerf_format;
  _rxOverflow : bool;
  _rxChans : list Z;
  _rxFloats : bool;
  _rxConvBuff : list Z;
  _rxBuffSize : Z;
  _rxMinTimeoutMs : Z;
  _rxNextTicks : Z;
  _rxCmds : list StreamMetadata;
  _txFloats : bool;
  _txChans : list Z;
  _txConvBuff : list Z;
  _txBuffSize : Z;
  _inTxBurst : bool;
  _txNextTicks : Z;
  _txResps : list StreamMetadata
}.

Definition bladerf_call (c : DevCall) (s : bladeRF_SoapySDR) : bladeRF_SoapySDR :=
  {| _dev := _dev s ++ [c]; _sample_format := _sample_format s;
     _rxOverflow := _rxOverflow s; _rxChans := _rxChans s;
     _rxFloats := _rxFloats s; _rxConvBuff := _rxConvBuff s;
     _rxBuffSize := _rxBuffSize s; _rxMinTimeoutMs := _rxMinTimeoutMs s;
     _rxNextTicks := _rxNextTicks s; _rxCmds := _rxCmds s;
     _txFloats := _txFloats s; _txChans := _txChans s;
     _txConvBuff := _txConvBuff s; _txBuffSize := _txBuffSize s;
     _inTxBurst := _inTxBurst s; _txNextTicks := _txNextTicks s;
     _txResps := _txResps s |}.

Definition set_sample_format (f : bladerf_format) (s : bladeRF_SoapySDR) :=
  {| _dev := _dev s; _sample_format := f;
     _rxOverflow := _rxOverflow s; _rxChans := _rxChans s;
     _rxFloats := _rxFloats s; _rxConvBuff := _rxConvBuff s;
     _rxBuffSize := _rxBuffSize s; _rxMinTimeoutMs := _rxMinTimeoutMs s;
     _rxNextTicks := _rxNextTicks s; _rxCmds := _rxCmds s;
     _txFloats := _txFloats s; _txChans := _txChans s;
     _txConvBuff := _txConvBuff s; _txBuffSize := _txBuffSize s;
     _inTxBurst := _inTxBurst s; _txNextTicks := _txNextTicks s;
     _txResps := _txResps s |}.

Definition set_rxOverflow (b : bool) (s : bladeRF_SoapySDR) :=
  {| _dev := _dev s; _sample_format := _sample_format s;
     _rxOverflow := b; _rxChans := _rxChans s;
     _rxFloats := _rxFloats s; _rxConvBuff := _rxConvBuff s;
     _rxBuffSize := _rxBuffSize s; _rxMinTimeoutMs := _rxMinTimeoutMs s;
     _rxNextTicks := _rxNextTicks s; _rxCmds := _rxCmds s;
     _txFloats := _txFloats s; _txChans := _txChans s;
     _txConvBuff := _txConvBuff s; _txBuffSize := _txBuffSize s;
     _inTxBurst := _inTxBurst s; _txNextTicks := _txNextTicks s;
     _txResps := _txResps s |}.

Definition set_rxConvBuff (b : list Z) (s : bladeRF_SoapySDR) :=
  {| _dev := _dev s; _sample_format := _sample_format s;
     _rxOverflow := _rxOverflow s; _rxChans := _rxChans s;
     _rxFloats := _rxFloats s; _rxConvBuff := b;
     _rxBuffSize := _rxBuffSize s; _rxMinTimeoutMs := _rxMinTimeoutMs s;
     _rxNextTicks := _rxNextTicks s; _rxCmds := _rxCmds s;
     _txFloats := _txFloats s; _txChans := _txChans s;
     _txConvBuff := _txConvBuff s; _txBuffSize := _txBuffSize s;
     _inTxBurst := _inTxBurst s; _txNextTicks := _txNextTicks s;
     _txResps := _txResps s |}.

Definition set_rxNextTicks (t : Z) (s : bladeRF_SoapySDR) :=
  {| _dev := _dev s; _sample_format := _sample_format s;
     _rxOverflow := _rxOverflow s; _rxChans := _rxChans s;
     _rxFloats := _rxFloats s; _rxConvBuff := _rxConvBuff s;
     _rxBuffSize := _rxBuffSize s; _rxMinTimeoutMs := _rxMinTimeoutMs s;
     _rxNextTicks := t; _rxCmds := _rxCmds s;
     _txFloats := _txFloats s; _txChans := _txChans s;
     _txConvBuff := _txConvBuff s; _txBuffSize := _txBuffSize s;
     _inTxBurst := _inTxBurst s; _txNextTicks := _txNextTicks s;
     _txResps := _txResps s |}.

Definition set_rxCmds (q : list StreamMetadata) (s : bladeRF_SoapySDR) :=
  {| _dev := _dev s; _sample_format := _sample_format s;
     _rxOverflow := _rxOverflow s; _rxChans := _rxChans s;
     _rxFloats := _rxFloats s; _rxConvBuff := _rxConvBuff s;
     _rxBuffSize := _rxBuffSize s; _rxMinTimeoutMs := _rxMinTimeoutMs s;
     _rxNextTicks := _rxNextTicks s; _rxCmds := q;
     _txFloats := _txFloats s; _txChans := _txChans s;
     _txConvBuff := _txConvBuff s; _txBuffSize := _txBuffSize s;
     _inTxBurst := _inTxBurst s; _txNextTicks := _txNextTicks s;
     _txResps := _txResps s |}.

Definition set_txConvBuff (b : list Z) (s : bladeRF_SoapySDR) :=
  {| _dev := _dev s; _sample_format := _sample_format s;
     _rxOverflow := _rxOverflow s; _rxChans := _rxChans s;
     _rxFloats := _rxFloats s; _rxConvBuff := _rxConvBuff s;
     _rxBuffSize := _rxBuffSize s; _rxMinTimeoutMs := _rxMinTimeoutMs s;
     _rxNextTicks := _rxNextTicks s; _rxCmds := _rxCmds s;
     _txFloats := _txFloats s; _txChans := _txChans s;
     _txConvBuff := b; _txBuffSize := _txBuffSize s;
     _inTxBurst := _inTxBurst s; _txNextTicks := _txNextTicks s;
     _txResps := _txResps s |}.

Definition set_inTxBurst (b : bool) (s : bladeRF_SoapySDR) :=
  {| _dev := _dev s; _sample_format := _sample_format s;
     _rxOverflow := _rxOverflow s; _rxChans := _rxChans s;
     _rxFloats := _rxFloats s; _rxConvBuff := _rxConvBuff s;
     _rxBuffSize := _rxBuffSize s; _rxMinTimeoutMs := _rxMinTimeoutMs s;
     _rxNextTicks := _rxNextTicks s; _rxCmds := _rxCmds s;
     _txFloats := _txFloats s; _txChans := _txChans s;
     _txConvBuff := _txConvBuff s; _txBuffSize := _txBuffSize s;
     _inTxBurst := b; _txNextTicks := _txNextTicks s;
     _txResps := _txResps s |}.

Definition set_txNextTicks (t : Z) (s : bladeRF_SoapySDR) :=
  {| _dev := _dev s; _sample_format := _sample_format s;
     _rxOverflow := _rxOverflow s; _rxChans := _rxChans s;
     _rxFloats := _rxFloats s; _rxConvBuff := _rxConvBuff s;
     _rxBuffSize := _rxBuffSize s; _rxMinTimeoutMs := _rxMinTimeoutMs s;
     _rxNextTicks := _rxNextTicks s; _rxCmds := _rxCmds s;
     _txFloats := _txFloats s; _txChans := _txChans s;
     _txConvBuff := _txConvBuff s; _txBuffSize := _txBuffSize s;
     _inTxBurst := _inTxBurst s; _txNextTicks := t;
     _txResps := _txResps s |}.

Definition set_txResps (q : list StreamMetadata) (s : bladeRF_SoapySDR) :=
  {| _dev := _dev s; _sample_format := _sample_format s;
     _rxOverflow := _rxOverflow s; _rxChans := _rxChans s;
     _rxFloats := _rxFloats s; _rxConvBuff := _rxConvBuff s;
     _rxBuffSize := _rxBuffSize s; _rxMinTimeoutMs := _rxMinTimeoutMs s;
     _rxNextTicks := _rxNextTicks s; _rxCmds := _rxCmds s;
     _txFloats := _txFloats s; _txChans := _txChans s;
     _txConvBuff := _txConvBuff s; _txBuffSize := _txBuffSize s;
     _inTxBurst := _inTxBurst s; _txNextTicks := _txNextTicks s;
     _txResps := q |}.

(** Number of channels of a direction, [_rxChans.size()]. *)
Definition nchans (chans : list Z) : Z := Z.of_nat (length chans).

(** An array write through a pointer: [data] replaces the first cells of
    the array [buf], the cells behind it keep their contents. *)
Definition store (data buf : list Z) : list Z :=
  data ++ drop (length data) buf.

(** ** Sample buffers and the format conversions *)

Definition float := spec_float.

(** [float(n)] for an integer [n]. *)
Definition float_of_int (n : Z) : float := binary_normalize 24 128 n 0 false.

Definition fdiv (x y : float) : float := SFdiv 24 128 x y.
Definition fmul (x y : float) : float := SFmul 24 128 x y.

(** The rational a finite float stands for. *)
Definition float_value (x : float) : option Q :=
  match x with
  | S754_zero _ => Some 0%Q
  | S754_finite s m e =>
      Some (inject_Z (if s then Z.neg m else Z.pos m) * Qpower 2 e)%Q
  | _ => None
  end.

(** [int16_t(x)] for a float [x]: the fractional part is discarded.  The
    C++ conversion is undefined when the result does not fit, and for
    NaN and the infinities. *)
Definition int16_of_float (x : float) : Z :=
  match x with
  | S754_finite s m e =>
      let a := if 0 <=? e then Z.pos m * 2 ^ e else Z.pos m / 2 ^ (- e) in
      to_int16 (if s then - a else a)
  | _ => 0
  end.

(** A buffer of the caller: complex floats (CF32) or 16-bit integers
    (CS16), I and Q alternating. *)
Inductive AppBuf :=
| BufCF32 (samples : list float)
| BufCS16 (samples : list Z).

Definition as_floats (b : AppBuf) : list float :=
  match b with BufCF32 l => l | BufCS16 _ => [] end.

Definition as_int16s (b : AppBuf) : list Z :=
  match b with BufCS16 l => l | BufCF32 _ => [] end.

(** [buffs[k]]. *)
Definition buff (buffs : list AppBuf) (k : nat) : AppBuf :=
  nth k buffs (BufCS16 []).

(** [buf[i]] on an [int16_t] array. *)
Definition rd_int16 (buf : list Z) (i : nat) : Z := nth i buf 0.

(** [((int8_t* )buf)[i]] on an [int16_t] array: byte [i] of the memory
    behind it, on a little-endian host. *)
Definition rd_int8 (buf : list Z) (i : nat) : Z :=
  let w := nth (Nat.div i 2) buf 0 mod 2 ^ 16 in
  to_int8 (if Nat.even i then w mod 2 ^ 8 else w / 2 ^ 8).

Definition is_sc8 (f : bladerf_format) : bool :=
  match f with
  | BLADERF_FORMAT_SC8_Q7 | BLADERF_FORMAT_SC8_Q7_META => true
  | _ => false
  end.

(** *** Receive: native words to the caller's representation *)

(** One cell of the single-channel float loop of [readStream]: the cell
    is first written from the 16-bit view and, in an 8-bit format, written
    again from the 8-bit view. *)
Definition rx_float_cell (fmt : bladerf_format) (buf : list Z) (i : nat) : float :=
  let o := fdiv (float_of_int (rd_int16 buf i)) (float_of_int 2048) in
  if is_sc8 fmt then fdiv (float_of_int (rd_int8 buf i)) (float_of_int 128)
  else o.

(** [for (size_t i = 0; i < 2 * numElems; i++) output[i] = ...]. *)
Definition rx_convert_float_x1 (fmt : bladerf_format) (buf : list Z)
    (numElems : Z) : list float :=
  map (rx_float_cell fmt buf) (seq 0 (Z.to_nat (2 * numElems))).

(** The native value at cell [i], in the width of the format. *)
Definition rx_native (fmt : bladerf_format) (buf : list Z) (i : nat) : Z :=
  if is_sc8 fmt then rd_int8 buf i else rd_int16 buf i.

(** A cell of the two-channel float loops. *)
Definition rx_scaled (fmt : bladerf_format) (buf : list Z) (i : nat) : float :=
  if is_sc8 fmt then fdiv (float_of_int (rd_int8 buf i)) (float_of_int 128)
  else fdiv (float_of_int (rd_int16 buf i)) (float_of_int 2048).

(** The two-channel loops take four native values per round, two for the
    first output and two for the second: channel [ch] receives cells
    [4g + 2ch] and [4g + 2ch + 1] of round [g]. *)
Definition deinterleave {A} (rd : nat -> A) (ch : nat) (numElems : Z) : list A :=
  flat_map (fun g => [rd (4 * g + 2 * ch)%nat; rd (4 * g + 2 * ch + 1)%nat])
           (seq 0 (Z.to_nat numElems)).

(** *** Transmit: the caller's representation to native words *)

(** [int16_t(x * 2048)]. *)
Definition tx_scaled (x : float) : Z := int16_of_float (fmul x (float_of_int 2048)).

Definition float_at (b : AppBuf) (i : nat) : float := nth i (as_floats b) (S754_zero false).
Definition int16_at (b : AppBuf) (i : nat) : Z := nth i (as_int16s b) 0.

(** Round [g] of the two-channel loops of [writeStream] stores two values
    of the first input, then two of the second. *)
Definition interleave {A} (in0 in1 : nat -> A) (numElems : Z) : list A :=
  flat_map (fun g => [in0 (2 * g)%nat; in0 (2 * g + 1)%nat;
                      in1 (2 * g)%nat; in1 (2 * g + 1)%nat])
           (seq 0 (Z.to_nat numElems)).

(** ** The C library's [atoi]

    Leading white space, an optional sign, then decimal digits up to the
    first other character.  The C function is undefined when the number
    does not fit an [int]; this one does not overflow. *)
Definition is_space (c : ascii) : bool :=
  let n := Z.of_N (N_of_ascii c) in (n =? 32) || ((9 <=? n) && (n <=? 13)).

Definition digit_of (c : ascii) : option Z :=
  let n := Z.of_N (N_of_ascii c) in
  if (48 <=? n) && (n <=? 57) then Some (n - 48) else None.

Fixpoint atoi_digits (acc : Z) (s : string) : Z :=
  match s with
  | String c r =>
      match digit_of c with
      | Some d => atoi_digits (10 * acc + d) r
      | None => acc
      end
  | EmptyString => acc
  end.

Fixpoint atoi (s : string) : Z :=
  match s with
  | String c r =>
      if is_space c then atoi r
      else if Ascii.eqb c "-" then - atoi_digits 0 r
      else if Ascii.eqb c "+" then atoi_digits 0 r
      else atoi_digits 0 s
  | EmptyString => 0
  end.

(** ** Results of the API calls *)

(** The [std::runtime_error]s [setupStream] throws, by cause. *)
Inductive runtime_error :=
| invalid_sample_format (sampleFormat : string)
| invalid_channel_selection
| invalid_format (format : string)
| device_error (ret : Z).

(** What [readStream] leaves behind: the returned code or count, the two
    reference parameters, what it stored in the caller's buffers, and the
    object. *)
Record ReadResult := {
  rr_ret : Z;
  rr_flags : Z;
  rr_timeNs : Z;
  rr_buffs : list AppBuf;
  rr_this : bladeRF_SoapySDR
}.

Record WriteResult := {
  wr_ret : Z;
  wr_flags : Z;
  wr_this : bladeRF_SoapySDR
}.

Definition set_md_flags (f : Z) (md : bladerf_metadata) : bladerf_metadata :=
  {| md_timestamp := md_timestamp md; md_flags := f;
     md_status := md_status md; md_actual_count := md_actual_count md |}.

Definition set_md_timestamp (t : Z) (md : bladerf_metadata) : bladerf_metadata :=
  {| md_timestamp := t; md_flags := md_flags md;
     md_status := md_status md; md_actual_count := md_actual_count md |}.

Definition DEF_NUM_BUFFS : Z := 32.
Definition DEF_BUFF_LEN : Z := 4096.

(** [while (not q.empty()) q.pop()]. *)
Fixpoint pop_all (q : list StreamMetadata) : list StreamMetadata :=
  match q with
  | [] => []
  | _ :: rest => pop_all rest
  end.

(** ** The stream calls *)

Section Streaming.

Context `{ApiConstants}.

(** Members of the class that its header defines: the conversions between
    hardware ticks and nanoseconds at the configured sample rate, and the
    minimal receive timeout that [updateRxMinTimeoutMs] derives from the
    buffer length and the rate. *)
Variable _rxTicksToTimeNs : Z -> Z.
Variable _timeNsToRxTicks : Z -> Z.
Variable _txTicksToTimeNs : Z -> Z.
Variable _timeNsToTxTicks : Z -> Z.
Variable updateRxMinTimeoutMs : Z -> Z.

(** *** setupStream *)

Definition parse_sample_format (sampleFormat : string) : option bladerf_format :=
  if String.eqb sampleFormat "sc16" then Some BLADERF_FORMAT_SC16_Q11
  else if String.eqb sampleFormat "sc16_meta" then Some BLADERF_FORMAT_SC16_Q11_META
  else if String.eqb sampleFormat "sc8" then Some BLADERF_FORMAT_SC8_Q7
  else if String.eqb sampleFormat "sc8_meta" then Some BLADERF_FORMAT_SC8_Q7_META
  else if String.eqb sampleFormat "sc16_packed" then Some BLADERF_FORMAT_SC16_Q11_PACKED
  else None.

(** The check of the channel configuration. *)
Definition channel_layout (direction : Z) (channels : list Z)
    : option bladerf_channel_layout :=
  match channels with
  | [c] =>
      if (c =? 0) || (c =? 1)
      then Some (if direction =? SOAPY_SDR_RX then BLADERF_RX_X1 else BLADERF_TX_X1)
      else None
  | [c0; c1] =>
      if (c0 =? 0) && (c1 =? 1)
      then Some (if direction =? SOAPY_SDR_RX then BLADERF_RX_X2 else BLADERF_TX_X2)
      else None
  | _ => None
  end.

(** [(args.count(key) == 0)? 0 : atoi(args.at(key).c_str())]. *)
Definition int_arg (args : gmap string string) (key : string) : Z :=
  match args !! key with
  | None => 0
  | Some v => atoi v
  end.

(** The number of buffers to allocate. *)
Definition numBuffs_of (args : gmap string string) : Z :=
  let numBuffs := int_arg args "buffers" in
  let numBuffs := if numBuffs =? 0 then DEF_NUM_BUFFS else numBuffs in
  if numBuffs =? 1 then numBuffs + 1 else numBuffs.

(** The size of each buffer; [%] and [/] truncate towards zero. *)
Definition bufSize_of (args : gmap string string) : Z :=
  let bufSize := int_arg args "buflen" in
  let bufSize := if bufSize =? 0 then DEF_BUFF_LEN else bufSize in
  if negb (Z.rem bufSize 1024 =? 0) then (Z.quot bufSize 1024 + 1) * 1024
  else bufSize.

(** The number of active transfers. *)
Definition numXfers_of (args : gmap string string) : Z :=
  let numBuffs := numBuffs_of args in
  let numXfers := int_arg args "transfers" in
  let numXfers := if numXfers =? 0 then Z.quot numBuffs 2 else numXfers in
  let numXfers := if numBuffs <? numXfers then numBuffs else numXfers in
  if 32 <? numXfers then 32 else numXfers.

(** The loop that enables the channels; [enable_ret ch] is what the
    device returns for channel [ch].  The first failure ends it. *)
Fixpoint enable_channels (enable_ret : Z -> Z) (direction : Z)
    (channels : list Z) (s : bladeRF_SoapySDR) : option Z * bladeRF_SoapySDR :=
  match channels with
  | [] => (None, s)
  | ch :: rest =>
      let s := bladerf_call (bladerf_enable_module direction ch true) s in
      if enable_ret ch =? 0 then enable_channels enable_ret direction rest s
      else (Some (enable_ret ch), s)
  end.

(** The assignments of the [direction == SOAPY_SDR_RX] block. *)
Definition setup_rx (format : string) (channels : list Z) (bufSize : Z)
    (s : bladeRF_SoapySDR) : bladeRF_SoapySDR :=
  {| _dev := _dev s; _sample_format := _sample_format s;
     _rxOverflow := false;
     _rxChans := channels;
     _rxFloats := String.eqb format SOAPY_SDR_CF32;
     _rxConvBuff :=
       replicate (Z.to_nat (to_size_t (bufSize * 2 * nchans channels))) 0;
     _rxBuffSize := to_size_t bufSize;
     _rxMinTimeoutMs := updateRxMinTimeoutMs (to_size_t bufSize);
     _rxNextTicks := _rxNextTicks s; _rxCmds := _rxCmds s;
     _txFloats := _txFloats s; _txChans := _txChans s;
     _txConvBuff := _txConvBuff s; _txBuffSize := _txBuffSize s;
     _inTxBurst := _inTxBurst s; _txNextTicks := _txNextTicks s;
     _txResps := _txResps s |}.

(** The assignments of the [direction == SOAPY_SDR_TX] block. *)
Definition setup_tx (format : string) (channels : list Z) (bufSize : Z)
    (s : bladeRF_SoapySDR) : bladeRF_SoapySDR :=
  {| _dev := _dev s; _sample_format := _sample_format s;
     _rxOverflow := _rxOverflow s; _rxChans := _rxChans s;
     _rxFloats := _rxFloats s; _rxConvBuff := _rxConvBuff s;
     _rxBuffSize := _rxBuffSize s; _rxMinTimeoutMs := _rxMinTimeoutMs s;
     _rxNextTicks := _rxNextTicks s; _rxCmds := _rxCmds s;
     _txFloats := String.eqb format SOAPY_SDR_CF32;
     _txChans := channels;
     _txConvBuff :=
       replicate (Z.to_nat (to_size_t (bufSize * 2 * nchans channels))) 0;
     _txBuffSize := to_size_t bufSize;
     _inTxBurst := false;
     _txNextTicks := _txNextTicks s;
     _txResps := _txResps s |}.

(** [setupStream]: [config_ret] is what [bladerf_sync_config] returns and
    [enable_ret ch] what [bladerf_enable_module] returns for channel [ch].
    The three computed parameters are [int]s and the device takes
    [unsigned int]s.
    The result is the thrown error or the stream handle, which holds the
    direction, together with the object as the call leaves it. *)
Definition setupStream (config_ret : Z) (enable_ret : Z -> Z)
    (direction : Z) (format : string) (channels_ : list Z)
    (args : gmap string string) (s : bladeRF_SoapySDR)
    : (runtime_error + Z) * bladeRF_SoapySDR :=
  let channels := match channels_ with [] => [0] | _ => channels_ end in
  let sampleFormat := default "sc16_meta"%string (args !! "format") in
  match parse_sample_format sampleFormat with
  | None => (inl (invalid_sample_format sampleFormat), s)
  | Some fmt =>
    let s := set_sample_format fmt s in
    match channel_layout direction channels with
    | None => (inl invalid_channel_selection, s)
    | Some layout =>
      if negb (String.eqb format SOAPY_SDR_CF32 || String.eqb format SOAPY_SDR_CS16)
      then (inl (invalid_format format), s)
      else
        let numBuffs := numBuffs_of args in
        let bufSize := bufSize_of args in
        let numXfers := numXfers_of args in
        let s := bladerf_call
                   (bladerf_sync_config layout fmt (to_uint numBuffs)
                      (to_uint bufSize) (to_uint numXfers) 1000) s in
        if negb (config_ret =? 0) then (inl (device_error config_ret), s)
        else
          match enable_channels enable_ret direction channels s with
          | (Some ret, s) => (inl (device_error ret), s)
          | (None, s) =>
              let s := if direction =? SOAPY_SDR_RX
                       then setup_rx format channels bufSize s else s in
              let s := if direction =? SOAPY_SDR_TX
                       then setup_tx format channels bufSize s else s in
              (inr direction, s)
          end
    end
  end.

(** *** activateStream and deactivateStream *)

Definition activateStream (stream flags timeNs numElems : Z)
    (s : bladeRF_SoapySDR) : Z * bladeRF_SoapySDR :=
  let s := if stream =? SOAPY_SDR_RX
           then set_rxCmds (_rxCmds s ++
                  [{| sm_flags := flags; sm_timeNs := timeNs;
                      sm_numElems := numElems; sm_code := 0 |}]) s
           else s in
  if (stream =? SOAPY_SDR_TX) && negb (flags =? 0)
  then (SOAPY_SDR_NOT_SUPPORTED, s)
  else (0, s).

(** [tx] is the device's answer to the transmission that ends an open
    burst; the source discards it.  Of the metadata it sets the
    timestamp, the flags and the status. *)
Definition deactivateStream (tx : DevReply) (stream flags timeNs : Z)
    (s : bladeRF_SoapySDR) : Z * bladeRF_SoapySDR :=
  if negb (flags =? 0) then (SOAPY_SDR_NOT_SUPPORTED, s)
  else
    let s := if stream =? SOAPY_SDR_RX then set_rxCmds (pop_all (_rxCmds s)) s
             else s in
    let s :=
      if stream =? SOAPY_SDR_TX then
        let s :=
          if _inTxBurst s then
            let md := {| md_timestamp := 0;
                         md_flags := BLADERF_META_FLAG_TX_BURST_END;
                         md_status := 0; md_actual_count := 0 |} in
            let s := set_txConvBuff (<[0%nat := 0]> (_txConvBuff s)) s in
            let s := set_txConvBuff (<[1%nat := 0]> (_txConvBuff s)) s in
            bladerf_call (bladerf_sync_tx (_txConvBuff s) 1 md 100) s
          else s in
        set_inTxBurst false s
      else s in
    (0, s).

(** *** readStream *)

(** The flags [readStream] adds for the two expansion-port status bits,
    when the SoapySDR headers define the user flags. *)
Definition user_flags (status flags : Z) : Z :=
  match SOAPY_SDR_USER_FLAG0, SOAPY_SDR_USER_FLAG1 with
  | Some flag0, Some flag1 =>
      let flags :=
        if negb (Z.land status BLADERF_META_FLAG_RX_HW_MINIEXP1 =? 0)
        then Z.lor flags flag0 else flags in
      if negb (Z.land status BLADERF_META_FLAG_RX_HW_MINIEXP2 =? 0)
      then Z.lor flags flag1 else flags
  | _, _ => flags
  end.

(** What the conversion branches of [readStream] store in the caller's
    buffers after a successful receive of [numElems] elements; [direct] is
    the case without conversion, where the device wrote there itself. *)
Definition rx_convert (s : bladeRF_SoapySDR) (numElems : Z)
    (direct : list AppBuf) : list AppBuf :=
  let fmt := _sample_format s in
  let buf := _rxConvBuff s in
  if _rxFloats s && (nchans (_rxChans s) =? 1) then
    [BufCF32 (rx_convert_float_x1 fmt buf numElems)]
  else if negb (_rxFloats s) && (nchans (_rxChans s) =? 2) then
    [BufCS16 (deinterleave (rx_native fmt buf) 0 numElems);
     BufCS16 (deinterleave (rx_native fmt buf) 1 numElems)]
  else if _rxFloats s && (nchans (_rxChans s) =? 2) then
    [BufCF32 (deinterleave (rx_scaled fmt buf) 0 numElems);
     BufCF32 (deinterleave (rx_scaled fmt buf) 1 numElems)]
  else direct.

(** [rx] is the device's answer to the receive call, if one is made.
    [flags] and [timeNs] are the values the caller's variables hold on
    entry. *)
Definition readStream (rx : DevReply) (numElems flags timeNs timeoutUs : Z)
    (s : bladeRF_SoapySDR) : ReadResult :=
  (* clip to the available conversion buffer size *)
  let numElems := Z.min numElems (_rxBuffSize s) in
  match _rxCmds s with
  | [] =>
      {| rr_ret := SOAPY_SDR_TIMEOUT; rr_flags := flags; rr_timeNs := timeNs;
         rr_buffs := []; rr_this := s |}
  | cmd :: rest =>
    (* clear output metadata *)
    let flags := 0 in
    let timeNs := 0 in
    if _rxOverflow s then
      {| rr_ret := SOAPY_SDR_OVERFLOW;
         rr_flags := Z.lor flags SOAPY_SDR_HAS_TIME;
         rr_timeNs := _rxTicksToTimeNs (_rxNextTicks s);
         rr_buffs := [];
         rr_this := set_rxOverflow false s |}
    else
      let md := md_zero in
      let md := if Z.land (sm_flags cmd) SOAPY_SDR_HAS_TIME =? 0
                then set_md_flags (Z.lor (md_flags md) BLADERF_META_FLAG_RX_NOW) md
                else md in
      let md := set_md_timestamp (_timeNsToRxTicks (sm_timeNs cmd)) md in
      let numElems := if 0 <? sm_numElems cmd
                      then Z.min (sm_numElems cmd) numElems else numElems in
      (* [cmd] refers to the front of the queue *)
      let cmd := set_sm_flags 0 cmd in
      let s := set_rxCmds (cmd :: rest) s in
      let conv := _rxFloats s || (nchans (_rxChans s) =? 2) in
      let timeoutMs := Z.max (_rxMinTimeoutMs s) (Z.quot timeoutUs 1000) in
      let s := bladerf_call
                 (bladerf_sync_rx (to_uint (numElems * nchans (_rxChans s))) md
                                  (to_uint timeoutMs)) s in
      let s := if conv then set_rxConvBuff (store (dr_data rx) (_rxConvBuff s)) s
               else s in
      let direct := if conv then [] else [BufCS16 (dr_data rx)] in
      let ret := dr_ret rx in
      if ret =? BLADERF_ERR_TIMEOUT then
        {| rr_ret := SOAPY_SDR_TIMEOUT; rr_flags := flags; rr_timeNs := timeNs;
           rr_buffs := direct; rr_this := s |}
      else if ret =? BLADERF_ERR_TIME_PAST then
        {| rr_ret := SOAPY_SDR_TIME_ERROR; rr_flags := flags; rr_timeNs := timeNs;
           rr_buffs := direct; rr_this := s |}
      else if negb (ret =? 0) then
        (* any error when this is a finite burst causes the command to be removed *)
        let s := if 0 <? sm_numElems cmd then set_rxCmds rest s else s in
        {| rr_ret := SOAPY_SDR_STREAM_ERROR; rr_flags := flags; rr_timeNs := timeNs;
           rr_buffs := direct; rr_this := s |}
      else
        let md := dr_md rx in
        (* actual count is number of samples in total all channels *)
        let numElems := Z.quot (md_actual_count md) (nchans (_rxChans s)) in
        let buffs := rx_convert s numElems direct in
        (* unpack the metadata *)
        let flags := Z.lor flags SOAPY_SDR_HAS_TIME in
        let timeNs := _rxTicksToTimeNs (md_timestamp md) in
        (* parse the status *)
        let s := if negb (Z.land (md_status md) BLADERF_META_STATUS_OVERRUN =? 0)
                 then set_rxOverflow true s else s in
        let flags := user_flags (md_status md) flags in
        (* consume from the command if this is a finite burst *)
        let s :=
          if 0 <? sm_numElems cmd then
            let cmd := set_sm_numElems (to_size_t (sm_numElems cmd - numElems)) cmd in
            if sm_numElems cmd =? 0 then set_rxCmds rest s
            else set_rxCmds (cmd :: rest) s
          else s in
        let s := set_rxNextTicks (to_size_t (md_timestamp md + numElems)) s in
        {| rr_ret := to_int numElems; rr_flags := flags; rr_timeNs := timeNs;
           rr_buffs := buffs; rr_this := s |}
  end.

(** The receive call [readStream] issues when [cmd] is at the front of
    the queue and no overflow is pending (see [readStream_calls_device]). *)
Definition rx_call (numElems timeoutUs : Z) (cmd : StreamMetadata)
    (s : bladeRF_SoapySDR) : DevCall :=
  let numElems := Z.min numElems (_rxBuffSize s) in
  let numElems := if 0 <? sm_numElems cmd
                  then Z.min (sm_numElems cmd) numElems else numElems in
  let md := if Z.land (sm_flags cmd) SOAPY_SDR_HAS_TIME =? 0
            then set_md_flags (Z.lor 0 BLADERF_META_FLAG_RX_NOW) md_zero
            else md_zero in
  bladerf_sync_rx (to_uint (numElems * nchans (_rxChans s)))
    (set_md_timestamp (_timeNsToRxTicks (sm_timeNs cmd)) md)
    (to_uint (Z.max (_rxMinTimeoutMs s) (Z.quot timeoutUs 1000))).

(** The number of elements a successful receive reports for the device
    answer [rx]. *)
Definition rx_received (s : bladeRF_SoapySDR) (rx : DevReply) : Z :=
  Z.quot (md_actual_count (dr_md rx)) (nchans (_rxChans s)).

(** Successive calls of [readStream], one for each device answer of
    [rxs], each asking for [numElems] elements. *)
Fixpoint readStream_run (rxs : list DevReply) (numElems timeoutUs : Z)
    (s : bladeRF_SoapySDR) : bladeRF_SoapySDR :=
  match rxs with
  | [] => s
  | rx :: rxs =>
      readStream_run rxs numElems timeoutUs
        (rr_this (readStream rx numElems 0 0 timeoutUs s))
  end.

(** *** writeStream *)

(** The conversion branches of [writeStream]: what they leave in
    [_txConvBuff] for [numElems] elements of the caller's buffers. *)
Definition tx_convert (s : bladeRF_SoapySDR) (buffs : list AppBuf)
    (numElems : Z) : list Z :=
  let conv := _txConvBuff s in
  if _txFloats s && (nchans (_txChans s) =? 1) then
    store (map (fun i => tx_scaled (float_at (buff buffs 0) i))
               (seq 0 (Z.to_nat (2 * numElems)))) conv
  else if negb (_txFloats s) && (nchans (_txChans s) =? 2) then
    store (interleave (int16_at (buff buffs 0)) (int16_at (buff buffs 1)) numElems)
          conv
  else if _txFloats s && (nchans (_txChans s) =? 2) then
    store (interleave (fun i => tx_scaled (float_at (buff buffs 0) i))
                      (fun i => tx_scaled (float_at (buff buffs 1) i)) numElems)
          conv
  else conv.

(** The status events the transmit path appends. *)
Definition underflow_event : StreamMetadata :=
  {| sm_flags := 0; sm_timeNs := 0; sm_numElems := 0;
     sm_code := SOAPY_SDR_UNDERFLOW |}.

Definition burst_end_event (ticks : Z) : StreamMetadata :=
  {| sm_flags := Z.lor SOAPY_SDR_END_BURST SOAPY_SDR_HAS_TIME;
     sm_timeNs := _txTicksToTimeNs ticks; sm_numElems := 0; sm_code := 0 |}.

(** [hw_time] is the tick [bladerf_get_timestamp] reports and [tx] the
    device's answer to the transmit call. *)
Definition writeStream (hw_time : Z) (tx : DevReply) (buffs : list AppBuf)
    (numElems flags timeNs timeoutUs : Z) (s : bladeRF_SoapySDR) : WriteResult :=
  (* clear EOB when the last sample will not be transmitted *)
  let flags := if _txBuffSize s <? numElems
               then Z.land flags (Z.lnot SOAPY_SDR_END_BURST) else flags in
  (* clip to the available conversion buffer size *)
  let numElems := Z.min numElems (_txBuffSize s) in
  let md := md_zero in
  let '(md, s) :=
    if _inTxBurst s then
      if negb (Z.land flags SOAPY_SDR_HAS_TIME =? 0) then
        let md := set_md_timestamp (_timeNsToTxTicks timeNs) md in
        let md := set_md_flags
                    (Z.lor (md_flags md) BLADERF_META_FLAG_TX_UPDATE_TIMESTAMP) md in
        (md, set_txNextTicks (md_timestamp md) s)
      else (md, s)
    else
      let md := set_md_flags
                  (Z.lor (md_flags md) BLADERF_META_FLAG_TX_BURST_START) md in
      if negb (Z.land flags SOAPY_SDR_HAS_TIME =? 0) then
        let md := set_md_timestamp (_timeNsToTxTicks timeNs) md in
        (md, set_txNextTicks (md_timestamp md) s)
      else
        let md := set_md_flags (Z.lor (md_flags md) BLADERF_META_FLAG_TX_NOW) md in
        let s := bladerf_call bladerf_get_timestamp_tx s in
        (md, set_txNextTicks hw_time s) in
  (* end of burst *)
  let md := if negb (Z.land flags SOAPY_SDR_END_BURST =? 0)
            then set_md_flags (Z.lor (md_flags md) BLADERF_META_FLAG_TX_BURST_END) md
            else md in
  (* prepare buffers *)
  let conv := _txFloats s || (nchans (_txChans s) =? 2) in
  let s := set_txConvBuff (tx_convert s buffs numElems) s in
  let samples := if conv then _txConvBuff s else as_int16s (buff buffs 0) in
  (* send the tx samples *)
  let s := bladerf_call
             (bladerf_sync_tx samples (to_uint (numElems * nchans (_txChans s))) md
                              (to_uint (Z.quot timeoutUs 1000))) s in
  let ret := dr_ret tx in
  if ret =? BLADERF_ERR_TIMEOUT then
    {| wr_ret := SOAPY_SDR_TIMEOUT; wr_flags := flags; wr_this := s |}
  else if ret =? BLADERF_ERR_TIME_PAST then
    {| wr_ret := SOAPY_SDR_TIME_ERROR; wr_flags := flags; wr_this := s |}
  else if negb (ret =? 0) then
    {| wr_ret := SOAPY_SDR_STREAM_ERROR; wr_flags := flags; wr_this := s |}
  else
    let md := dr_md tx in
    let s := set_txNextTicks (to_size_t (_txNextTicks s + numElems)) s in
    (* always in a burst after successful tx *)
    let s := set_inTxBurst true s in
    (* parse the status *)
    let s := if negb (Z.land (md_status md) BLADERF_META_STATUS_UNDERRUN =? 0)
             then set_txResps (_txResps s ++ [underflow_event]) s else s in
    (* end burst status message *)
    let s := if negb (Z.land flags SOAPY_SDR_END_BURST =? 0)
             then set_inTxBurst false
                    (set_txResps (_txResps s ++ [burst_end_event (_txNextTicks s)]) s)
             else s in
    {| wr_ret := to_int numElems; wr_flags := flags; wr_this := s |}.

(** The flags [writeStream] works with after its first statement, and
    the metadata it hands to the device for them (see [writeStream_flags]
    and [writeStream_calls_device]). *)
Definition tx_flags (numElems flags : Z) (s : bladeRF_SoapySDR) : Z :=
  if _txBuffSize s <? numElems
  then Z.land flags (Z.lnot SOAPY_SDR_END_BURST) else flags.

Definition tx_md (flags timeNs : Z) (s : bladeRF_SoapySDR) : bladerf_metadata :=
  let md :=
    if _inTxBurst s then
      if negb (Z.land flags SOAPY_SDR_HAS_TIME =? 0) then
        set_md_flags (Z.lor 0 BLADERF_META_FLAG_TX_UPDATE_TIMESTAMP)
          (set_md_timestamp (_timeNsToTxTicks timeNs) md_zero)
      else md_zero
    else
      let md := set_md_flags (Z.lor 0 BLADERF_META_FLAG_TX_BURST_START) md_zero in
      if negb (Z.land flags SOAPY_SDR_HAS_TIME =? 0) then
        set_md_timestamp (_timeNsToTxTicks timeNs) md
      else set_md_flags (Z.lor (md_flags md) BLADERF_META_FLAG_TX_NOW) md in
  if negb (Z.land flags SOAPY_SDR_END_BURST =? 0)
  then set_md_flags (Z.lor (md_flags md) BLADERF_META_FLAG_TX_BURST_END) md
  else md.

(** The status events a successful [writeStream] appends for the device's
    answer [tx], given the flags in force and the tick the burst has
    reached (see [writeStream_success]). *)
Definition underrun_events (tx : DevReply) : list StreamMetadata :=
  if negb (Z.land (md_status (dr_md tx)) BLADERF_META_STATUS_UNDERRUN =? 0)
  then [underflow_event] else [].

Definition tx_events (tx : DevReply) (flags ticks : Z) : list StreamMetadata :=
  underrun_events tx ++
  (if negb (Z.land flags SOAPY_SDR_END_BURST =? 0)
   then [burst_end_event ticks] else []).

End Streaming.

(** ** The other calls of the streaming file *)

Definition set_rxChans (chans : list Z) (s : bladeRF_SoapySDR) :=
  {| _dev := _dev s; _sample_format := _sample_format s;
     _rxOverflow := _rxOverflow s; _rxChans := chans;
     _rxFloats := _rxFloats s; _rxConvBuff := _rxConvBuff s;
     _rxBuffSize := _rxBuffSize s; _rxMinTimeoutMs := _rxMinTimeoutMs s;
     _rxNextTicks := _rxNextTicks s; _rxCmds := _rxCmds s;
     _txFloats := _txFloats s; _txChans := _txChans s;
     _txConvBuff := _txConvBuff s; _txBuffSize := _txBuffSize s;
     _inTxBurst := _inTxBurst s; _txNextTicks := _txNextTicks s;
     _txResps := _txResps s |}.

Definition set_txChans (chans : list Z) (s : bladeRF_SoapySDR) :=
  {| _dev := _dev s; _sample_format := _sample_format s;
     _rxOverflow := _rxOverflow s; _rxChans := _rxChans s;
     _rxFloats := _rxFloats s; _rxConvBuff := _rxConvBuff s;
     _rxBuffSize := _rxBuffSize s; _rxMinTimeoutMs := _rxMinTimeoutMs s;
     _rxNextTicks := _rxNextTicks s; _rxCmds := _rxCmds s;
     _txFloats := _txFloats s; _txChans := chans;
     _txConvBuff := _txConvBuff s; _txBuffSize := _txBuffSize s;
     _inTxBurst := _inTxBurst s; _txNextTicks := _txNextTicks s;
     _txResps := _txResps s |}.

(** [SoapySDR::ArgInfo], with the fields [getStreamArgsInfo] assigns; a
    field it leaves alone has the value of the library's constructor (an
    empty string, the STRING type, the empty range, no options). *)
Inductive ArgType := ArgBOOL | ArgINT | ArgFLOAT | ArgSTRING.

Record ArgInfo := {
  ai_key : string;
  ai_value : string;
  ai_name : string;
  ai_description : string;
  ai_units : string;
  ai_type : ArgType;
  ai_range : Z * Z;
  ai_options : list string;
  ai_optionNames : list string
}.

(** [std::to_string] on an [int]. *)
Definition to_string (n : Z) : string := pretty n.

(** [getStreamArgsInfo]: the four stream options, in the order they are
    pushed. *)
Definition getStreamArgsInfo : list ArgInfo :=
  [ {| ai_key := "buffers"; ai_value := to_string DEF_NUM_BUFFS;
       ai_name := "Buffer Count";
       ai_description := "Number of async USB buffers.";
       ai_units := "buffers"; ai_type := ArgINT; ai_range := (0, 0);
       ai_options := []; ai_optionNames := [] |};
    {| ai_key := "buflen"; ai_value := to_string DEF_BUFF_LEN;
       ai_name := "Buffer Length";
       ai_description :=
         "Number of bytes per USB buffer, the number must be a multiple of 1024.";
       ai_units := "bytes"; ai_type := ArgINT; ai_range := (0, 0);
       ai_options := []; ai_optionNames := [] |};
    {| ai_key := "transfers"; ai_value := "0";
       ai_name := "Num Transfers";
       ai_description := "Number of async USB transfers. Use 0 for automatic";
       ai_units := "bytes"; ai_type := ArgINT; ai_range := (0, 32);
       ai_options := []; ai_optionNames := [] |};
    {| ai_key := "format"; ai_value := "sc16_meta";
       ai_name := "Sample Format";
       ai_description :=
         "Sample format (sc16, sc16_meta, sc8, sc8_meta, sc16_packed)";
       ai_units := ""; ai_type := ArgSTRING; ai_range := (0, 0);
       ai_options := ["sc16"; "sc16_meta"; "sc8"; "sc8_meta"; "sc16_packed"];
       ai_optionNames := ["16-bit"; "16-bit with Metadata"; "8-bit";
                          "8-bit with Metadata"; "Packed 16-bit"] |} ]%string.

(** The option map a caller builds when it passes every advertised
    option with its advertised value. *)
Definition advertised_args : gmap string string :=
  list_to_map (map (fun a => (ai_key a, ai_value a)) getStreamArgsInfo).

(** One turn of the polling loop of [readStreamStatus] observes the
    hardware time (when the front event carries a time), the clock before
    it sleeps and the clock after; the clock counts nanoseconds. *)
Record Poll := {
  poll_hardwareTime : Z;
  poll_timeNow : Z;
  poll_timeAfter : Z
}.

(** How the polling loop ends: an event is ready, or the deadline has
    passed. *)
Inductive WaitEnd := WaitReady | WaitTimeout.

Record StatusResult := {
  sr_ret : Z;
  sr_flags : Z;
  sr_timeNs : Z;
  sr_slept : list Z;
  sr_this : bladeRF_SoapySDR
}.

Section StreamingRest.

Context `{ApiConstants}.

(** [getStreamFormats]. *)
Definition getStreamFormats : list string := [SOAPY_SDR_CS16; SOAPY_SDR_CF32].

(** [getNativeStreamFormat]: the format returned and the full scale
    stored through the reference. *)
Definition getNativeStreamFormat : string * Z := (SOAPY_SDR_CS16, 2048).

(** The loop of [closeStream]; [disable_ret ch] is what the device
    returns when channel [ch] is disabled.  The first failure ends it. *)
Fixpoint disable_channels (disable_ret : Z -> Z) (direction : Z)
    (chans : list Z) (s : bladeRF_SoapySDR) : option Z * bladeRF_SoapySDR :=
  match chans with
  | [] => (None, s)
  | ch :: rest =>
      let s := bladerf_call (bladerf_enable_module direction ch false) s in
      if disable_ret ch =? 0 then disable_channels disable_ret direction rest s
      else (Some (disable_ret ch), s)
  end.

(** [closeStream]: the error thrown, if any, and the object.  [chans] is
    a reference to the channel list of the direction, [_rxChans] for the
    receive direction and [_txChans] for every other value.  An array
    that has been deleted has no cell left. *)
Definition closeStream (disable_ret : Z -> Z) (stream : Z)
    (s : bladeRF_SoapySDR) : option runtime_error * bladeRF_SoapySDR :=
  let direction := stream in
  let chans := if direction =? SOAPY_SDR_RX then _rxChans s else _txChans s in
  match disable_channels disable_ret direction chans s with
  | (Some ret, s) => (Some (device_error ret), s)
  | (None, s) =>
      let s := if direction =? SOAPY_SDR_RX then set_rxChans [] s
               else set_txChans [] s in
      let s := if direction =? SOAPY_SDR_RX then set_rxConvBuff [] s else s in
      let s := if direction =? SOAPY_SDR_TX then set_txConvBuff [] s else s in
      (None, s)
  end.

(** [getStreamMTU]. *)
Definition getStreamMTU (stream : Z) (s : bladeRF_SoapySDR) : Z :=
  if stream =? SOAPY_SDR_RX then _rxBuffSize s else _txBuffSize s.

(** The first two tests of the polling loop, which need no clock: some
    event is queued and the front one carries no time. *)
Definition front_untimed (q : list StreamMetadata) : bool :=
  match q with
  | [] => false
  | e :: _ => Z.land (sm_flags e) SOAPY_SDR_HAS_TIME =? 0
  end.

(** The third test: the time of the front event has passed. *)
Definition front_expired (q : list StreamMetadata) (hardwareTime : Z) : bool :=
  match q with
  | [] => false
  | e :: _ => sm_timeNs e <? hardwareTime
  end.

(** The polling loop of [readStreamStatus] against the observations
    [polls], one for each turn that gets as far as the hardware time or
    the sleep; [slept] collects the durations handed to [sleep_for], in
    microseconds.  The queue does not change while the loop runs.  [None]
    when the observations end before the loop does. *)
Fixpoint status_wait (exitTime : Z) (q : list StreamMetadata)
    (polls : list Poll) (slept : list Z) : option (WaitEnd * list Z) :=
  if front_untimed q then Some (WaitReady, slept)
  else
    match polls with
    | [] => None
    | p :: polls =>
        if front_expired q (poll_hardwareTime p) then Some (WaitReady, slept)
        else
          (* sleep a bit, never more than time remaining *)
          let timeLeft := Z.quot (exitTime - poll_timeNow p) 1000 in
          let slept := slept ++ [Z.min 1000 timeLeft] in
          (* check for timeout expired *)
          if exitTime <? poll_timeAfter p then Some (WaitTimeout, slept)
          else status_wait exitTime q polls slept
    end.

(** [readStreamStatus]: [start] is the clock on entry; [flags] and
    [timeNs] are the values the caller's variables hold on entry.
    [getHardwareTime] belongs to another file: its readings are given by
    [polls] and the calls it makes on the device are not logged. *)
Definition readStreamStatus (start : Z) (polls : list Poll)
    (stream flags timeNs timeoutUs : Z) (s : bladeRF_SoapySDR)
    : option StatusResult :=
  let direction := stream in
  if direction =? SOAPY_SDR_RX then
    Some {| sr_ret := SOAPY_SDR_NOT_SUPPORTED; sr_flags := flags;
            sr_timeNs := timeNs; sr_slept := []; sr_this := s |}
  else
    let exitTime := start + timeoutUs * 1000 in
    match status_wait exitTime (_txResps s) polls [] with
    | None => None
    | Some (WaitTimeout, slept) =>
        Some {| sr_ret := SOAPY_SDR_TIMEOUT; sr_flags := flags;
                sr_timeNs := timeNs; sr_slept := slept; sr_this := s |}
    | Some (WaitReady, slept) =>
        (* extract the most recent status event *)
        match _txResps s with
        | [] =>
            Some {| sr_ret := SOAPY_SDR_TIMEOUT; sr_flags := flags;
                    sr_timeNs := timeNs; sr_slept := slept; sr_this := s |}
        | resp :: rest =>
            Some {| sr_ret := sm_code resp; sr_flags := sm_flags resp;
                    sr_timeNs := sm_timeNs resp; sr_slept := slept;
                    sr_this := set_txResps rest s |}
        end
    end.

(** Successive calls of [writeStream]; a call is given by the hardware
    time and the device answer it meets and by its arguments. *)
Record WriteCall := {
  wc_hw_time : Z;
  wc_tx : DevReply;
  wc_buffs : list AppBuf;
  wc_numElems : Z;
  wc_flags : Z;
  wc_timeNs : Z;
  wc_timeoutUs : Z
}.

End StreamingRest.

Section StreamingRuns.

Context `{ApiConstants}.
Variable _txTicksToTimeNs : Z -> Z.
Variable _timeNsToTxTicks : Z -> Z.

Definition writeStream_call (c : WriteCall) (s : bladeRF_SoapySDR) : WriteResult :=
  writeStream _txTicksToTimeNs _timeNsToTxTicks (wc_hw_time c) (wc_tx c)
    (wc_buffs c) (wc_numElems c) (wc_flags c) (wc_timeNs c) (wc_timeoutUs c) s.

Fixpoint writeStream_run (calls : list WriteCall) (s : bladeRF_SoapySDR)
    : bladeRF_SoapySDR :=
  match calls with
  | [] => s
  | c :: calls => writeStream_run calls (wr_this (writeStream_call c s))
  end.

End StreamingRuns.

(** ** Well-formed streams

    What [setupStream] establishes for a direction and the other calls
    rely on: one or two channels, a positive buffer size that fits an
    [int], and a conversion buffer of two 16-bit words for each element
    and channel. *)
Definition rx_stream_ok (s : bladeRF_SoapySDR) : Prop :=
  (nchans (_rxChans s) = 1 \/ nchans (_rxChans s) = 2) /\
  0 < _rxBuffSize s < 2 ^ 31 /\
  Z.of_nat (length (_rxConvBuff s)) = 2 * _rxBuffSize s * nchans (_rxChans s).

Definition tx_stream_ok (s : bladeRF_SoapySDR) : Prop :=
  (nchans (_txChans s) = 1 \/ nchans (_txChans s) = 2) /\
  0 < _txBuffSize s < 2 ^ 31 /\
  Z.of_nat (length (_txConvBuff s)) = 2 * _txBuffSize s * nchans (_txChans s).

(** The object with its device log replaced: what is left when the order
    of the device calls is put aside. *)
Definition with_dev (log : list DevCall) (s : bladeRF_SoapySDR) :=
  {| _dev := log; _sample_format := _sample_format s;
     _rxOverflow := _rxOverflow s; _rxChans := _rxChans s;
     _rxFloats := _rxFloats s; _rxConvBuff := _rxConvBuff s;
     _rxBuffSize := _rxBuffSize s; _rxMinTimeoutMs := _rxMinTimeoutMs s;
     _rxNextTicks := _rxNextTicks s; _rxCmds := _rxCmds s;
     _txFloats := _txFloats s; _txChans := _txChans s;
     _txConvBuff := _txConvBuff s; _txBuffSize := _txBuffSize s;
     _inTxBurst := _inTxBurst s; _txNextTicks := _txNextTicks s;
     _txResps := _txResps s |}.

(** The channel lists [setupStream] accepts. *)
Definition accepted_channels : list (list Z) := [[]; [0]; [1]; [0; 1]].

(** ** The two directions, seen apart

    What the receive path works on (together with the sample format) and
    what the transmit path works on. *)
Definition rx_view (s : bladeRF_SoapySDR) :=
  (_sample_format s, _rxOverflow s, _rxChans s, _rxFloats s, _rxConvBuff s,
   _rxBuffSize s, _rxMinTimeoutMs s, _rxNextTicks s, _rxCmds s).

Definition tx_view (s : bladeRF_SoapySDR) :=
  (_txFloats s, _txChans s, _txConvBuff s, _txBuffSize s, _inTxBurst s,
   _txNextTicks s, _txResps s).

(** The number of elements a write of [numElems] sends on the stream. *)
Definition tx_sent (s : bladeRF_SoapySDR) (c : WriteCall) : Z :=
  Z.min (wc_numElems c) (_txBuffSize s).

(** ** Checks by enumeration *)

(** A 16-bit word that is received as a float and transmitted as a float
    is that word again. *)
Definition float_roundtrip (x : Z) : bool :=
  tx_scaled (fdiv (float_of_int x) (float_of_int 2048)) =? x.

(** A byte that is received as a float in an 8-bit format and
    transmitted as a float becomes sixteen times the byte. *)
Definition float_roundtrip_8bit (x : Z) : bool :=
  tx_scaled (fdiv (float_of_int x) (float_of_int 128)) =? 16 * x.

(** [check] holds on the [n] integers from [x] on. *)
Fixpoint all_from (check : Z -> bool) (n : nat) (x : Z) : bool :=
  match n with
  | O => true
  | S n => check x && all_from check n (x + 1)
  end.

(** Rounding towards zero. *)
Definition Qtruncate (q : Q) : Z :=
  if Qle_bool 0 q then Qfloor q else Qceiling q.

(** ** Receive scaling, as the specification words it *)

(** The native values the specification lists. *)
Definition representative_values : list Z := [0; 2048; -2048; 32767; -32768].

(** The divisor of a native format: 128 for 8-bit samples, 2048 for
    16-bit samples. *)
Definition rx_scale (fmt : bladerf_format) : Z :=
  if is_sc8 fmt then 128 else 2048.

(** [x / d] is a float, and the float computed for it is that rational. *)
Definition exact_quotient (d x : Z) : bool :=
  match float_value (fdiv (float_of_int x) (float_of_int d)) with
  | Some q => Qeq_bool q (inject_Z x / inject_Z d)
  | None => false
  end.

(** ** Concrete streams

    A device that runs at one tick per microsecond behind the released
    constants, and the objects a few calls lead to.  The statements of
    the next part are tried on them. *)

Definition ex_ticksToTimeNs (ticks : Z) : Z := ticks * 1000.
Definition ex_timeNsToTicks (timeNs : Z) : Z := timeNs / 1000.
Definition ex_minTimeoutMs (bufSize : Z) : Z := 2 * bufSize / 1000.

(** The object before any stream is set up. *)
Definition ex_object : bladeRF_SoapySDR :=
  {| _dev := []; _sample_format := BLADERF_FORMAT_SC16_Q11;
     _rxOverflow := false; _rxChans := []; _rxFloats := false;
     _rxConvBuff := []; _rxBuffSize := 0; _rxMinTimeoutMs := 0;
     _rxNextTicks := 0; _rxCmds := [];
     _txFloats := false; _txChans := []; _txConvBuff := []; _txBuffSize := 0;
     _inTxBurst := false; _txNextTicks := 0; _txResps := [] |}.

Definition ex_args : gmap string string :=
  {[ "buflen" := "1000" ; "buffers" := "1" ; "transfers" := "50" ]}%string.

(** A float receive stream on channel 0 with buffers of 1024. *)
Definition ex_rx : bladeRF_SoapySDR :=
  snd (setupStream (H := upstream) ex_minTimeoutMs 0 (fun _ => 0)
         SOAPY_SDR_RX "CF32" [0] ex_args ex_object).

(** An integer transmit stream on channel 0 with buffers of 1024. *)
Definition ex_tx : bladeRF_SoapySDR :=
  snd (setupStream (H := upstream) ex_minTimeoutMs 0 (fun _ => 0)
         SOAPY_SDR_TX "CS16" [0] ex_args ex_object).

(** Device answers: [count] samples at tick [ticks] with status
    [status], or the error [ret]. *)
Definition ex_reply (count ticks status : Z) : DevReply :=
  {| dr_ret := 0;
     dr_md := {| md_timestamp := ticks; md_flags := 0; md_status := status;
                 md_actual_count := count |};
     dr_data := replicate (Z.to_nat (2 * count)) 2048 |}.

Definition ex_error (ret : Z) : DevReply :=
  {| dr_ret := ret; dr_md := md_zero; dr_data := [] |}.

(** The receive stream with a command for [count] elements queued. *)
Definition ex_rx_active (count : Z) : bladeRF_SoapySDR :=
  snd (activateStream (H := upstream) SOAPY_SDR_RX 0 0 count ex_rx).

(** The same after a read of 100 elements on which the device reported
    an overrun. *)
Definition ex_rx_overrun (count : Z) : bladeRF_SoapySDR :=
  rr_this (readStream (H := upstream) ex_ticksToTimeNs ex_timeNsToTicks
             (ex_reply 100 5000 1) 100 0 0 1000000 (ex_rx_active count)).

(** The transmit stream after one accepted write of 100 elements. *)
Definition ex_tx_open : bladeRF_SoapySDR :=
  wr_this (writeStream (H := upstream) ex_ticksToTimeNs ex_timeNsToTicks
             7000 (ex_reply 100 0 0) [BufCS16 (replicate 200 1)] 100 0 0 1000000
             ex_tx).

(** * Properties *)

(** ** Small facts used throughout *)

Lemma pop_all_nil (q : list StreamMetadata) : pop_all q = [].
Proof. induction q as [|c q IH]; simpl; auto. Qed.

Lemma land_clear_bit (flags bit : Z) : Z.land (Z.land flags (Z.lnot bit)) bit = 0.
Proof.
  rewrite <- Z.land_assoc, (Z.land_comm (Z.lnot bit) bit), Z.land_lnot_diag.
  apply Z.land_0_r.
Qed.

Lemma land_lor_zero (a b bit : Z) :
  Z.land a bit = 0 -> Z.land b bit = 0 -> Z.land (Z.lor a b) bit = 0.
Proof. intros Ha Hb. rewrite Z.land_lor_distr_l, Ha, Hb. reflexivity. Qed.

Lemma land_lor_has (a b bit : Z) :
  Z.land a bit = bit -> Z.land (Z.lor a b) bit = bit.
Proof.
  intros Ha. apply Z.bits_inj'. intros n Hn.
  apply (f_equal (fun z => Z.testbit z n)) in Ha.
  rewrite Z.land_spec in Ha. rewrite Z.land_spec, Z.lor_spec.
  destruct (Z.testbit a n), (Z.testbit b n), (Z.testbit bit n);
    cbn in *; congruence.
Qed.

Lemma eqb_false_of_neq (a b : Z) : a <> b -> (a =? b) = false.
Proof. apply Z.eqb_neq. Qed.

Section ReceiveProperties.

Context `{ApiConstants}.
Variable _rxTicksToTimeNs : Z -> Z.
Variable _timeNsToRxTicks : Z -> Z.

(** The ways through [readStream], as equations. *)

Lemma readStream_no_command rx numElems flags timeNs timeoutUs s :
  _rxCmds s = [] ->
  readStream _rxTicksToTimeNs _timeNsToRxTicks rx numElems flags timeNs timeoutUs s =
  {| rr_ret := SOAPY_SDR_TIMEOUT; rr_flags := flags; rr_timeNs := timeNs;
     rr_buffs := []; rr_this := s |}.
Proof. intros Hq. unfold readStream. rewrite Hq. reflexivity. Qed.

Lemma readStream_overflow rx numElems flags timeNs timeoutUs s :
  _rxCmds s <> [] ->
  _rxOverflow s = true ->
  readStream _rxTicksToTimeNs _timeNsToRxTicks rx numElems flags timeNs timeoutUs s =
  {| rr_ret := SOAPY_SDR_OVERFLOW; rr_flags := SOAPY_SDR_HAS_TIME;
     rr_timeNs := _rxTicksToTimeNs (_rxNextTicks s);
     rr_buffs := []; rr_this := set_rxOverflow false s |}.
Proof.
  intros Hq Hov. unfold readStream.
  destruct (_rxCmds s) as [|cmd rest]; [congruence|].
  rewrite Hov. reflexivity.
Qed.

(** Whenever a command is queued and no overflow is pending, the device
    is asked to receive, exactly once. *)
Lemma readStream_calls_device rx numElems flags timeNs timeoutUs s cmd rest :
  _rxCmds s = cmd :: rest ->
  _rxOverflow s = false ->
  _dev (rr_this (readStream _rxTicksToTimeNs _timeNsToRxTicks
                   rx numElems flags timeNs timeoutUs s)) =
  _dev s ++ [rx_call _timeNsToRxTicks numElems timeoutUs cmd s].
Proof.
  intros Hq Hov. unfold readStream, rx_call. rewrite Hq, Hov.
  repeat match goal with
         | |- context [if ?b then _ else _] => destruct b
         end; reflexivity.
Qed.

(** The device fails with an error that is neither a timeout nor a time in
    the past. *)
Lemma readStream_stream_error rx numElems flags timeNs timeoutUs s cmd rest :
  _rxCmds s = cmd :: rest ->
  _rxOverflow s = false ->
  dr_ret rx <> 0 ->
  dr_ret rx <> BLADERF_ERR_TIMEOUT ->
  dr_ret rx <> BLADERF_ERR_TIME_PAST ->
  let r := readStream _rxTicksToTimeNs _timeNsToRxTicks
             rx numElems flags timeNs timeoutUs s in
  rr_ret r = SOAPY_SDR_STREAM_ERROR /\
  _rxOverflow (rr_this r) = false /\
  _rxCmds (rr_this r) =
    if 0 <? sm_numElems cmd then rest else set_sm_flags 0 cmd :: rest.
Proof.
  intros Hq Hov H0 Hto Htp r. subst r. unfold readStream. rewrite Hq, Hov.
  apply Z.eqb_neq in H0, Hto, Htp. rewrite H0, Hto, Htp. cbn [negb].
  cbn [sm_numElems set_sm_flags].
  destruct (0 <? sm_numElems cmd);
    destruct (_rxFloats _ || _); cbn; rewrite ?Hov; auto.
Qed.

(** The device succeeds: the count returned and the queue afterwards. *)
Lemma readStream_success_queue rx numElems flags timeNs timeoutUs s cmd rest :
  _rxCmds s = cmd :: rest ->
  _rxOverflow s = false ->
  dr_ret rx = 0 ->
  let r := readStream _rxTicksToTimeNs _timeNsToRxTicks
             rx numElems flags timeNs timeoutUs s in
  let got := Z.quot (md_actual_count (dr_md rx)) (nchans (_rxChans s)) in
  rr_ret r = to_int got /\
  _rxCmds (rr_this r) =
    if 0 <? sm_numElems cmd then
      let left := to_size_t (sm_numElems cmd - got) in
      if left =? 0 then rest
      else set_sm_numElems left (set_sm_flags 0 cmd) :: rest
    else set_sm_flags 0 cmd :: rest.
Proof.
  intros Hq Hov H0 r got. subst r got. unfold readStream. rewrite Hq, Hov, H0.
  rewrite (eqb_false_of_neq 0 BLADERF_ERR_TIMEOUT), (eqb_false_of_neq 0 BLADERF_ERR_TIME_PAST)
    by (intro E; symmetry in E; revert E;
        first [apply err_timeout_nonzero | apply err_time_past_nonzero]).
  cbn [negb Z.eqb sm_numElems set_sm_flags set_sm_numElems].
  destruct (0 <? sm_numElems cmd);
    destruct (_rxFloats _ || _);
    destruct (negb (Z.land _ BLADERF_META_STATUS_OVERRUN =? 0));
    cbn; try destruct (to_size_t _ =? 0); cbn; auto.
Qed.

(** A continuous command at the front of the queue is still there, and
    still continuous, after any [readStream], whatever the device does. *)
Lemma readStream_continuous_stays rx numElems flags timeNs timeoutUs s cmd rest :
  _rxCmds s = cmd :: rest ->
  sm_numElems cmd = 0 ->
  exists cmd',
    _rxCmds (rr_this (readStream _rxTicksToTimeNs _timeNsToRxTicks
                        rx numElems flags timeNs timeoutUs s)) = cmd' :: rest /\
    sm_numElems cmd' = 0 /\ sm_timeNs cmd' = sm_timeNs cmd.
Proof.
  intros Hq Hn. unfold readStream. rewrite Hq.
  cbn [sm_numElems set_sm_flags]. rewrite Hn. cbn [Z.ltb Z.compare].
  repeat match goal with
         | |- context [if ?b then _ else _] => destruct b
         end; cbn; rewrite ?Hq; eauto.
Qed.

(** C1. With a command queued and the overflow flag set, [readStream]
    clears the flag, returns the overflow result with HAS_TIME as the
    flags and the next expected receive tick, in nanoseconds, as the
    time, and makes no device call: the device log is unchanged and the
    result does not depend on what the device would have answered.  The
    object afterwards is the one on entry with the flag cleared and
    nothing else changed, so a later [readStream] does what it would have
    done had the flag never been set. *)
Theorem readStream_overflow_reported_once
    (rx : DevReply) (numElems flags timeNs timeoutUs : Z) (s : bladeRF_SoapySDR) :
  _rxCmds s <> [] ->
  _rxOverflow s = true ->
  let r := readStream _rxTicksToTimeNs _timeNsToRxTicks
             rx numElems flags timeNs timeoutUs s in
  rr_ret r = SOAPY_SDR_OVERFLOW /\
  _rxOverflow (rr_this r) = false /\
  rr_flags r = SOAPY_SDR_HAS_TIME /\
  Z.land (rr_flags r) SOAPY_SDR_HAS_TIME = SOAPY_SDR_HAS_TIME /\
  rr_timeNs r = _rxTicksToTimeNs (_rxNextTicks s) /\
  _dev (rr_this r) = _dev s /\
  (forall rx', readStream _rxTicksToTimeNs _timeNsToRxTicks
                 rx' numElems flags timeNs timeoutUs s = r) /\
  rr_this r = set_rxOverflow false s /\
  (forall rx' numElems' flags' timeNs' timeoutUs',
     readStream _rxTicksToTimeNs _timeNsToRxTicks
       rx' numElems' flags' timeNs' timeoutUs' (rr_this r) =
     readStream _rxTicksToTimeNs _timeNsToRxTicks
       rx' numElems' flags' timeNs' timeoutUs' (set_rxOverflow false s)).
Proof.
  intros Hq Hov r. subst r.
  rewrite (readStream_overflow rx) by assumption.
  cbn [rr_ret rr_flags rr_timeNs rr_this].
  repeat split; try reflexivity.
  - apply Z.land_diag.
  - intros rx'. apply readStream_overflow; assumption.
Qed.

(** C9. On an empty command queue [readStream] returns the timeout result
    at once, whatever the overflow flag: the object, and so the flag and
    the device log, are unchanged, as are the caller's [flags] and
    [timeNs].  A flag that was set is therefore still set, and the first
    [readStream] after a command has been queued reports and clears it. *)
Theorem readStream_empty_queue_keeps_overflow
    (rx : DevReply) (numElems flags timeNs timeoutUs : Z) (s : bladeRF_SoapySDR) :
  _rxCmds s = [] ->
  let r := readStream _rxTicksToTimeNs _timeNsToRxTicks
             rx numElems flags timeNs timeoutUs s in
  rr_ret r = SOAPY_SDR_TIMEOUT /\
  rr_this r = s /\
  rr_flags r = flags /\
  rr_timeNs r = timeNs /\
  (_rxOverflow s = true ->
   _rxOverflow (rr_this r) = true /\
   forall aflags atimeNs anumElems rx' numElems' flags' timeNs' timeoutUs',
     let s' := snd (activateStream SOAPY_SDR_RX aflags atimeNs anumElems (rr_this r)) in
     let r' := readStream _rxTicksToTimeNs _timeNsToRxTicks
                 rx' numElems' flags' timeNs' timeoutUs' s' in
     rr_ret r' = SOAPY_SDR_OVERFLOW /\ _rxOverflow (rr_this r') = false).
Proof.
  intros Hq r. subst r.
  rewrite (readStream_no_command rx) by assumption.
  cbn [rr_ret rr_flags rr_timeNs rr_this].
  repeat split; try assumption.
  all: unfold activateStream;
    rewrite Z.eqb_refl, (eqb_false_of_neq _ _ direction_distinct);
    cbn [andb snd]; rewrite readStream_overflow; cbn; try done;
    rewrite Hq; discriminate.
Qed.

(** C3. When the device receive call fails with an error that is neither
    the timeout nor the time-in-the-past error, [readStream] returns the
    stream-error result.  A finite command at the front of the queue is
    popped; a continuous one (count 0) stays at the front, and the next
    [readStream] asks the device to receive for that same command
    again. *)
Theorem readStream_hard_error
    (rx : DevReply) (numElems flags timeNs timeoutUs : Z) (s : bladeRF_SoapySDR)
    (cmd : StreamMetadata) (rest : list StreamMetadata) :
  _rxCmds s = cmd :: rest ->
  _rxOverflow s = false ->
  dr_ret rx <> 0 ->
  dr_ret rx <> BLADERF_ERR_TIMEOUT ->
  dr_ret rx <> BLADERF_ERR_TIME_PAST ->
  let r := readStream _rxTicksToTimeNs _timeNsToRxTicks
             rx numElems flags timeNs timeoutUs s in
  rr_ret r = SOAPY_SDR_STREAM_ERROR /\
  (0 < sm_numElems cmd -> _rxCmds (rr_this r) = rest) /\
  (sm_numElems cmd = 0 ->
   _rxCmds (rr_this r) = set_sm_flags 0 cmd :: rest /\
   forall rx' numElems' flags' timeNs' timeoutUs',
     _dev (rr_this (readStream _rxTicksToTimeNs _timeNsToRxTicks
                      rx' numElems' flags' timeNs' timeoutUs' (rr_this r))) =
     _dev (rr_this r) ++
       [rx_call _timeNsToRxTicks numElems' timeoutUs' (set_sm_flags 0 cmd) (rr_this r)]).
Proof.
  intros Hq Hov H0 Hto Htp r.
  destruct (readStream_stream_error rx numElems flags timeNs timeoutUs s cmd rest
              Hq Hov H0 Hto Htp) as (Hret & Hov' & Hq').
  fold r in Hret, Hov', Hq'.
  split; [exact Hret|]. split.
  - intros Hpos. apply Z.ltb_lt in Hpos. rewrite Hpos in Hq'. exact Hq'.
  - intros Hzero. rewrite Hzero in Hq'. cbn in Hq'. split; [exact Hq'|].
    intros. apply readStream_calls_device with (rest := rest); assumption.
Qed.

(** Activation of the receive direction appends one command and
    succeeds. *)
Lemma activateStream_rx flags timeNs numElems s :
  activateStream SOAPY_SDR_RX flags timeNs numElems s =
  (0, set_rxCmds (_rxCmds s ++
        [{| sm_flags := flags; sm_timeNs := timeNs;
            sm_numElems := numElems; sm_code := 0 |}]) s).
Proof.
  unfold activateStream.
  rewrite Z.eqb_refl, (eqb_false_of_neq _ _ direction_distinct). reflexivity.
Qed.

(** Deactivation of the receive direction with no flags drops every
    command. *)
Lemma deactivateStream_rx tx timeNs s :
  deactivateStream tx SOAPY_SDR_RX 0 timeNs s = (0, set_rxCmds [] s).
Proof.
  unfold deactivateStream.
  rewrite !Z.eqb_refl, (eqb_false_of_neq _ _ direction_distinct), pop_all_nil.
  reflexivity.
Qed.

(** Deactivation with a flag is refused before anything is done. *)
Lemma deactivateStream_flags tx stream flags timeNs s :
  flags <> 0 ->
  deactivateStream tx stream flags timeNs s = (SOAPY_SDR_NOT_SUPPORTED, s).
Proof.
  intros Hf. unfold deactivateStream.
  rewrite (eqb_false_of_neq _ _ Hf). reflexivity.
Qed.

(** C2, as amended.  Activating the receive direction with count [N]
    appends a command with that count.  A successful [readStream] with a
    finite command at the front leaves it there with its count reduced
    (in [size_t] arithmetic) by the number of elements received, or pops
    it when that difference is zero, and in no other case.  A continuous
    command (count 0) at the front stays there through every
    [readStream], whatever the device answers.  [deactivateStream] with
    zero flags empties the queue whatever it holds; with any other flags
    it returns NOT_SUPPORTED and leaves the queue as it is. *)
Theorem rx_command_queue_lifecycle :
  (forall flags timeNs N s,
     activateStream SOAPY_SDR_RX flags timeNs N s =
     (0, set_rxCmds (_rxCmds s ++
           [{| sm_flags := flags; sm_timeNs := timeNs;
               sm_numElems := N; sm_code := 0 |}]) s)) /\
  (forall rx numElems flags timeNs timeoutUs s cmd rest,
     _rxCmds s = cmd :: rest ->
     _rxOverflow s = false ->
     dr_ret rx = 0 ->
     0 < sm_numElems cmd ->
     let r := readStream _rxTicksToTimeNs _timeNsToRxTicks
                rx numElems flags timeNs timeoutUs s in
     let got := Z.quot (md_actual_count (dr_md rx)) (nchans (_rxChans s)) in
     let left := to_size_t (sm_numElems cmd - got) in
     rr_ret r = to_int got /\
     (left = 0 -> _rxCmds (rr_this r) = rest) /\
     (left <> 0 ->
      _rxCmds (rr_this r) = set_sm_numElems left (set_sm_flags 0 cmd) :: rest)) /\
  (forall rx numElems flags timeNs timeoutUs s cmd rest,
     _rxCmds s = cmd :: rest ->
     sm_numElems cmd = 0 ->
     exists cmd',
       _rxCmds (rr_this (readStream _rxTicksToTimeNs _timeNsToRxTicks
                           rx numElems flags timeNs timeoutUs s)) = cmd' :: rest /\
       sm_numElems cmd' = 0 /\ sm_timeNs cmd' = sm_timeNs cmd) /\
  (forall tx timeNs s,
     deactivateStream tx SOAPY_SDR_RX 0 timeNs s = (0, set_rxCmds [] s)) /\
  (forall tx flags timeNs s,
     flags <> 0 ->
     deactivateStream tx SOAPY_SDR_RX flags timeNs s = (SOAPY_SDR_NOT_SUPPORTED, s)).
Proof.
  split; [exact activateStream_rx|].
  split.
  { intros rx numElems flags timeNs timeoutUs s cmd rest Hq Hov H0 Hpos r got left.
    destruct (readStream_success_queue rx numElems flags timeNs timeoutUs s cmd rest
                Hq Hov H0) as (Hret & Hq').
    fold r got in Hret, Hq'. apply Z.ltb_lt in Hpos. rewrite Hpos in Hq'.
    cbv zeta in Hq'. fold left in Hq'.
    split; [exact Hret|]. split; intros Hl.
    - rewrite Hl in Hq'. exact Hq'.
    - apply Z.eqb_neq in Hl. rewrite Hl in Hq'. exact Hq'. }
  split; [exact readStream_continuous_stays|].
  split; [exact deactivateStream_rx|].
  intros. apply deactivateStream_flags; assumption.
Qed.

(** What a successful receive without overrun leaves of the rest of the
    object: no overflow pending, the same channels. *)
Lemma readStream_success_state rx numElems flags timeNs timeoutUs s cmd rest :
  _rxCmds s = cmd :: rest ->
  _rxOverflow s = false ->
  dr_ret rx = 0 ->
  Z.land (md_status (dr_md rx)) BLADERF_META_STATUS_OVERRUN = 0 ->
  let r := readStream _rxTicksToTimeNs _timeNsToRxTicks
             rx numElems flags timeNs timeoutUs s in
  _rxOverflow (rr_this r) = false /\ _rxChans (rr_this r) = _rxChans s.
Proof.
  intros Hq Hov H0 Hst r. subst r. unfold readStream. rewrite Hq, Hov, H0, Hst.
  rewrite (eqb_false_of_neq 0 BLADERF_ERR_TIMEOUT), (eqb_false_of_neq 0 BLADERF_ERR_TIME_PAST)
    by (intro E; symmetry in E; revert E;
        first [apply err_timeout_nonzero | apply err_time_past_nonzero]).
  cbn [negb Z.eqb sm_numElems set_sm_flags set_sm_numElems].
  destruct (0 <? sm_numElems cmd);
    destruct (_rxFloats _ || _);
    cbn; try destruct (to_size_t _ =? 0); cbn; auto.
Qed.

(** The single-channel float stream: what a successful receive stores in
    the caller's buffer is the conversion of the words the device left in
    the conversion buffer. *)
Lemma readStream_float_x1_output rx numElems flags timeNs timeoutUs s cmd rest :
  _rxCmds s = cmd :: rest ->
  _rxOverflow s = false ->
  dr_ret rx = 0 ->
  _rxFloats s = true ->
  nchans (_rxChans s) = 1 ->
  rr_buffs (readStream _rxTicksToTimeNs _timeNsToRxTicks
              rx numElems flags timeNs timeoutUs s) =
  [BufCF32 (rx_convert_float_x1 (_sample_format s)
              (store (dr_data rx) (_rxConvBuff s))
              (md_actual_count (dr_md rx)))].
Proof.
  intros Hq Hov H0 Hfl Hch. unfold readStream, rx_convert.
  rewrite Hq, Hov, H0.
  rewrite (eqb_false_of_neq 0 BLADERF_ERR_TIMEOUT), (eqb_false_of_neq 0 BLADERF_ERR_TIME_PAST)
    by (intro E; symmetry in E; revert E;
        first [apply err_timeout_nonzero | apply err_time_past_nonzero]).
  cbn [negb Z.eqb]. cbn. rewrite Hfl, Hch. cbn. rewrite Hfl, Hch. cbn.
  rewrite Z.quot_1_r. reflexivity.
Qed.

(** A run of successful reads without overrun, each receiving at least
    one element, that together receive no more than the finite command at
    the front asks for: while the sum stays below the count the command
    is at the front with what is left of it, and when the sum reaches the
    count the command is gone. *)
Lemma readStream_run_finite_command (rxs : list DevReply) :
  forall numElems timeoutUs s cmd rest,
    _rxCmds s = cmd :: rest ->
    _rxOverflow s = false ->
    Forall (fun rx => dr_ret rx = 0 /\
                      Z.land (md_status (dr_md rx)) BLADERF_META_STATUS_OVERRUN = 0 /\
                      0 < rx_received s rx) rxs ->
    let total := foldr Z.add 0 (map (rx_received s) rxs) in
    sm_numElems cmd < 2 ^ 64 ->
    total <= sm_numElems cmd ->
    let s' := readStream_run _rxTicksToTimeNs _timeNsToRxTicks
                rxs numElems timeoutUs s in
    (total < sm_numElems cmd ->
     exists cmd', _rxCmds s' = cmd' :: rest /\
                  sm_numElems cmd' = sm_numElems cmd - total) /\
    (total = sm_numElems cmd -> 0 < total -> _rxCmds s' = rest).
Proof.
  induction rxs as [|rx rxs IH]; intros numElems timeoutUs s cmd rest Hq Hov Hall
    total Hmax Htot s'.
  - subst total s'. cbn in *. split.
    + intros _. exists cmd. split; [exact Hq|lia].
    + intros E Hpos. lia.
  - inversion Hall as [|rx0 rxs0 (H0 & Hst & Hpos) Hall' E1]; subst rx0 rxs0.
    assert (Hge : 0 <= foldr Z.add 0 (map (rx_received s) rxs)).
    { clear -Hall'. induction Hall' as [|y l (_ & _ & Hy) _ IHl]; cbn; lia. }
    subst total. cbn [map foldr] in *.
    destruct (readStream_success_queue rx numElems 0 0 timeoutUs s cmd rest
                Hq Hov H0) as (_ & Hq1).
    destruct (readStream_success_state rx numElems 0 0 timeoutUs s cmd rest
                Hq Hov H0 Hst) as (Hov1 & Hch1).
    fold (rx_received s rx) in Hq1.
    assert (Hn : 0 < sm_numElems cmd) by lia.
    apply Z.ltb_lt in Hn. rewrite Hn in Hq1. cbv zeta in Hq1.
    unfold to_size_t in Hq1.
    rewrite Z.mod_small in Hq1 by lia.
    subst s'. cbn [readStream_run].
    set (s1 := rr_this (readStream _rxTicksToTimeNs _timeNsToRxTicks
                          rx numElems 0 0 timeoutUs s)) in *.
    assert (Hrec : forall y, rx_received s1 y = rx_received s y).
    { intros y. unfold rx_received. rewrite Hch1. reflexivity. }
    destruct (Z.eqb_spec (sm_numElems cmd - rx_received s rx) 0) as [E|E].
    + (* the command is used up by this read: nothing can follow *)
      destruct rxs as [|rx' rxs'].
      * cbn. split; [cbn in *; lia|]. intros _ _. exact Hq1.
      * inversion Hall' as [|y l (_ & _ & Hy) Hl]; subst. cbn in Htot, Hge.
        assert (0 <= foldr Z.add 0 (map (rx_received s) rxs')).
        { clear -Hl. induction Hl as [|y l (_ & _ & Hy') _ IHl]; cbn; lia. }
        lia.
    + specialize (IH numElems timeoutUs s1
                    (set_sm_numElems (sm_numElems cmd - rx_received s rx)
                       (set_sm_flags 0 cmd)) rest Hq1 Hov1).
      cbn [sm_numElems set_sm_numElems] in IH.
      assert (Hall1 : Forall
                (fun rx => dr_ret rx = 0 /\
                   Z.land (md_status (dr_md rx)) BLADERF_META_STATUS_OVERRUN = 0 /\
                   0 < rx_received s1 rx) rxs).
      { eapply Forall_impl; [exact Hall'|]. cbn. intros y (A & B & C).
        rewrite Hrec. auto. }
      assert (Hsum : foldr Z.add 0 (map (rx_received s1) rxs) =
                     foldr Z.add 0 (map (rx_received s) rxs)).
      { f_equal. apply map_ext. exact Hrec. }
      specialize (IH Hall1). cbv zeta in IH. rewrite Hsum in IH.
      destruct (IH ltac:(lia) ltac:(lia)) as (IHlt & IHeq).
      split.
      * intros Hlt. destruct (IHlt ltac:(lia)) as (cmd' & Hc & Hn').
        exists cmd'. split; [exact Hc|lia].
      * intros Heq _. 
        destruct (Z.eq_dec (foldr Z.add 0 (map (rx_received s) rxs)) 0) as [Z0|Z0].
        -- lia.
        -- apply IHeq; lia.
Qed.

End ReceiveProperties.

Section TransmitProperties.

Context `{ApiConstants}.
Variable _txTicksToTimeNs : Z -> Z.
Variable _timeNsToTxTicks : Z -> Z.

Local Ltac split_ifs :=
  repeat match goal with
         | |- context [if ?b then _ else _] => destruct b eqn:?
         end.

(** The caller's [flags] after the call, on every path. *)
Lemma writeStream_flags hw_time tx buffs numElems flags timeNs timeoutUs s :
  wr_flags (writeStream _txTicksToTimeNs _timeNsToTxTicks
              hw_time tx buffs numElems flags timeNs timeoutUs s) =
  tx_flags numElems flags s.
Proof. unfold writeStream, tx_flags. split_ifs; reflexivity. Qed.

(** Every [writeStream] ends its device traffic with one transmit call,
    for the clipped count and with the metadata [tx_md]. *)
Lemma writeStream_calls_device hw_time tx buffs numElems flags timeNs timeoutUs s :
  exists before samples,
    _dev (wr_this (writeStream _txTicksToTimeNs _timeNsToTxTicks
                     hw_time tx buffs numElems flags timeNs timeoutUs s)) =
    before ++
    [bladerf_sync_tx samples
       (to_uint (Z.min numElems (_txBuffSize s) * nchans (_txChans s)))
       (tx_md _timeNsToTxTicks (tx_flags numElems flags s) timeNs s)
       (to_uint (Z.quot timeoutUs 1000))].
Proof.
  unfold writeStream, tx_md, tx_flags.
  destruct (_inTxBurst s);
    destruct (negb (Z.land _ SOAPY_SDR_HAS_TIME =? 0));
    destruct (negb (Z.land _ SOAPY_SDR_END_BURST =? 0));
    cbn; split_ifs; cbn; eauto.
Qed.

(** The metadata carries the burst-end marker only for flags that have
    the end-of-burst bit. *)
Lemma tx_md_no_burst_end flags timeNs s :
  Z.land flags SOAPY_SDR_END_BURST = 0 ->
  Z.land (md_flags (tx_md _timeNsToTxTicks flags timeNs s))
         BLADERF_META_FLAG_TX_BURST_END = 0.
Proof.
  intros Hf. unfold tx_md. rewrite Hf. cbn [Z.eqb negb].
  split_ifs; cbn [md_flags set_md_flags set_md_timestamp md_zero];
    rewrite ?Z.lor_0_l;
    auto using Z.land_0_l, land_lor_zero, burst_end_not_start,
      burst_end_not_now, burst_end_not_update.
Qed.

(** A transmit call the device accepts. *)
Lemma writeStream_success hw_time tx buffs numElems flags timeNs timeoutUs s :
  dr_ret tx = 0 ->
  let r := writeStream _txTicksToTimeNs _timeNsToTxTicks
             hw_time tx buffs numElems flags timeNs timeoutUs s in
  let f := tx_flags numElems flags s in
  wr_ret r = to_int (Z.min numElems (_txBuffSize s)) /\
  _txResps (wr_this r) =
    _txResps s ++ tx_events _txTicksToTimeNs tx f (_txNextTicks (wr_this r)) /\
  _inTxBurst (wr_this r) = (Z.land f SOAPY_SDR_END_BURST =? 0) /\
  _txBuffSize (wr_this r) = _txBuffSize s.
Proof.
  intros H0 r f. subst r f. unfold writeStream, tx_events, underrun_events, tx_flags.
  rewrite H0.
  rewrite (eqb_false_of_neq 0 BLADERF_ERR_TIMEOUT), (eqb_false_of_neq 0 BLADERF_ERR_TIME_PAST)
    by (intro E; symmetry in E; revert E;
        first [apply err_timeout_nonzero | apply err_time_past_nonzero]).
  cbn [negb Z.eqb].
  destruct (_inTxBurst s);
    destruct (_txBuffSize s <? numElems);
    destruct (negb (Z.land _ SOAPY_SDR_HAS_TIME =? 0));
    destruct (Z.land _ SOAPY_SDR_END_BURST =? 0);
    destruct (negb (Z.land _ BLADERF_META_STATUS_UNDERRUN =? 0));
    cbn; rewrite <- ?app_assoc, ?app_nil_r; auto.
Qed.

(** A transmit call the device refuses. *)
Lemma writeStream_failure hw_time tx buffs numElems flags timeNs timeoutUs s :
  dr_ret tx <> 0 ->
  let r := writeStream _txTicksToTimeNs _timeNsToTxTicks
             hw_time tx buffs numElems flags timeNs timeoutUs s in
  _txResps (wr_this r) = _txResps s /\
  _inTxBurst (wr_this r) = _inTxBurst s /\
  _txBuffSize (wr_this r) = _txBuffSize s.
Proof.
  intros H0 r. subst r. unfold writeStream.
  rewrite (eqb_false_of_neq _ _ H0). cbn [negb].
  split_ifs; cbn; auto.
Qed.

(** C4. When the requested count exceeds the capacity of the transmit
    conversion buffer, the end-of-burst bit is gone from the flags the
    call goes on with (and hands back to the caller), the transmit call
    is made for the capacity, its metadata has no burst-end marker, and
    whatever the call appends to the status queue is no burst-end event:
    at most the underflow event, which has no flag at all. *)
Theorem writeStream_clipped_no_burst_end
    (hw_time : Z) (tx : DevReply) (buffs : list AppBuf)
    (numElems flags timeNs timeoutUs : Z) (s : bladeRF_SoapySDR) :
  _txBuffSize s < numElems ->
  let r := writeStream _txTicksToTimeNs _timeNsToTxTicks
             hw_time tx buffs numElems flags timeNs timeoutUs s in
  Z.land (wr_flags r) SOAPY_SDR_END_BURST = 0 /\
  (exists before samples md timeout_ms,
     _dev (wr_this r) =
       before ++
       [bladerf_sync_tx samples (to_uint (_txBuffSize s * nchans (_txChans s)))
          md timeout_ms] /\
     Z.land (md_flags md) BLADERF_META_FLAG_TX_BURST_END = 0) /\
  (exists new,
     _txResps (wr_this r) = _txResps s ++ new /\
     (new = [] \/ new = [underflow_event]) /\
     forall e, In e new -> Z.land (sm_flags e) SOAPY_SDR_END_BURST = 0).
Proof.
  intros Hclip r.
  assert (Hf : Z.land (tx_flags numElems flags s) SOAPY_SDR_END_BURST = 0).
  { unfold tx_flags. apply Z.ltb_lt in Hclip. rewrite Hclip.
    apply land_clear_bit. }
  split; [|split].
  - subst r. rewrite writeStream_flags. exact Hf.
  - destruct (writeStream_calls_device hw_time tx buffs numElems flags timeNs
                timeoutUs s) as (before & samples & Hdev).
    exists before, samples. do 2 eexists. split.
    + subst r. rewrite Hdev. rewrite Z.min_r by lia. reflexivity.
    + apply tx_md_no_burst_end. exact Hf.
  - destruct (Z.eq_dec (dr_ret tx) 0) as [H0|H0].
    + destruct (writeStream_success hw_time tx buffs numElems flags timeNs
                  timeoutUs s H0) as (_ & Hresps & _).
      fold r in Hresps. unfold tx_events in Hresps.
      rewrite Hf in Hresps. cbn [Z.eqb negb] in Hresps.
      rewrite app_nil_r in Hresps.
      exists (underrun_events tx). split; [exact Hresps|].
      unfold underrun_events. split_ifs.
      * split; [right; reflexivity|].
        intros e [<-|[]]. apply Z.land_0_l.
      * split; [left; reflexivity|]. intros e [].
    + destruct (writeStream_failure hw_time tx buffs numElems flags timeNs
                  timeoutUs s H0) as (Hresps & _).
      fold r in Hresps. exists []. rewrite app_nil_r.
      split; [exact Hresps|]. split; [left; reflexivity|]. intros e [].
Qed.

(** The flags a write without the end-of-burst bit goes on with do not
    have it either, clipped or not. *)
Lemma tx_flags_no_end numElems flags s :
  Z.land flags SOAPY_SDR_END_BURST = 0 ->
  Z.land (tx_flags numElems flags s) SOAPY_SDR_END_BURST = 0.
Proof.
  intros Hf. unfold tx_flags. destruct (_ <? _); [apply land_clear_bit|exact Hf].
Qed.

(** A write within the capacity keeps its flags. *)
Lemma tx_flags_within numElems flags s :
  numElems <= _txBuffSize s -> tx_flags numElems flags s = flags.
Proof.
  intros Hn. unfold tx_flags.
  destruct (Z.ltb_spec (_txBuffSize s) numElems); [lia|reflexivity].
Qed.

(** C5, as amended.  From an idle transmit stream, three writes that the
    device accepts, the first two without the end-of-burst flag and the
    third with it and within the buffer capacity: the first opens the
    burst (its metadata has the burst-start marker), the burst is open
    after the first and the second, and after the third it is closed and
    the status queue has grown by exactly one burst-end event, the last
    one, with the END_BURST and HAS_TIME flags, code 0 and the time of
    the tick the burst has reached, preceded by one underflow event for
    each of the three calls on which the device reported an underrun.
    When the device reports no underrun, the burst-end event is the only
    event added. *)
Theorem three_writes_one_burst_end
    (hw1 hw2 hw3 : Z) (tx1 tx2 tx3 : DevReply) (b1 b2 b3 : list AppBuf)
    (n1 n2 n3 f1 f2 f3 t1 t2 t3 to1 to2 to3 : Z) (s0 : bladeRF_SoapySDR) :
  _inTxBurst s0 = false ->
  Z.land f1 SOAPY_SDR_END_BURST = 0 ->
  Z.land f2 SOAPY_SDR_END_BURST = 0 ->
  Z.land f3 SOAPY_SDR_END_BURST <> 0 ->
  n3 <= _txBuffSize s0 ->
  dr_ret tx1 = 0 -> dr_ret tx2 = 0 -> dr_ret tx3 = 0 ->
  let r1 := writeStream _txTicksToTimeNs _timeNsToTxTicks hw1 tx1 b1 n1 f1 t1 to1 s0 in
  let r2 := writeStream _txTicksToTimeNs _timeNsToTxTicks hw2 tx2 b2 n2 f2 t2 to2
              (wr_this r1) in
  let r3 := writeStream _txTicksToTimeNs _timeNsToTxTicks hw3 tx3 b3 n3 f3 t3 to3
              (wr_this r2) in
  let e := burst_end_event _txTicksToTimeNs (_txNextTicks (wr_this r3)) in
  Z.land (md_flags (tx_md _timeNsToTxTicks (tx_flags n1 f1 s0) t1 s0))
         BLADERF_META_FLAG_TX_BURST_START = BLADERF_META_FLAG_TX_BURST_START /\
  _inTxBurst (wr_this r1) = true /\
  _inTxBurst (wr_this r2) = true /\
  _inTxBurst (wr_this r3) = false /\
  _txResps (wr_this r3) =
    _txResps s0 ++
    underrun_events tx1 ++ underrun_events tx2 ++ underrun_events tx3 ++ [e] /\
  (underrun_events tx1 = [] -> underrun_events tx2 = [] ->
   underrun_events tx3 = [] ->
   _txResps (wr_this r3) = _txResps s0 ++ [e]) /\
  sm_flags e = Z.lor SOAPY_SDR_END_BURST SOAPY_SDR_HAS_TIME /\
  sm_code e = 0 /\
  sm_timeNs e = _txTicksToTimeNs (_txNextTicks (wr_this r3)).
Proof.
  intros Hidle Hf1 Hf2 Hf3 Hn3 H1 H2 H3 r1 r2 r3 e.
  destruct (writeStream_success hw1 tx1 b1 n1 f1 t1 to1 s0 H1)
    as (_ & Q1 & B1 & S1).
  destruct (writeStream_success hw2 tx2 b2 n2 f2 t2 to2 (wr_this r1) H2)
    as (_ & Q2 & B2 & S2).
  destruct (writeStream_success hw3 tx3 b3 n3 f3 t3 to3 (wr_this r2) H3)
    as (_ & Q3 & B3 & S3).
  fold r1 in Q1, B1, S1, Q2, B2, S2. fold r2 in Q2, B2, S2, Q3, B3, S3.
  fold r3 in Q3, B3, S3.
  rewrite tx_flags_no_end in B1, B2 by assumption.
  rewrite tx_flags_within in Q3, B3 by lia.
  apply Z.eqb_neq in Hf3. rewrite Hf3 in B3.
  unfold tx_events in Q1, Q2, Q3.
  rewrite tx_flags_no_end in Q1, Q2 by assumption.
  rewrite Hf3 in Q3. cbn [Z.eqb negb] in Q1, Q2, Q3.
  rewrite app_nil_r in Q1, Q2.
  assert (Hall : _txResps (wr_this r3) =
                 _txResps s0 ++ underrun_events tx1 ++ underrun_events tx2 ++
                 underrun_events tx3 ++ [e]).
  { rewrite Q3, Q2, Q1. rewrite <- !app_assoc. reflexivity. }
  split.
  { unfold tx_md. rewrite Hidle, tx_flags_no_end by assumption.
    cbn [Z.eqb negb].
    destruct (negb (_ =? 0)); cbn [md_flags set_md_flags set_md_timestamp md_zero];
      rewrite ?Z.lor_0_l; auto using land_lor_has, Z.land_diag. }
  repeat split; try assumption; try reflexivity.
  intros U1 U2 U3. rewrite Hall, U1, U2, U3. reflexivity.
Qed.

(** C8, with the sample count as the code has it.  [deactivateStream]
    with zero flags on a transmit stream whose burst is open stores a
    sample of zeros (I = Q = 0) at the start of the conversion buffer and
    sends it as a transmission of one sample, not of none, whose metadata
    is the burst-end marker alone, with a timeout of 100 ms; it leaves
    the burst closed and returns 0.  The device's answer [tx] to that
    transmission changes nothing of this. *)
Theorem deactivateStream_ends_open_burst
    (tx : DevReply) (timeNs : Z) (s : bladeRF_SoapySDR) :
  _inTxBurst s = true ->
  (2 <= length (_txConvBuff s))%nat ->
  let r := deactivateStream tx SOAPY_SDR_TX 0 timeNs s in
  fst r = 0 /\
  _inTxBurst (snd r) = false /\
  (exists samples,
     _dev (snd r) =
       _dev s ++
       [bladerf_sync_tx (0 :: 0 :: samples) 1
          {| md_timestamp := 0; md_flags := BLADERF_META_FLAG_TX_BURST_END;
             md_status := 0; md_actual_count := 0 |} 100]) /\
  (forall tx', deactivateStream tx' SOAPY_SDR_TX 0 timeNs s = r).
Proof.
  intros Hb Hlen r. subst r. unfold deactivateStream.
  rewrite !Z.eqb_refl.
  assert (E : (SOAPY_SDR_TX =? SOAPY_SDR_RX) = false).
  { apply Z.eqb_neq. intro E. symmetry in E. revert E. apply direction_distinct. }
  rewrite E, Hb. cbn.
  repeat split.
  destruct (_txConvBuff s) as [|x [|y samples]]; cbn in Hlen; try lia.
  exists samples. reflexivity.
Qed.

End TransmitProperties.

Section SetupProperties.

Context `{ApiConstants}.
Variable updateRxMinTimeoutMs : Z -> Z.

Lemma int_arg_absent (args : gmap string string) (key : string) :
  args !! key = None -> int_arg args key = 0.
Proof. intros Hk. unfold int_arg. rewrite Hk. reflexivity. Qed.

Lemma numBuffs_of_spec (args : gmap string string) :
  numBuffs_of args =
  let n := int_arg args "buffers" in
  if n =? 0 then 32 else if n =? 1 then 2 else n.
Proof.
  unfold numBuffs_of, DEF_NUM_BUFFS. cbv zeta.
  destruct (int_arg args "buffers" =? 0); [reflexivity|].
  destruct (Z.eqb_spec (int_arg args "buffers") 1) as [E|E];
    [rewrite E|]; reflexivity.
Qed.

Lemma numXfers_of_spec (args : gmap string string) :
  numXfers_of args =
  let x := int_arg args "transfers" in
  Z.min (Z.min (if x =? 0 then Z.quot (numBuffs_of args) 2 else x)
               (numBuffs_of args)) 32.
Proof.
  unfold numXfers_of. cbv zeta.
  set (x := if int_arg args "transfers" =? 0 then _ else _).
  destruct (Z.ltb_spec (numBuffs_of args) x);
    [rewrite (Z.min_r x) by lia | rewrite (Z.min_l x) by lia];
    match goal with |- (if 32 <? ?y then _ else _) = _ =>
      destruct (Z.ltb_spec 32 y); lia end.
Qed.

(** For a non-negative length, the buffer size is the least multiple of
    1024 that is not below it. *)
Lemma bufSize_of_rounds_up (args : gmap string string) :
  let l := int_arg args "buflen" in
  0 < l ->
  bufSize_of args mod 1024 = 0 /\ l <= bufSize_of args < l + 1024.
Proof.
  intros l Hl. unfold bufSize_of, DEF_BUFF_LEN. fold l. cbv zeta.
  destruct (Z.eqb_spec l 0) as [E|_]; [lia|].
  rewrite Z.rem_mod_nonneg, Z.quot_div_nonneg by lia.
  pose proof (Z.div_mod l 1024 ltac:(lia)) as Hdm.
  pose proof (Z.mod_pos_bound l 1024 ltac:(lia)) as Hb.
  destruct (Z.eqb_spec (l mod 1024) 0) as [E|E]; cbn [negb].
  - split; [exact E|lia].
  - split; [apply Z.mod_mul; lia|lia].
Qed.

(** The enabling loop only adds device calls. *)
Lemma enable_channels_dev enable_ret direction channels s :
  exists calls,
    _dev (snd (enable_channels enable_ret direction channels s)) = _dev s ++ calls.
Proof.
  revert s. induction channels as [|ch rest IH]; intros s; cbn [enable_channels].
  - exists []. cbn. rewrite app_nil_r. reflexivity.
  - destruct (enable_ret ch =? 0).
    + destruct (IH (bladerf_call (bladerf_enable_module direction ch true) s))
        as (calls & Hc).
      exists (bladerf_enable_module direction ch true :: calls).
      rewrite Hc. cbn. rewrite <- app_assoc. reflexivity.
    + exists [bladerf_enable_module direction ch true]. reflexivity.
Qed.

(** Once the sample format, the channels and the application format have
    been accepted, the device is configured with the computed
    parameters and a timeout of one second. *)
Lemma setupStream_config_call config_ret enable_ret direction format channels_
    args s fmt layout :
  parse_sample_format (default "sc16_meta"%string (args !! "format")) = Some fmt ->
  channel_layout direction
    (match channels_ with [] => [0] | _ => channels_ end) = Some layout ->
  (String.eqb format SOAPY_SDR_CF32 || String.eqb format SOAPY_SDR_CS16) = true ->
  exists calls,
    _dev (snd (setupStream updateRxMinTimeoutMs config_ret enable_ret
                 direction format channels_ args s)) =
    _dev s ++
    bladerf_sync_config layout fmt (to_uint (numBuffs_of args))
      (to_uint (bufSize_of args)) (to_uint (numXfers_of args)) 1000 :: calls.
Proof.
  intros Hfmt Hlay Hformat. unfold setupStream. rewrite Hfmt, Hlay, Hformat.
  cbn [negb].
  destruct (negb (config_ret =? 0)).
  - exists []. reflexivity.
  - match goal with
    | |- context [enable_channels ?e ?d ?c ?s0] =>
        destruct (enable_channels_dev e d c s0) as (calls & Hc);
        destruct (enable_channels e d c s0) as [[ret|] s1]
    end; cbn [snd] in Hc |- *.
    + exists calls. rewrite Hc. cbn. rewrite <- app_assoc. reflexivity.
    + exists calls.
      destruct (direction =? SOAPY_SDR_RX), (direction =? SOAPY_SDR_TX);
        cbn; rewrite Hc; cbn; rewrite <- app_assoc; reflexivity.
Qed.

(** C6, as amended.  The parameters [setupStream] computes for the device
    from the options, where an option that is absent reads as 0: the
    buffer count is 32 for 0, 2 for 1, and the given value otherwise;
    the buffer length is 4096 for 0, a positive multiple of 1024 as
    given, and any other positive value (below the [int] overflow)
    rounded up to the next multiple of 1024; the transfer count is half
    the buffer count for 0 and the given value otherwise, capped at the
    buffer count and then at 32.  These are the values handed to
    [bladerf_sync_config] once the formats and the channels have been
    accepted. *)
Theorem setupStream_parameters (args : gmap string string) :
  let buffers := int_arg args "buffers" in
  let buflen := int_arg args "buflen" in
  let transfers := int_arg args "transfers" in
  0 <= buflen <= 2 ^ 31 - 1024 ->
  (forall key, args !! key = None -> int_arg args key = 0) /\
  (buffers = 0 -> numBuffs_of args = 32) /\
  (buffers = 1 -> numBuffs_of args = 2) /\
  (buffers <> 0 -> buffers <> 1 -> numBuffs_of args = buffers) /\
  (buflen = 0 -> bufSize_of args = 4096) /\
  (buflen <> 0 -> buflen mod 1024 = 0 -> bufSize_of args = buflen) /\
  (buflen mod 1024 <> 0 ->
   bufSize_of args mod 1024 = 0 /\ buflen < bufSize_of args < buflen + 1024) /\
  numXfers_of args =
    Z.min (Z.min (if transfers =? 0 then Z.quot (numBuffs_of args) 2 else transfers)
                 (numBuffs_of args)) 32 /\
  (forall config_ret enable_ret direction format channels_ s fmt layout,
     parse_sample_format (default "sc16_meta"%string (args !! "format")) = Some fmt ->
     channel_layout direction
       (match channels_ with [] => [0] | _ => channels_ end) = Some layout ->
     (String.eqb format SOAPY_SDR_CF32 || String.eqb format SOAPY_SDR_CS16) = true ->
     exists calls,
       _dev (snd (setupStream updateRxMinTimeoutMs config_ret enable_ret
                    direction format channels_ args s)) =
       _dev s ++
       bladerf_sync_config layout fmt (to_uint (numBuffs_of args))
         (to_uint (bufSize_of args)) (to_uint (numXfers_of args)) 1000 :: calls).
Proof.
  intros buffers buflen transfers Hrange.
  split; [intros key; apply int_arg_absent|].
  split; [|split; [|split]].
  - intros E. rewrite numBuffs_of_spec. fold buffers. rewrite E. reflexivity.
  - intros E. rewrite numBuffs_of_spec. fold buffers. rewrite E. reflexivity.
  - intros E0 E1. rewrite numBuffs_of_spec. fold buffers. cbv zeta.
    apply Z.eqb_neq in E0, E1. rewrite E0, E1. reflexivity.
  - split; [|split; [|split]].
    + intros E. unfold bufSize_of. fold buflen. rewrite E. reflexivity.
    + intros E0 Em.
      destruct (bufSize_of_rounds_up args ltac:(fold buflen; lia)) as (Hm & Hb).
      fold buflen in Hb.
      pose proof (Z.div_mod buflen 1024 ltac:(lia)) as D1.
      pose proof (Z.div_mod (bufSize_of args) 1024 ltac:(lia)) as D2.
      lia.
    + intros Em.
      assert (buflen <> 0) by (intros E; rewrite E in Em; auto).
      destruct (bufSize_of_rounds_up args ltac:(fold buflen; lia)) as (Hm & Hb).
      fold buflen in Hb. split; [exact Hm|].
      assert (bufSize_of args <> buflen) by congruence. lia.
    + split; [apply numXfers_of_spec|].
      intros. apply setupStream_config_call; assumption.
Qed.


End SetupProperties.

(** ** The scaling of received samples *)

Lemma exact_quotient_value (d x : Z) :
  exact_quotient d x = true ->
  exists q,
    float_value (fdiv (float_of_int x) (float_of_int d)) = Some q /\
    (q == inject_Z x / inject_Z d)%Q.
Proof.
  unfold exact_quotient.
  destruct (float_value _) as [q|]; [|discriminate].
  intros Hq. exists q. split; [reflexivity|]. apply Qeq_bool_iff. exact Hq.
Qed.

Lemma representative_16bit_exact (x : Z) :
  In x representative_values -> exact_quotient 2048 x = true.
Proof.
  unfold representative_values.
  intros [<-|[<-|[<-|[<-|[<-|[]]]]]]; vm_compute; reflexivity.
Qed.

Lemma representative_8bit_exact (x : Z) :
  In x representative_values -> exact_quotient 128 x = true.
Proof.
  unfold representative_values.
  intros [<-|[<-|[<-|[<-|[<-|[]]]]]]; vm_compute; reflexivity.
Qed.

(** Cell [i] of the converted single-channel output. *)
Lemma rx_convert_float_x1_lookup fmt buf numElems (i : nat) :
  (i < Z.to_nat (2 * numElems))%nat ->
  rx_convert_float_x1 fmt buf numElems !! i = Some (rx_float_cell fmt buf i).
Proof.
  intros Hi. unfold rx_convert_float_x1.
  rewrite list_lookup_fmap, lookup_seq_lt by exact Hi. reflexivity.
Qed.

(** An 8-bit native value is a byte. *)
Lemma rd_int8_range (buf : list Z) (i : nat) : -128 <= rd_int8 buf i <= 127.
Proof.
  unfold rd_int8, to_int8.
  match goal with |- _ <= (?a + _) mod _ - _ <= _ =>
    pose proof (Z.mod_pos_bound (a + 2 ^ 7) (2 ^ 8) ltac:(lia)) end.
  lia.
Qed.

(** Every byte divided by 128 is exact. *)
Lemma all_8bit_exact (x : Z) : -128 <= x <= 127 -> exact_quotient 128 x = true.
Proof.
  intros Hx.
  assert (Hall : forallb (fun k => exact_quotient 128 (Z.of_nat k - 128))
                         (seq 0 256) = true) by (vm_compute; reflexivity).
  rewrite forallb_forall in Hall.
  specialize (Hall (Z.to_nat (x + 128))).
  rewrite Z2Nat.id in Hall by lia.
  replace (x + 128 - 128) with x in Hall by lia.
  apply Hall. apply in_seq. lia.
Qed.

(** In an 8-bit format every cell of the single-channel float output
    is its native byte divided by 128, exactly. *)
Lemma rx_float_cell_8bit fmt buf (i : nat) :
  is_sc8 fmt = true ->
  exists q,
    float_value (rx_float_cell fmt buf i) = Some q /\
    (q == inject_Z (rd_int8 buf i) / inject_Z 128)%Q.
Proof.
  intros H8. unfold rx_float_cell. rewrite H8.
  apply exact_quotient_value, all_8bit_exact, rd_int8_range.
Qed.

Section ReceiveScaling.

Context `{ApiConstants}.
Variable _rxTicksToTimeNs : Z -> Z.
Variable _timeNsToRxTicks : Z -> Z.

(** After a successful float receive the conversion buffer holds what
    the device delivered. *)
Lemma readStream_float_conv_buffer rx numElems flags timeNs timeoutUs s cmd rest :
  _rxCmds s = cmd :: rest ->
  _rxOverflow s = false ->
  dr_ret rx = 0 ->
  _rxFloats s = true ->
  _rxConvBuff (rr_this (readStream _rxTicksToTimeNs _timeNsToRxTicks
                          rx numElems flags timeNs timeoutUs s)) =
  store (dr_data rx) (_rxConvBuff s).
Proof.
  intros Hq Hov H0 Hfl. unfold readStream.
  rewrite Hq, Hov, H0.
  rewrite (eqb_false_of_neq 0 BLADERF_ERR_TIMEOUT), (eqb_false_of_neq 0 BLADERF_ERR_TIME_PAST)
    by (intro E; symmetry in E; revert E;
        first [apply err_timeout_nonzero | apply err_time_past_nonzero]).
  cbn [negb Z.eqb]. cbn. rewrite Hfl. cbn.
  repeat match goal with
         | |- context [if ?b then _ else _] => destruct b
         end; reflexivity.
Qed.

(** C7.  A successful [readStream] on a single-channel float stream
    hands the caller one float buffer of two cells for each element
    received, cell [i] being computed from cell [i] of the conversion
    buffer as the device filled it, read in the width of the sample
    format.  A cell whose native value is one of 0, 2048, -2048, 32767
    and -32768 is the float that is exactly that value divided by 2048
    in a 16-bit format and by 128 in an 8-bit format; in an 8-bit format
    this holds for every cell, whatever byte it holds. *)
Theorem rx_float_conversion_exact
    (rx : DevReply) (numElems flags timeNs timeoutUs : Z) (s : bladeRF_SoapySDR)
    (cmd : StreamMetadata) (rest : list StreamMetadata) :
  _rxCmds s = cmd :: rest ->
  _rxOverflow s = false ->
  dr_ret rx = 0 ->
  _rxFloats s = true ->
  nchans (_rxChans s) = 1 ->
  let r := readStream _rxTicksToTimeNs _timeNsToRxTicks
             rx numElems flags timeNs timeoutUs s in
  let fmt := _sample_format s in
  let native := rx_native fmt (_rxConvBuff (rr_this r)) in
  exists out : list float,
    rr_buffs r = [BufCF32 out] /\
    length out = Z.to_nat (2 * md_actual_count (dr_md rx)) /\
    forall i : nat, (i < length out)%nat ->
      exists f : float,
        out !! i = Some f /\
        (In (native i) representative_values \/ is_sc8 fmt = true ->
         exists q : Q,
           float_value f = Some q /\
           (q == inject_Z (native i) / inject_Z (rx_scale fmt))%Q).
Proof.
  intros Hq Hov H0 Hfl Hch r fmt native.
  pose proof (readStream_float_x1_output _rxTicksToTimeNs _timeNsToRxTicks
                rx numElems flags timeNs timeoutUs s cmd rest Hq Hov H0 Hfl Hch)
    as Hout.
  pose proof (readStream_float_conv_buffer
                rx numElems flags timeNs timeoutUs s cmd rest Hq Hov H0 Hfl)
    as Hbuf.
  fold r in Hout, Hbuf. fold fmt in Hout.
  subst native. rewrite Hbuf.
  set (buf := store (dr_data rx) (_rxConvBuff s)) in *.
  exists (rx_convert_float_x1 fmt buf (md_actual_count (dr_md rx))).
  assert (Hlen : length (rx_convert_float_x1 fmt buf (md_actual_count (dr_md rx))) =
                 Z.to_nat (2 * md_actual_count (dr_md rx))).
  { unfold rx_convert_float_x1. rewrite length_map, length_seq. reflexivity. }
  split; [exact Hout|]. split; [exact Hlen|].
  intros i Hi. rewrite Hlen in Hi.
  exists (rx_float_cell fmt buf i).
  split; [apply rx_convert_float_x1_lookup; exact Hi|].
  unfold rx_native, rx_scale, rx_float_cell.
  destruct (is_sc8 fmt) eqn:H8.
  - intros _. apply exact_quotient_value, all_8bit_exact, rd_int8_range.
  - intros [Hrep|Hf]; [|discriminate].
    apply exact_quotient_value, representative_16bit_exact. exact Hrep.
Qed.

End ReceiveScaling.

(** * The statements on the concrete streams *)

(** C1 on the stream that has just seen an overrun: the read reports the
    overflow at tick 5100 and touches nothing else. *)
Lemma readStream_overflow_reported_once_witness :
  let s := ex_rx_overrun 0 in
  let r := readStream (H := upstream) ex_ticksToTimeNs ex_timeNsToTicks
             (ex_reply 100 9000 0) 100 0 0 1000000 s in
  (_rxCmds s <> [] /\ _rxOverflow s = true) /\
  rr_ret r = -4 /\ _rxOverflow (rr_this r) = false /\ rr_flags r = 4 /\
  rr_timeNs r = 5100000 /\ _dev (rr_this r) = _dev s.
Proof.
  assert (Hq : _rxCmds (ex_rx_overrun 0) <> []) by (vm_compute; discriminate).
  assert (Hov : _rxOverflow (ex_rx_overrun 0) = true) by (vm_compute; reflexivity).
  split; [split; assumption|].
  destruct (readStream_overflow_reported_once (H := upstream)
              ex_ticksToTimeNs ex_timeNsToTicks
              (ex_reply 100 9000 0) 100 0 0 1000000 (ex_rx_overrun 0) Hq Hov)
    as (A & B & C & _ & D & E & _).
  split; [exact A|]. split; [exact B|]. split; [exact C|].
  split; [|exact E]. rewrite D. vm_compute. reflexivity.
Defined.

(** C9 on the stream whose only command was used up by the read that saw
    the overrun: the read times out and the flag survives until a
    command is queued. *)
Lemma readStream_empty_queue_keeps_overflow_witness :
  let s := ex_rx_overrun 100 in
  let r := readStream (H := upstream) ex_ticksToTimeNs ex_timeNsToTicks
             (ex_reply 100 9000 0) 100 7 8 1000000 s in
  let s' := snd (activateStream (H := upstream) 1 0 0 10 (rr_this r)) in
  let r' := readStream (H := upstream) ex_ticksToTimeNs ex_timeNsToTicks
              (ex_reply 10 9000 0) 10 0 0 1000000 s' in
  _rxCmds s = [] /\ _rxOverflow s = true /\
  rr_ret r = -1 /\ rr_this r = s /\ rr_flags r = 7 /\ rr_timeNs r = 8 /\
  rr_ret r' = -4 /\ _rxOverflow (rr_this r') = false.
Proof.
  assert (Hq : _rxCmds (ex_rx_overrun 100) = []) by (vm_compute; reflexivity).
  assert (Hov : _rxOverflow (ex_rx_overrun 100) = true) by (vm_compute; reflexivity).
  split; [exact Hq|]. split; [exact Hov|].
  destruct (readStream_empty_queue_keeps_overflow (H := upstream)
              ex_ticksToTimeNs ex_timeNsToTicks
              (ex_reply 100 9000 0) 100 7 8 1000000 (ex_rx_overrun 100) Hq)
    as (A & B & C & D & E).
  destruct (E Hov) as (_ & F).
  destruct (F 0 0 10 (ex_reply 10 9000 0) 10 0 0 1000000) as (G & K).
  split; [exact A|]. split; [exact B|]. split; [exact C|].
  split; [exact D|]. split; [exact G|exact K].
Defined.

(** C3 on a continuous and on a finite command, with the device failing
    with the error -1: both reads return the stream error; the
    continuous command stays, the finite one is gone. *)
Lemma readStream_hard_error_witness :
  let r0 := readStream (H := upstream) ex_ticksToTimeNs ex_timeNsToTicks
              (ex_error (-1)) 100 0 0 1000000 (ex_rx_active 0) in
  let r1 := readStream (H := upstream) ex_ticksToTimeNs ex_timeNsToTicks
              (ex_error (-1)) 100 0 0 1000000 (ex_rx_active 50) in
  (rr_ret r0 = -2 /\ length (_rxCmds (rr_this r0)) = 1%nat) /\
  (rr_ret r1 = -2 /\ _rxCmds (rr_this r1) = []).
Proof.
  split.
  - destruct (readStream_hard_error (H := upstream)
                ex_ticksToTimeNs ex_timeNsToTicks
                (ex_error (-1)) 100 0 0 1000000 (ex_rx_active 0)
                {| sm_flags := 0; sm_timeNs := 0; sm_numElems := 0; sm_code := 0 |} [])
      as (A & _ & B);
      [vm_compute; reflexivity | vm_compute; reflexivity
      | vm_compute; discriminate | vm_compute; discriminate
      | vm_compute; discriminate |].
    destruct (B eq_refl) as (C & _).
    split; [exact A|]. rewrite C. reflexivity.
  - destruct (readStream_hard_error (H := upstream)
                ex_ticksToTimeNs ex_timeNsToTicks
                (ex_error (-1)) 100 0 0 1000000 (ex_rx_active 50)
                {| sm_flags := 0; sm_timeNs := 0; sm_numElems := 50; sm_code := 0 |} [])
      as (A & B & _);
      [vm_compute; reflexivity | vm_compute; reflexivity
      | vm_compute; discriminate | vm_compute; discriminate
      | vm_compute; discriminate |].
    split; [exact A|]. apply B. cbn. lia.
Defined.

(** C2 as first stated fails: [deactivateStream] called with a flag
    leaves a queued command where it is. *)
Lemma deactivateStream_not_unconditional :
  ~ (forall (tx : DevReply) (flags timeNs : Z) (s : bladeRF_SoapySDR),
       _rxCmds (snd (deactivateStream (H := upstream) tx SOAPY_SDR_RX
                       flags timeNs s)) = []).
Proof.
  intros Hall.
  specialize (Hall (ex_error 0) 1 0 (ex_rx_active 0)).
  vm_compute in Hall. discriminate.
Qed.

(** C2, as amended, on the concrete receive stream: a command for 150
    elements, a read of 100 leaves 50, a read of 50 more removes it; a
    continuous command outlives a read; deactivation empties the queue,
    unless it is given a flag. *)
Lemma rx_command_queue_lifecycle_witness :
  let read rx n s := readStream (H := upstream) ex_ticksToTimeNs ex_timeNsToTicks
                       rx n 0 0 1000000 s in
  let r1 := read (ex_reply 100 5000 0) 100 (ex_rx_active 150) in
  let r2 := read (ex_reply 50 5100 0) 100 (rr_this r1) in
  let r3 := read (ex_reply 100 5000 0) 100 (ex_rx_active 0) in
  map sm_numElems (_rxCmds (ex_rx_active 150)) = [150] /\
  (rr_ret r1 = 100 /\ map sm_numElems (_rxCmds (rr_this r1)) = [50]) /\
  (rr_ret r2 = 50 /\ _rxCmds (rr_this r2) = []) /\
  map sm_numElems (_rxCmds (rr_this r3)) = [0] /\
  _rxCmds (snd (deactivateStream (H := upstream) (ex_error 0) 1 0 0 (rr_this r3))) = [] /\
  deactivateStream (H := upstream) (ex_error 0) 1 1 0 (rr_this r3) = (-5, rr_this r3).
Proof.
  intros read r1 r2 r3.
  destruct (rx_command_queue_lifecycle (H := upstream)
              ex_ticksToTimeNs ex_timeNsToTicks) as (A & B & C & D & E).
  split; [unfold ex_rx_active; rewrite A; vm_compute; reflexivity|].
  split.
  { destruct (B (ex_reply 100 5000 0) 100 0 0 1000000 (ex_rx_active 150)
                {| sm_flags := 0; sm_timeNs := 0; sm_numElems := 150; sm_code := 0 |} [])
      as (B1 & _ & B2);
      [vm_compute; reflexivity | vm_compute; reflexivity | vm_compute; reflexivity
      | vm_compute; reflexivity |].
    split; [exact B1|]. subst r1 read. cbv beta. rewrite B2.
    - vm_compute. reflexivity.
    - vm_compute. discriminate. }
  split.
  { destruct (B (ex_reply 50 5100 0) 100 0 0 1000000 (rr_this r1)
                {| sm_flags := 0; sm_timeNs := 0; sm_numElems := 50; sm_code := 0 |} [])
      as (B1 & B2 & _);
      [vm_compute; reflexivity | vm_compute; reflexivity | vm_compute; reflexivity
      | vm_compute; reflexivity |].
    split; [exact B1|]. apply B2. vm_compute. reflexivity. }
  split.
  { destruct (C (ex_reply 100 5000 0) 100 0 0 1000000 (ex_rx_active 0)
                {| sm_flags := 0; sm_timeNs := 0; sm_numElems := 0; sm_code := 0 |} [])
      as (cmd' & C1 & C2 & _);
      [vm_compute; reflexivity | reflexivity |].
    subst r3 read. cbv beta. rewrite C1. cbn [map]. rewrite C2. reflexivity. }
  split.
  - rewrite D. reflexivity.
  - apply E. discriminate.
Defined.

(** C4 on the transmit stream of capacity 1024: a write of 2000 elements
    with the end-of-burst flag goes on without the flag, the device is
    given 1024 samples under the start and now markers only, and no
    status event is queued. *)
Lemma writeStream_clipped_no_burst_end_witness :
  let r := writeStream (H := upstream) ex_ticksToTimeNs ex_timeNsToTicks
             7000 (ex_reply 1024 0 0) [BufCS16 (replicate 4000 1)]
             2000 2 0 1000000 ex_tx in
  _txBuffSize ex_tx < 2000 /\
  wr_ret r = 1024 /\ wr_flags r = 0 /\ _txResps (wr_this r) = [] /\
  Z.land (wr_flags r) 2 = 0.
Proof.
  assert (Hclip : _txBuffSize ex_tx < 2000) by (vm_compute; reflexivity).
  destruct (writeStream_clipped_no_burst_end (H := upstream)
              ex_ticksToTimeNs ex_timeNsToTicks
              7000 (ex_reply 1024 0 0) [BufCS16 (replicate 4000 1)]
              2000 2 0 1000000 ex_tx Hclip) as (A & _).
  split; [exact Hclip|].
  split; [vm_compute; reflexivity|]. split; [vm_compute; reflexivity|].
  split; [vm_compute; reflexivity|exact A].
Defined.

(** C5 as first stated fails: when the device reports an underrun on the
    first of the three writes, two events are queued, not one. *)
Lemma three_writes_can_queue_two_events :
  ~ (forall (hw1 hw2 hw3 : Z) (tx1 tx2 tx3 : DevReply) (b1 b2 b3 : list AppBuf)
            (n1 n2 n3 f1 f2 f3 t1 t2 t3 to1 to2 to3 : Z) (s0 : bladeRF_SoapySDR),
       _inTxBurst s0 = false ->
       Z.land f1 (SOAPY_SDR_END_BURST (ApiConstants := upstream)) = 0 ->
       Z.land f2 (SOAPY_SDR_END_BURST (ApiConstants := upstream)) = 0 ->
       Z.land f3 (SOAPY_SDR_END_BURST (ApiConstants := upstream)) <> 0 ->
       n3 <= _txBuffSize s0 ->
       dr_ret tx1 = 0 -> dr_ret tx2 = 0 -> dr_ret tx3 = 0 ->
       let r1 := writeStream (H := upstream) ex_ticksToTimeNs ex_timeNsToTicks
                   hw1 tx1 b1 n1 f1 t1 to1 s0 in
       let r2 := writeStream (H := upstream) ex_ticksToTimeNs ex_timeNsToTicks
                   hw2 tx2 b2 n2 f2 t2 to2 (wr_this r1) in
       let r3 := writeStream (H := upstream) ex_ticksToTimeNs ex_timeNsToTicks
                   hw3 tx3 b3 n3 f3 t3 to3 (wr_this r2) in
       length (_txResps (wr_this r3)) = S (length (_txResps s0))).
Proof.
  intros Hall.
  specialize (Hall 7000 7000 7000
                (ex_reply 100 0 2) (ex_reply 100 0 0) (ex_reply 100 0 0)
                [BufCS16 (replicate 200 1)] [BufCS16 (replicate 200 1)]
                [BufCS16 (replicate 200 1)]
                100 100 100 0 0 2 0 0 0 1000000 1000000 1000000 ex_tx).
  vm_compute in Hall.
  specialize (Hall eq_refl eq_refl eq_refl ltac:(discriminate)
                ltac:(discriminate) eq_refl eq_refl eq_refl).
  discriminate.
Qed.

(** C5, as amended, on the concrete transmit stream with a device that
    reports no underrun: one event, the burst end at tick 7300. *)
Lemma three_writes_one_burst_end_witness :
  let write flags s := writeStream (H := upstream) ex_ticksToTimeNs ex_timeNsToTicks
                         7000 (ex_reply 100 0 0) [BufCS16 (replicate 200 1)]
                         100 flags 0 1000000 s in
  let r3 := write 2 (wr_this (write 0 (wr_this (write 0 ex_tx)))) in
  _inTxBurst ex_tx = false /\
  _inTxBurst (wr_this r3) = false /\
  _txResps (wr_this r3) =
    [{| sm_flags := 6; sm_timeNs := 7300000; sm_numElems := 0; sm_code := 0 |}].
Proof.
  intros write r3.
  destruct (three_writes_one_burst_end (H := upstream)
              ex_ticksToTimeNs ex_timeNsToTicks 7000 7000 7000
              (ex_reply 100 0 0) (ex_reply 100 0 0) (ex_reply 100 0 0)
              [BufCS16 (replicate 200 1)] [BufCS16 (replicate 200 1)]
              [BufCS16 (replicate 200 1)]
              100 100 100 0 0 2 0 0 0 1000000 1000000 1000000 ex_tx)
    as (_ & _ & _ & A & _ & B & _);
    [vm_compute; reflexivity | vm_compute; reflexivity | vm_compute; reflexivity
    | vm_compute; discriminate | vm_compute; discriminate
    | reflexivity | reflexivity | reflexivity |].
  split; [vm_compute; reflexivity|]. split; [exact A|].
  subst r3 write. cbv beta. rewrite B by (vm_compute; reflexivity).
  vm_compute. reflexivity.
Defined.

(** C6 as first stated fails for a negative length, which is not rounded
    up to the next multiple of 1024 but to the one after it: the length
    -1 yields 1024, not 0. *)
Lemma bufSize_of_negative_not_next_multiple :
  ~ (forall args : gmap string string,
       let buflen := int_arg args "buflen" in
       buflen mod 1024 <> 0 ->
       bufSize_of args mod 1024 = 0 /\
       buflen < bufSize_of args < buflen + 1024).
Proof.
  intros Hall.
  specialize (Hall {[ "buflen"%string := "-1"%string ]}).
  vm_compute in Hall.
  destruct (Hall ltac:(discriminate)) as (_ & _ & Hlt). discriminate.
Qed.

(** C6, as amended, on the options buffers=1, buflen=1000, transfers=50:
    2 buffers of 1024 and 2 transfers. *)
Lemma setupStream_parameters_witness :
  0 <= int_arg ex_args "buflen" <= 2 ^ 31 - 1024 /\
  numBuffs_of ex_args = 2 /\
  (bufSize_of ex_args mod 1024 = 0 /\ 1000 < bufSize_of ex_args < 2024) /\
  numXfers_of ex_args = 2.
Proof.
  assert (Hrange : 0 <= int_arg ex_args "buflen" <= 2 ^ 31 - 1024)
    by (vm_compute; split; discriminate).
  destruct (setupStream_parameters (H := upstream) ex_minTimeoutMs ex_args Hrange)
    as (_ & _ & A & _ & _ & _ & B & C & _).
  split; [exact Hrange|].
  split; [apply A; vm_compute; reflexivity|].
  split; [apply B; vm_compute; discriminate|].
  rewrite C. vm_compute. reflexivity.
Defined.

(** C7 on the float receive stream, which runs a 16-bit format, when
    the device delivers one element made of -32768 and 2048; and on the
    same stream set up with an 8-bit format, when the device delivers the
    word 0x7F80, whose bytes are -128 and 127. *)
Lemma rx_float_conversion_exact_witness :
  let answer word0 word1 :=
    {| dr_ret := 0;
       dr_md := {| md_timestamp := 5000; md_flags := 0; md_status := 0;
                   md_actual_count := 1 |};
       dr_data := [word0; word1] |} in
  let s8 :=
    snd (activateStream (H := upstream) SOAPY_SDR_RX 0 0 0
           (snd (setupStream (H := upstream) ex_minTimeoutMs 0 (fun _ => 0)
                   SOAPY_SDR_RX "CF32" [0] {[ "format" := "sc8" ]}%string
                   ex_object))) in
  let r16 := readStream (H := upstream) ex_ticksToTimeNs ex_timeNsToTicks
               (answer (-32768) 2048) 100 0 0 1000000 (ex_rx_active 0) in
  let r8 := readStream (H := upstream) ex_ticksToTimeNs ex_timeNsToTicks
              (answer 32640 0) 100 0 0 1000000 s8 in
  (exists out f q,
     rr_buffs r16 = [BufCF32 out] /\ out !! 0%nat = Some f /\
     float_value f = Some q /\ (q == inject_Z (-32768) / inject_Z 2048)%Q) /\
  (exists out f q,
     rr_buffs r8 = [BufCF32 out] /\ out !! 1%nat = Some f /\
     float_value f = Some q /\ (q == inject_Z 127 / inject_Z 128)%Q).
Proof.
  intros answer s8 r16 r8. split.
  - destruct (rx_float_conversion_exact (H := upstream)
                ex_ticksToTimeNs ex_timeNsToTicks
                (answer (-32768) 2048) 100 0 0 1000000 (ex_rx_active 0)
                {| sm_flags := 0; sm_timeNs := 0; sm_numElems := 0; sm_code := 0 |} [])
      as (out & Hout & Hlen & Hcells);
      [vm_compute; reflexivity | vm_compute; reflexivity | reflexivity
      | vm_compute; reflexivity | vm_compute; reflexivity |].
    destruct (Hcells 0%nat) as (f & Hf & Hq); [rewrite Hlen; vm_compute; lia|].
    destruct Hq as (q & Hq & He); [left; vm_compute; tauto|].
    exists out, f, q. split; [exact Hout|]. split; [exact Hf|].
    split; [exact Hq|exact He].
  - destruct (rx_float_conversion_exact (H := upstream)
                ex_ticksToTimeNs ex_timeNsToTicks
                (answer 32640 0) 100 0 0 1000000 s8
                {| sm_flags := 0; sm_timeNs := 0; sm_numElems := 0; sm_code := 0 |} [])
      as (out & Hout & Hlen & Hcells);
      [vm_compute; reflexivity | vm_compute; reflexivity | reflexivity
      | vm_compute; reflexivity | vm_compute; reflexivity |].
    destruct (Hcells 1%nat) as (f & Hf & Hq); [rewrite Hlen; vm_compute; lia|].
    destruct Hq as (q & Hq & He); [right; vm_compute; reflexivity|].
    exists out, f, q. split; [exact Hout|]. split; [exact Hf|].
    split; [exact Hq|exact He].
Defined.

(** C8 on the transmit stream with a burst open: a zero sample goes out
    under the burst-end marker, and the burst is closed, whether the
    device accepts the transmission or fails with -1. *)
Lemma deactivateStream_ends_open_burst_witness :
  let r := deactivateStream (H := upstream) (ex_error (-1)) 0 0 0 ex_tx_open in
  (_inTxBurst ex_tx_open = true /\ (2 <= length (_txConvBuff ex_tx_open))%nat) /\
  fst r = 0 /\ _inTxBurst (snd r) = false /\
  deactivateStream (H := upstream) (ex_reply 1 0 0) 0 0 0 ex_tx_open = r.
Proof.
  assert (Hb : _inTxBurst ex_tx_open = true) by (vm_compute; reflexivity).
  assert (Hl : (2 <= length (_txConvBuff ex_tx_open))%nat)
    by (vm_compute; lia).
  destruct (deactivateStream_ends_open_burst (H := upstream)
              (ex_error (-1)) 0 ex_tx_open Hb Hl) as (A & B & _ & C).
  split; [split; assumption|].
  split; [exact A|]. split; [exact B|]. apply C.
Defined.

(** C8 as worded, with a transmission of no sample, fails: on the
    transmit stream with a burst open the transmission that ends the
    burst carries one sample. *)
Lemma deactivateStream_sends_one_sample :
  ~ (forall (tx : DevReply) (timeNs : Z) (s : bladeRF_SoapySDR),
       _inTxBurst s = true ->
       (2 <= length (_txConvBuff s))%nat ->
       exists samples md timeout_ms,
         _dev (snd (deactivateStream (H := upstream) tx SOAPY_SDR_TX 0 timeNs s)) =
           _dev s ++ [bladerf_sync_tx samples 0 md timeout_ms]).
Proof.
  intros Hall.
  destruct (Hall (ex_error (-1)) 0 ex_tx_open) as (samples & md & t & Hdev);
    [vm_compute; reflexivity | vm_compute; lia |].
  apply (f_equal last) in Hdev. rewrite last_snoc in Hdev.
  vm_compute in Hdev. discriminate Hdev.
Qed.

(** * Further properties of the stream calls *)

(** ** setupStream: what it accepts *)

Section SetupAcceptance.

Context `{ApiConstants}.
Variable updateRxMinTimeoutMs : Z -> Z.

Lemma channel_layout_some direction channels :
  is_Some (channel_layout direction channels) <->
  channels = [0] \/ channels = [1] \/ channels = [0; 1].
Proof.
  unfold channel_layout. split.
  - destruct channels as [|c0 [|c1 [|c2 rest]]]; intros [l Hl]; try discriminate.
    + destruct (Z.eqb_spec c0 0) as [->|?]; [auto|].
      destruct (Z.eqb_spec c0 1) as [->|?]; [auto|discriminate].
    + destruct (Z.eqb_spec c0 0) as [->|?]; [|discriminate].
      destruct (Z.eqb_spec c1 1) as [->|?]; [auto|discriminate].
  - intros [-> | [-> | ->]]; cbn; eauto.
Qed.

(** The call fails with the channel-selection error exactly when the
    sample format option is acceptable and the channel list is none of
    the empty list, [0], [1] and [0; 1]. *)
Theorem setupStream_channel_selection
    (config_ret : Z) (enable_ret : Z -> Z) (direction : Z) (format : string)
    (channels_ : list Z) (args : gmap string string) (s : bladeRF_SoapySDR) :
  fst (setupStream updateRxMinTimeoutMs config_ret enable_ret
         direction format channels_ args s) = inl invalid_channel_selection <->
  is_Some (parse_sample_format (default "sc16_meta"%string (args !! "format"))) /\
  ~ In channels_ accepted_channels.
Proof.
  unfold setupStream, accepted_channels.
  destruct (parse_sample_format _) as [fmt|].
  2:{ cbn. split; [discriminate|]. intros [[x Hx] _]. discriminate. }
  set (channels := match channels_ with [] => [0] | _ => channels_ end).
  assert (Hch : is_Some (channel_layout direction channels) <->
                In channels_ [[]; [0]; [1]; [0; 1]]).
  { rewrite channel_layout_some. subst channels. cbn.
    destruct channels_ as [|c0 rest]; [intuition congruence|].
    intuition congruence. }
  destruct (channel_layout direction channels) as [layout|] eqn:El.
  - assert (In channels_ [[]; [0]; [1]; [0; 1]]) by (apply Hch; eauto).
    split.
    + destruct (negb _); [cbn; discriminate|].
      destruct (negb (config_ret =? 0)); [cbn; discriminate|].
      destruct (enable_channels _ _ _ _) as [[ret|] s1]; cbn; discriminate.
    + intros [_ Hn]. contradiction.
  - split; [|reflexivity]. intros _. split; [eauto|].
    intros Hin. apply Hch in Hin. destruct Hin as [x Hx]. discriminate.
Qed.

(** The sample formats [parse_sample_format] knows are the ones the
    format option advertises. *)
Lemma parse_sample_format_some (sampleFormat : string) :
  is_Some (parse_sample_format sampleFormat) <->
  exists a, In a getStreamArgsInfo /\ ai_key a = "format"%string /\
            In sampleFormat (ai_options a).
Proof.
  split.
  - unfold parse_sample_format. intros Hs.
    exists (nth 3 getStreamArgsInfo (nth 0 getStreamArgsInfo
              (Build_ArgInfo "" "" "" "" "" ArgSTRING (0, 0) [] []))).
    split; [cbn; tauto|]. split; [reflexivity|]. cbn.
    repeat match goal with
           | H : is_Some (if String.eqb ?a ?b then _ else _) |- _ =>
               destruct (String.eqb_spec a b); [subst; tauto|]
           end.
    destruct Hs as [x Hx]. discriminate.
  - intros (a & Ha & Hk & Ho). cbn in Ha.
    destruct Ha as [<-|[<-|[<-|[<-|[]]]]]; try discriminate Hk.
    cbn in Ho. destruct Ho as [<-|[<-|[<-|[<-|[<-|[]]]]]]; cbn; eauto.
Qed.

(** The call fails with the sample-format error exactly when the format
    option is present with a value the option does not advertise; the
    object is then untouched. *)
Theorem setupStream_sample_format_option
    (config_ret : Z) (enable_ret : Z -> Z) (direction : Z) (format : string)
    (channels_ : list Z) (args : gmap string string) (s : bladeRF_SoapySDR)
    (sampleFormat : string) :
  let r := setupStream updateRxMinTimeoutMs config_ret enable_ret
             direction format channels_ args s in
  (fst r = inl (invalid_sample_format sampleFormat) <->
   args !! "format"%string = Some sampleFormat /\
   ~ exists a, In a getStreamArgsInfo /\ ai_key a = "format"%string /\
               In sampleFormat (ai_options a)) /\
  (fst r = inl (invalid_sample_format sampleFormat) -> snd r = s).
Proof.
  intros r. subst r. unfold setupStream.
  rewrite <- parse_sample_format_some.
  destruct (args !! "format"%string) as [v|] eqn:Ev;
    unfold default; cbn [from_option id].
  - destruct (parse_sample_format v) as [fmt|] eqn:Ep.
    + split.
      * split.
        -- intros Hr. exfalso. revert Hr.
           destruct (channel_layout _ _); [|cbn; discriminate].
           destruct (negb _); [cbn; discriminate|].
           destruct (negb (config_ret =? 0)); [cbn; discriminate|].
           destruct (enable_channels _ _ _ _) as [[ret|] s1]; cbn; discriminate.
        -- intros [E Hn]. injection E as <-. rewrite Ep in Hn.
           exfalso. apply Hn. eauto.
      * intros Hr. exfalso. revert Hr.
        destruct (channel_layout _ _); [|cbn; discriminate].
        destruct (negb _); [cbn; discriminate|].
        destruct (negb (config_ret =? 0)); [cbn; discriminate|].
        destruct (enable_channels _ _ _ _) as [[ret|] s1]; cbn; discriminate.
    + cbn. split; [|reflexivity]. split.
      * intros E. injection E as <-. rewrite Ep. split; [reflexivity|].
        intros [x Hx]. discriminate.
      * intros [E _]. injection E as <-. reflexivity.
  - assert (Hd : parse_sample_format "sc16_meta" = Some BLADERF_FORMAT_SC16_Q11_META)
      by reflexivity.
    rewrite Hd. split.
    + split; [|intros [E _]; discriminate].
      intros Hr. exfalso. revert Hr.
      destruct (channel_layout _ _); [|cbn; discriminate].
      destruct (negb _); [cbn; discriminate|].
      destruct (negb (config_ret =? 0)); [cbn; discriminate|].
      destruct (enable_channels _ _ _ _) as [[ret|] s1]; cbn; discriminate.
    + intros Hr. exfalso. revert Hr.
      destruct (channel_layout _ _); [|cbn; discriminate].
      destruct (negb _); [cbn; discriminate|].
      destruct (negb (config_ret =? 0)); [cbn; discriminate|].
      destruct (enable_channels _ _ _ _) as [[ret|] s1]; cbn; discriminate.
Qed.

(** Passing every advertised option with its advertised value is the
    same as passing no option. *)
Theorem setupStream_advertised_defaults
    (config_ret : Z) (enable_ret : Z -> Z) (direction : Z) (format : string)
    (channels_ : list Z) (s : bladeRF_SoapySDR) :
  setupStream updateRxMinTimeoutMs config_ret enable_ret
    direction format channels_ advertised_args s =
  setupStream updateRxMinTimeoutMs config_ret enable_ret
    direction format channels_ ∅ s.
Proof.
  unfold setupStream.
  assert (Ef : advertised_args !! "format"%string = Some "sc16_meta"%string)
    by (vm_compute; reflexivity).
  assert (En : numBuffs_of advertised_args = numBuffs_of ∅) by (vm_compute; reflexivity).
  assert (Eb : bufSize_of advertised_args = bufSize_of ∅) by (vm_compute; reflexivity).
  assert (Ex : numXfers_of advertised_args = numXfers_of ∅) by (vm_compute; reflexivity).
  rewrite Ef, En, Eb, Ex, lookup_empty. reflexivity.
Qed.

End SetupAcceptance.

(** ** setupStream: how it fails and what it leaves *)

Section SetupOutcome.

Context `{ApiConstants}.
Variable updateRxMinTimeoutMs : Z -> Z.

Local Ltac setup_cases :=
  repeat match goal with
         | |- context [match parse_sample_format ?x with _ => _ end] =>
             destruct (parse_sample_format x) eqn:?
         | |- context [match channel_layout ?d ?c with _ => _ end] =>
             destruct (channel_layout d c) eqn:?
         | |- context [match enable_channels ?e ?d ?c ?s with _ => _ end] =>
             destruct (enable_channels e d c s) as [[?|] ?] eqn:?
         | |- context [if ?b then _ else _] => destruct b eqn:?
         end.

(** The channel check after the empty list has been replaced. *)
Lemma channel_layout_accepted direction (channels_ : list Z) :
  is_Some (channel_layout direction
             (match channels_ with [] => [0] | _ => channels_ end)) <->
  In channels_ accepted_channels.
Proof.
  rewrite channel_layout_some. unfold accepted_channels. cbn [In].
  destruct channels_ as [|c0 rest]; intuition congruence.
Qed.

(** The call fails with the application-format error exactly when the
    sample format option and the channel list are acceptable and the
    format is none of [getStreamFormats]. *)
Theorem setupStream_application_format
    (config_ret : Z) (enable_ret : Z -> Z) (direction : Z) (format : string)
    (channels_ : list Z) (args : gmap string string) (s : bladeRF_SoapySDR)
    (f : string) :
  fst (setupStream updateRxMinTimeoutMs config_ret enable_ret
         direction format channels_ args s) = inl (invalid_format f) <->
  f = format /\
  is_Some (parse_sample_format (default "sc16_meta"%string (args !! "format"))) /\
  In channels_ accepted_channels /\
  ~ In format getStreamFormats.
Proof.
  assert (Hin : In format getStreamFormats <->
                (String.eqb format SOAPY_SDR_CF32 || String.eqb format SOAPY_SDR_CS16)
                = true).
  { unfold getStreamFormats. cbn [In].
    rewrite orb_true_iff, !String.eqb_eq. intuition congruence. }
  rewrite <- channel_layout_accepted with (direction := direction).
  unfold setupStream.
  destruct (parse_sample_format _) as [fmt|] eqn:Ep.
  2:{ cbn. split; [discriminate|]. intros (_ & [x Hx] & _). discriminate. }
  destruct (channel_layout _ _) as [layout|] eqn:El.
  2:{ cbn. split; [discriminate|]. intros (_ & _ & [x Hx] & _). discriminate. }
  destruct (String.eqb format SOAPY_SDR_CF32 || String.eqb format SOAPY_SDR_CS16) eqn:Ef;
    cbn [negb].
  - split.
    + setup_cases; cbn; discriminate.
    + intros (_ & _ & _ & Hn). exfalso. apply Hn, Hin. reflexivity.
  - cbn. split.
    + intros E. injection E as <-. repeat split; eauto.
      rewrite Hin. discriminate.
    + intros (-> & _). reflexivity.
Qed.

(** A call rejected for its channel list or its application format has
    made no device call, but it has already replaced the sample format
    of the object, which both directions share; nothing else differs. *)
Theorem setupStream_rejected_keeps_sample_format
    (config_ret : Z) (enable_ret : Z -> Z) (direction : Z) (format : string)
    (channels_ : list Z) (args : gmap string string) (s : bladeRF_SoapySDR) :
  let r := setupStream updateRxMinTimeoutMs config_ret enable_ret
             direction format channels_ args s in
  fst r = inl invalid_channel_selection \/ fst r = inl (invalid_format format) ->
  exists fmt,
    parse_sample_format (default "sc16_meta"%string (args !! "format")) = Some fmt /\
    snd r = set_sample_format fmt s /\
    _sample_format (snd r) = fmt /\
    _dev (snd r) = _dev s.
Proof.
  intros r Hr. subst r. revert Hr. unfold setupStream.
  destruct (parse_sample_format _) as [fmt|] eqn:Ep.
  2:{ cbn. intros [E|E]; discriminate. }
  destruct (channel_layout _ _) as [layout|] eqn:El; [|cbn; eauto].
  destruct (negb _); [cbn; eauto|].
  intros Hr. exfalso. revert Hr.
  setup_cases; cbn; intros [E|E]; discriminate.
Qed.

(** The calls that enable the channels [chans], in order, up to the
    first one the device refuses. *)
Lemma enable_channels_calls enable_ret direction chans s :
  exists done,
    done `prefix_of` chans /\
    snd (enable_channels enable_ret direction chans s) =
      with_dev (_dev s ++
                map (fun ch => bladerf_enable_module direction ch true) done) s /\
    match fst (enable_channels enable_ret direction chans s) with
    | None => done = chans /\ Forall (fun ch => enable_ret ch = 0) chans
    | Some ret => ret <> 0 /\ exists ch, last done = Some ch /\ ret = enable_ret ch
    end.
Proof.
  revert s. induction chans as [|ch rest IH]; intros s; cbn [enable_channels].
  - exists []. cbn. rewrite app_nil_r. destruct s; auto.
  - destruct (Z.eqb_spec (enable_ret ch) 0) as [E|E].
    + destruct (IH (bladerf_call (bladerf_enable_module direction ch true) s))
        as (done & Hp & Hs & Hf).
      exists (ch :: done). split; [apply prefix_cons; exact Hp|].
      split.
      * rewrite Hs. cbn. rewrite <- app_assoc. reflexivity.
      * destruct (fst (enable_channels _ _ _ _)).
        -- destruct Hf as (Hnz & ch' & Hl & Hr). split; [exact Hnz|].
           exists ch'. split; [|exact Hr].
           destruct done as [|d ds]; [discriminate|exact Hl].
        -- destruct Hf as [-> Hall]. split; [reflexivity|]. constructor; assumption.
    + exists [ch]. split; [apply prefix_cons, prefix_nil|].
      split; [reflexivity|]. split; [exact E|]. exists ch. split; reflexivity.
Qed.

(** When the device refuses the configuration or a channel, the call
    fails with the device's code, which is not 0.  The stream members of
    the object are as they were: apart from the sample format, only the
    device log has grown, by the configuration call and the enabling of
    the channels up to the refused one.  No channel that was enabled is
    disabled again. *)
Theorem setupStream_device_failure
    (config_ret : Z) (enable_ret : Z -> Z) (direction : Z) (format : string)
    (channels_ : list Z) (args : gmap string string) (s : bladeRF_SoapySDR)
    (ret : Z) :
  let r := setupStream updateRxMinTimeoutMs config_ret enable_ret
             direction format channels_ args s in
  fst r = inl (device_error ret) ->
  ret <> 0 /\
  exists fmt layout done,
    done `prefix_of` (match channels_ with [] => [0] | _ => channels_ end) /\
    snd r =
      with_dev
        (_dev s ++
         bladerf_sync_config layout fmt (to_uint (numBuffs_of args))
           (to_uint (bufSize_of args)) (to_uint (numXfers_of args)) 1000 ::
         map (fun ch => bladerf_enable_module direction ch true) done)
        (set_sample_format fmt s) /\
    (ret = config_ret /\ done = [] \/
     config_ret = 0 /\ exists ch, last done = Some ch /\ ret = enable_ret ch).
Proof.
  intros r Hr. subst r. revert Hr. unfold setupStream.
  destruct (parse_sample_format _) as [fmt|] eqn:Ep; [|cbn; discriminate].
  destruct (channel_layout _ _) as [layout|] eqn:El; [|cbn; discriminate].
  destruct (negb _); [cbn; discriminate|].
  destruct (Z.eqb_spec config_ret 0) as [E0|E0]; cbn [negb].
  - match goal with
    | |- context [enable_channels ?e ?d ?c ?s0] =>
        destruct (enable_channels_calls e d c s0) as (done & Hp & Hs & Hf);
        destruct (enable_channels e d c s0) as [[ret'|] s1] eqn:Een
    end; cbn [fst snd] in *; [|discriminate].
    intros E. injection E as <-. destruct Hf as (Hnz & ch & Hl & Hr).
    split; [exact Hnz|].
    exists fmt, layout, done. split; [exact Hp|]. split.
    + rewrite Hs. cbn. rewrite <- app_assoc. reflexivity.
    + right. split; [exact E0|]. eauto.
  - cbn. intros E. injection E as <-. split; [exact E0|].
    exists fmt, layout, []. split; [apply prefix_nil|]. split; [reflexivity|].
    left. split; reflexivity.
Qed.

End SetupOutcome.

(** ** setupStream, getStreamMTU and closeStream: the life of a stream *)

Section StreamLife.

Context `{ApiConstants}.
Variable updateRxMinTimeoutMs : Z -> Z.


(** A successful call, spelled out: the device calls it has made and the
    assignments of the two direction blocks. *)
Lemma setupStream_success config_ret enable_ret direction format channels_ args s
    stream :
  let channels := match channels_ with [] => [0] | _ => channels_ end in
  let r := setupStream updateRxMinTimeoutMs config_ret enable_ret
             direction format channels_ args s in
  fst r = inr stream ->
  stream = direction /\
  (channels = [0] \/ channels = [1] \/ channels = [0; 1]) /\
  exists fmt layout,
    let s0 := with_dev
                (_dev s ++
                 bladerf_sync_config layout fmt (to_uint (numBuffs_of args))
                   (to_uint (bufSize_of args)) (to_uint (numXfers_of args)) 1000 ::
                 map (fun ch => bladerf_enable_module direction ch true) channels)
                (set_sample_format fmt s) in
    let s1 := if direction =? SOAPY_SDR_RX
              then setup_rx updateRxMinTimeoutMs format channels (bufSize_of args) s0
              else s0 in
    snd r = if direction =? SOAPY_SDR_TX
            then setup_tx format channels (bufSize_of args) s1 else s1.
Proof.
  intros channels r Hr. subst r. revert Hr. unfold setupStream. fold channels.
  destruct (parse_sample_format _) as [fmt|] eqn:Ep; [|cbn; discriminate].
  destruct (channel_layout _ _) as [layout|] eqn:El; [|cbn; discriminate].
  destruct (negb _); [cbn; discriminate|].
  destruct (negb (config_ret =? 0)); [cbn; discriminate|].
  match goal with
  | |- context [enable_channels ?e ?d ?c ?s0] =>
      destruct (enable_channels_calls e d c s0) as (done & Hp & Hs & Hf);
      destruct (enable_channels e d c s0) as [[ret'|] s1] eqn:Een
  end; cbn [fst snd] in *; [discriminate|].
  intros E. injection E as <-. destruct Hf as [-> _].
  split; [reflexivity|].
  split; [apply (proj1 (channel_layout_some direction channels)); eauto|].
  exists fmt, layout. cbv zeta. rewrite Hs. cbn. rewrite <- app_assoc. reflexivity.
Qed.


(** The calls of the loop of [closeStream], up to the first channel the
    device refuses to disable. *)
Lemma disable_channels_calls disable_ret direction chans s :
  exists done,
    done `prefix_of` chans /\
    snd (disable_channels disable_ret direction chans s) =
      with_dev (_dev s ++
                map (fun ch => bladerf_enable_module direction ch false) done) s /\
    match fst (disable_channels disable_ret direction chans s) with
    | None => done = chans
    | Some ret => ret <> 0 /\ exists ch, last done = Some ch /\ ret = disable_ret ch
    end.
Proof.
  revert s. induction chans as [|ch rest IH]; intros s; cbn [disable_channels].
  - exists []. cbn. rewrite app_nil_r. destruct s; auto.
  - destruct (Z.eqb_spec (disable_ret ch) 0) as [E|E].
    + destruct (IH (bladerf_call (bladerf_enable_module direction ch false) s))
        as (done & Hp & Hs & Hf).
      exists (ch :: done). split; [apply prefix_cons; exact Hp|].
      split.
      * rewrite Hs. cbn. rewrite <- app_assoc. reflexivity.
      * destruct (fst (disable_channels _ _ _ _)).
        -- destruct Hf as (Hnz & ch' & Hl & Hr). split; [exact Hnz|].
           exists ch'. split; [|exact Hr].
           destruct done as [|d ds]; [discriminate|exact Hl].
        -- rewrite Hf. reflexivity.
    + exists [ch]. split; [apply prefix_cons, prefix_nil|].
      split; [reflexivity|]. split; [exact E|]. exists ch. split; reflexivity.
Qed.

(** [closeStream] talks to the device only to disable channels of its
    direction, in the order of the channel list.  When the device refuses
    one, the call fails with the device's code and the object is as it
    was, channel list and conversion buffer included, apart from the
    device log.  In no case does it touch the command queue, the overflow
    flag, the burst flag or the queue of status events: a burst that is
    open stays open, and no end of burst is sent. *)
Theorem closeStream_effect
    (disable_ret : Z -> Z) (stream : Z) (s : bladeRF_SoapySDR) :
  let chans := if stream =? SOAPY_SDR_RX then _rxChans s else _txChans s in
  let r := closeStream disable_ret stream s in
  exists done,
    done `prefix_of` chans /\
    _dev (snd r) =
      _dev s ++ map (fun ch => bladerf_enable_module stream ch false) done /\
    _rxCmds (snd r) = _rxCmds s /\ _rxOverflow (snd r) = _rxOverflow s /\
    _inTxBurst (snd r) = _inTxBurst s /\ _txResps (snd r) = _txResps s /\
    match fst r with
    | None =>
        done = chans /\
        (if stream =? SOAPY_SDR_RX then _rxChans (snd r) else _txChans (snd r)) = []
    | Some e =>
        (exists ret ch, e = device_error ret /\ ret <> 0 /\
                        last done = Some ch /\ ret = disable_ret ch) /\
        snd r = with_dev (_dev (snd r)) s
    end.
Proof.
  intros chans r. subst r. unfold closeStream. fold chans.
  destruct (disable_channels_calls disable_ret stream chans s)
    as (done & Hp & Hs & Hf).
  exists done. split; [exact Hp|].
  destruct (disable_channels disable_ret stream chans s) as [[ret|] s1];
    cbn [fst snd] in *; subst s1.
  - cbn. repeat split; try reflexivity.
    destruct Hf as (Hnz & ch & Hl & Hr). eauto 10.
  - destruct (stream =? SOAPY_SDR_RX), (stream =? SOAPY_SDR_TX); cbn;
      repeat split; auto.
Qed.

(** A stream that [setupStream] has set up and [closeStream] closes,
    with a device that accepts every call: after the configuration the
    device has seen each channel of the stream enabled and then each one
    disabled, in the same order, and nothing else, and the channel list of
    the direction is empty. *)
Theorem closeStream_after_setupStream
    (config_ret : Z) (enable_ret disable_ret : Z -> Z) (direction : Z)
    (format : string) (channels_ : list Z) (args : gmap string string)
    (s : bladeRF_SoapySDR) (stream : Z) :
  let channels := match channels_ with [] => [0] | _ => channels_ end in
  let r := setupStream updateRxMinTimeoutMs config_ret enable_ret
             direction format channels_ args s in
  let c := closeStream disable_ret stream (snd r) in
  fst r = inr stream ->
  direction = SOAPY_SDR_RX \/ direction = SOAPY_SDR_TX ->
  (forall ch, disable_ret ch = 0) ->
  fst c = None /\
  (exists fmt layout,
     _dev (snd c) =
       _dev s ++
       bladerf_sync_config layout fmt (to_uint (numBuffs_of args))
         (to_uint (bufSize_of args)) (to_uint (numXfers_of args)) 1000 ::
       map (fun ch => bladerf_enable_module direction ch true) channels ++
       map (fun ch => bladerf_enable_module direction ch false) channels) /\
  (if direction =? SOAPY_SDR_RX then _rxChans (snd c) else _txChans (snd c)) = [].
Proof.
  intros channels r c Hr Hdir Hok.
  destruct (setupStream_success _ _ _ _ _ _ _ _ Hr) as (-> & Hch & fmt & layout & Hs).
  fold r channels in Hs. cbv zeta in Hs.
  assert (Hchans : (if direction =? SOAPY_SDR_RX then _rxChans (snd r)
                    else _txChans (snd r)) = channels).
  { rewrite Hs. destruct Hdir as [-> | ->].
    - rewrite Z.eqb_refl. destruct (SOAPY_SDR_RX =? SOAPY_SDR_TX); reflexivity.
    - rewrite Z.eqb_refl.
      destruct (SOAPY_SDR_TX =? SOAPY_SDR_RX) eqn:E; [|reflexivity].
      apply Z.eqb_eq in E. symmetry in E. destruct (direction_distinct E). }
  assert (Hdev : _dev (snd r) =
                 _dev s ++
                 bladerf_sync_config layout fmt (to_uint (numBuffs_of args))
                   (to_uint (bufSize_of args)) (to_uint (numXfers_of args)) 1000 ::
                 map (fun ch => bladerf_enable_module direction ch true) channels).
  { rewrite Hs.
    destruct (direction =? SOAPY_SDR_RX), (direction =? SOAPY_SDR_TX); reflexivity. }
  subst c. unfold closeStream. rewrite Hchans.
  destruct (disable_channels_calls disable_ret direction channels (snd r))
    as (done & _ & Hd & Hf).
  destruct (disable_channels disable_ret direction channels (snd r)) as [[ret|] s1];
    cbn [fst snd] in Hd, Hf.
  - destruct Hf as (Hnz & ch & _ & Hret). rewrite Hok in Hret. contradiction.
  - subst done s1. cbn [fst snd]. split; [reflexivity|]. split.
    + exists fmt, layout.
      destruct (direction =? SOAPY_SDR_RX), (direction =? SOAPY_SDR_TX);
        cbn; rewrite Hdev, <- app_assoc; reflexivity.
    + destruct (direction =? SOAPY_SDR_RX), (direction =? SOAPY_SDR_TX);
        reflexivity.
Qed.

End StreamLife.

(** ** readStream: timestamps, bounds, overruns *)

Section ReceiveMore.

Context `{ApiConstants}.
Variable _rxTicksToTimeNs : Z -> Z.
Variable _timeNsToRxTicks : Z -> Z.

Local Ltac split_ifs :=
  repeat match goal with
         | |- context [if ?b then _ else _] => destruct b eqn:?
         end.

(** Whatever the device answers, a command that is still at the front of
    the queue after a read that reached the device has lost its flags
    and kept its time. *)
Lemma readStream_front_flags_cleared rx numElems flags timeNs timeoutUs s cmd rest
    cmd' :
  _rxCmds s = cmd :: rest ->
  _rxOverflow s = false ->
  _rxCmds (rr_this (readStream _rxTicksToTimeNs _timeNsToRxTicks
                      rx numElems flags timeNs timeoutUs s)) = cmd' :: rest ->
  sm_flags cmd' = 0 /\ sm_timeNs cmd' = sm_timeNs cmd.
Proof.
  intros Hq Hov. unfold readStream. rewrite Hq, Hov.
  assert (Hne : forall x : StreamMetadata, rest <> x :: rest).
  { intros x E. apply (f_equal length) in E. cbn in E. lia. }
  split_ifs; cbn; intros E; try (injection E as <-; cbn; auto);
    exfalso; eapply Hne; eauto.
Qed.

(** The time of a timed command is handed to the device once.  The first
    receive for it carries the converted time and no flag; when the
    command is still at the front afterwards (after a partial receive, a
    timeout or a time in the past) and no overflow is pending, the next
    receive for it carries the RX_NOW flag. *)
Theorem readStream_time_applies_once
    (rx1 rx2 : DevReply) (n1 n2 f1 f2 t1 t2 to1 to2 : Z)
    (s : bladeRF_SoapySDR) (cmd : StreamMetadata) (rest : list StreamMetadata) :
  _rxCmds s = cmd :: rest ->
  _rxOverflow s = false ->
  Z.land (sm_flags cmd) SOAPY_SDR_HAS_TIME <> 0 ->
  let r1 := readStream _rxTicksToTimeNs _timeNsToRxTicks rx1 n1 f1 t1 to1 s in
  let r2 := readStream _rxTicksToTimeNs _timeNsToRxTicks rx2 n2 f2 t2 to2
              (rr_this r1) in
  length (_rxCmds (rr_this r1)) = length (_rxCmds s) ->
  _rxOverflow (rr_this r1) = false ->
  exists c1 m1 c2 m2,
    _dev (rr_this r2) =
      _dev s ++
      [bladerf_sync_rx c1
         {| md_timestamp := _timeNsToRxTicks (sm_timeNs cmd); md_flags := 0;
            md_status := 0; md_actual_count := 0 |} m1;
       bladerf_sync_rx c2
         {| md_timestamp := _timeNsToRxTicks (sm_timeNs cmd);
            md_flags := BLADERF_META_FLAG_RX_NOW;
            md_status := 0; md_actual_count := 0 |} m2].
Proof.
  intros Hq Hov Htime r1 r2 Hlen Hov1.
  pose proof (readStream_calls_device _rxTicksToTimeNs _timeNsToRxTicks
                rx1 n1 f1 t1 to1 s cmd rest Hq Hov) as Hd1.
  fold r1 in Hd1.
  (* the queue after the first read is the command, possibly reduced *)
  assert (Hq1 : exists cmd', _rxCmds (rr_this r1) = cmd' :: rest).
  { revert Hlen. subst r1. unfold readStream. rewrite Hq, Hov.
    assert (Hne : length rest <> length (cmd :: rest)) by (cbn; lia).
    split_ifs; cbn; intros E; eauto; exfalso; cbn in Hne; lia. }
  destruct Hq1 as (cmd' & Hq1).
  destruct (readStream_front_flags_cleared rx1 n1 f1 t1 to1 s cmd rest cmd'
              Hq Hov Hq1) as (Hf & Ht).
  pose proof (readStream_calls_device _rxTicksToTimeNs _timeNsToRxTicks
                rx2 n2 f2 t2 to2 (rr_this r1) cmd' rest Hq1 Hov1) as Hd2.
  fold r2 in Hd2. rewrite Hd2, Hd1, <- app_assoc. cbn [app].
  unfold rx_call. rewrite Hf, Ht. apply Z.eqb_neq in Htime. rewrite Htime.
  rewrite Z.land_0_l. cbn [Z.eqb]. do 4 eexists. reflexivity.
Qed.

(** On a well-formed receive stream the device is never asked for more
    elements than the caller asked for, than the buffer size, or than is
    left of a finite command, and what it is asked for fits the
    conversion buffer.  When the device then delivers no more than it was
    asked for, the count of a finite command does not wrap around: the
    command is popped when the count is reached and otherwise left with
    the difference. *)
Theorem readStream_request_bounded
    (rx : DevReply) (numElems flags timeNs timeoutUs : Z) (s : bladeRF_SoapySDR)
    (cmd : StreamMetadata) (rest : list StreamMetadata) :
  rx_stream_ok s ->
  _rxCmds s = cmd :: rest ->
  _rxOverflow s = false ->
  0 <= numElems ->
  0 <= sm_numElems cmd < 2 ^ 64 ->
  let r := readStream _rxTicksToTimeNs _timeNsToRxTicks
             rx numElems flags timeNs timeoutUs s in
  let nch := nchans (_rxChans s) in
  exists n md timeout_ms,
    _dev (rr_this r) = _dev s ++ [bladerf_sync_rx (n * nch) md timeout_ms] /\
    0 <= n <= numElems /\ n <= _rxBuffSize s /\
    (0 < sm_numElems cmd -> n <= sm_numElems cmd) /\
    2 * (n * nch) <= Z.of_nat (length (_rxConvBuff s)) /\
    (dr_ret rx = 0 ->
     0 <= md_actual_count (dr_md rx) <= n * nch ->
     0 < sm_numElems cmd ->
     let got := rx_received s rx in
     0 <= got <= sm_numElems cmd /\
     _rxCmds (rr_this r) =
       if got =? sm_numElems cmd then rest
       else set_sm_numElems (sm_numElems cmd - got) (set_sm_flags 0 cmd) :: rest).
Proof.
  intros (Hch & Hsz & Hlen) Hq Hov Hn Hc r nch.
  pose proof (readStream_calls_device _rxTicksToTimeNs _timeNsToRxTicks
                rx numElems flags timeNs timeoutUs s cmd rest Hq Hov) as Hd.
  fold r in Hd. unfold rx_call in Hd. fold nch in Hd, Hlen, Hch.
  set (n := if 0 <? sm_numElems cmd
            then Z.min (sm_numElems cmd) (Z.min numElems (_rxBuffSize s))
            else Z.min numElems (_rxBuffSize s)) in *.
  assert (Hnb : 0 <= n <= numElems /\ n <= _rxBuffSize s /\
                (0 < sm_numElems cmd -> n <= sm_numElems cmd)).
  { subst n. destruct (Z.ltb_spec 0 (sm_numElems cmd)); lia. }
  destruct Hnb as (Hn0 & Hnbuf & Hncmd).
  assert (Hfit : to_uint (n * nch) = n * nch).
  { unfold to_uint. apply Z.mod_small. destruct Hch as [-> | ->]; lia. }
  rewrite Hfit in Hd.
  do 3 eexists. split; [exact Hd|].
  split; [exact Hn0|]. split; [exact Hnbuf|]. split; [exact Hncmd|].
  split; [rewrite Hlen; destruct Hch as [-> | ->]; nia|].
  intros H0 Hcount Hpos got.
  assert (Hgot : 0 <= got <= sm_numElems cmd).
  { subst got. unfold rx_received. fold nch.
    rewrite Z.quot_div_nonneg by (destruct Hch as [-> | ->]; lia).
    split.
    - apply Z.div_pos; destruct Hch as [-> | ->]; lia.
    - specialize (Hncmd Hpos).
      assert (md_actual_count (dr_md rx) / nch <= n); [|lia].
      apply Z.div_le_upper_bound; destruct Hch as [-> | ->]; lia. }
  split; [exact Hgot|].
  destruct (readStream_success_queue _rxTicksToTimeNs _timeNsToRxTicks
              rx numElems flags timeNs timeoutUs s cmd rest Hq Hov H0) as (_ & Hq').
  fold r in Hq'. fold (rx_received s rx) in Hq'. fold got in Hq'.
  apply Z.ltb_lt in Hpos. rewrite Hpos in Hq'. cbv zeta in Hq'.
  unfold to_size_t in Hq'. rewrite Z.mod_small in Hq' by lia.
  rewrite Hq'.
  destruct (Z.eqb_spec (sm_numElems cmd - got) 0), (Z.eqb_spec got (sm_numElems cmd));
    try lia; reflexivity.
Qed.

(** An overrun is no failure of the read that meets it: that read
    returns its count, with HAS_TIME and the time of the first sample.
    When a command is still queued, the next read makes no device call
    and returns the overflow result, stamped with the tick that follows
    the last sample received. *)
Theorem readStream_overrun_then_overflow
    (rx1 rx2 : DevReply) (n1 n2 f1 f2 t1 t2 to1 to2 : Z)
    (s : bladeRF_SoapySDR) (cmd : StreamMetadata) (rest : list StreamMetadata) :
  _rxCmds s = cmd :: rest ->
  _rxOverflow s = false ->
  dr_ret rx1 = 0 ->
  Z.land (md_status (dr_md rx1)) BLADERF_META_STATUS_OVERRUN <> 0 ->
  let r1 := readStream _rxTicksToTimeNs _timeNsToRxTicks rx1 n1 f1 t1 to1 s in
  let r2 := readStream _rxTicksToTimeNs _timeNsToRxTicks rx2 n2 f2 t2 to2
              (rr_this r1) in
  _rxCmds (rr_this r1) <> [] ->
  rr_ret r1 = to_int (rx_received s rx1) /\
  rr_timeNs r1 = _rxTicksToTimeNs (md_timestamp (dr_md rx1)) /\
  rr_ret r2 = SOAPY_SDR_OVERFLOW /\
  rr_timeNs r2 =
    _rxTicksToTimeNs (to_size_t (md_timestamp (dr_md rx1) + rx_received s rx1)) /\
  _dev (rr_this r2) = _dev (rr_this r1) /\
  _rxCmds (rr_this r2) = _rxCmds (rr_this r1).
Proof.
  intros Hq Hov H0 Hst r1 r2 Hne.
  assert (Hs1 : rr_ret r1 = to_int (rx_received s rx1) /\
                rr_timeNs r1 = _rxTicksToTimeNs (md_timestamp (dr_md rx1)) /\
                _rxOverflow (rr_this r1) = true /\
                _rxNextTicks (rr_this r1) =
                  to_size_t (md_timestamp (dr_md rx1) + rx_received s rx1)).
  { subst r1. unfold readStream, rx_received. rewrite Hq, Hov, H0.
    apply Z.eqb_neq in Hst. rewrite Hst.
    rewrite (eqb_false_of_neq 0 BLADERF_ERR_TIMEOUT),
            (eqb_false_of_neq 0 BLADERF_ERR_TIME_PAST)
      by (intro E; symmetry in E; revert E;
          first [apply err_timeout_nonzero | apply err_time_past_nonzero]).
    cbn [negb Z.eqb]. split_ifs; cbn; auto. }
  destruct Hs1 as (Hr1 & Ht1 & Hov1 & Hticks).
  subst r2.
  rewrite (readStream_overflow _rxTicksToTimeNs _timeNsToRxTicks rx2) by assumption.
  cbn [rr_ret rr_timeNs rr_this]. rewrite Hticks.
  repeat split; assumption.
Qed.

End ReceiveMore.

(** ** writeStream: device traffic, failures, bounds and bursts *)

Lemma store_length (data buf : list Z) :
  (length data <= length buf)%nat -> length (store data buf) = length buf.
Proof.
  intros Hl. unfold store. rewrite length_app, length_drop. lia.
Qed.

Lemma interleave_length {A} (in0 in1 : nat -> A) (numElems : Z) :
  length (interleave in0 in1 numElems) = (4 * Z.to_nat numElems)%nat.
Proof.
  unfold interleave.
  assert (Hl : forall l : list nat,
             length (flat_map (fun g => [in0 (2 * g)%nat; in0 (2 * g + 1)%nat;
                                         in1 (2 * g)%nat; in1 (2 * g + 1)%nat]) l) =
             (4 * length l)%nat).
  { induction l as [|g l IH]; cbn [flat_map length app]; [reflexivity|].
    rewrite IH. lia. }
  rewrite Hl, length_seq. reflexivity.
Qed.

Section TransmitMore.

Context `{ApiConstants}.
Variable _txTicksToTimeNs : Z -> Z.
Variable _timeNsToTxTicks : Z -> Z.

Local Ltac split_ifs :=
  repeat match goal with
         | |- context [if ?b then _ else _] => destruct b eqn:?
         end.

(** The device traffic of a [writeStream]: the transmit call, preceded by
    a query of the hardware time exactly when a burst is started without
    a time.  Inside an open burst, and when a time is given, the hardware
    time is never consulted. *)
Theorem writeStream_device_calls
    (hw_time : Z) (tx : DevReply) (buffs : list AppBuf)
    (numElems flags timeNs timeoutUs : Z) (s : bladeRF_SoapySDR) :
  let r := writeStream _txTicksToTimeNs _timeNsToTxTicks
             hw_time tx buffs numElems flags timeNs timeoutUs s in
  let f := tx_flags numElems flags s in
  exists samples,
    _dev (wr_this r) =
      _dev s ++
      (if negb (_inTxBurst s) && (Z.land f SOAPY_SDR_HAS_TIME =? 0)
       then [bladerf_get_timestamp_tx] else []) ++
      [bladerf_sync_tx samples
         (to_uint (Z.min numElems (_txBuffSize s) * nchans (_txChans s)))
         (tx_md _timeNsToTxTicks f timeNs s)
         (to_uint (Z.quot timeoutUs 1000))].
Proof.
  intros r f. subst r f. unfold writeStream, tx_md, tx_flags.
  destruct (_inTxBurst s);
    destruct (_txBuffSize s <? numElems);
    destruct (Z.land _ SOAPY_SDR_HAS_TIME =? 0);
    cbn [negb andb]; cbn; split_ifs; cbn; rewrite <- ?app_assoc; eauto.
Qed.

(** A transmit call the device refuses: the result is the timeout, the
    time error or the stream error, by the device's code; nothing is
    queued and the burst is as open or closed as it was, so that a write
    refused on an idle stream leaves the next write to start the burst. *)
Theorem writeStream_device_failure
    (hw_time : Z) (tx : DevReply) (buffs : list AppBuf)
    (numElems flags timeNs timeoutUs : Z) (s : bladeRF_SoapySDR) :
  dr_ret tx <> 0 ->
  let r := writeStream _txTicksToTimeNs _timeNsToTxTicks
             hw_time tx buffs numElems flags timeNs timeoutUs s in
  wr_ret r =
    (if dr_ret tx =? BLADERF_ERR_TIMEOUT then SOAPY_SDR_TIMEOUT
     else if dr_ret tx =? BLADERF_ERR_TIME_PAST then SOAPY_SDR_TIME_ERROR
     else SOAPY_SDR_STREAM_ERROR) /\
  _txResps (wr_this r) = _txResps s /\
  _inTxBurst (wr_this r) = _inTxBurst s /\
  (_inTxBurst s = false ->
   forall flags' timeNs',
     Z.land (md_flags (tx_md _timeNsToTxTicks flags' timeNs' (wr_this r)))
            BLADERF_META_FLAG_TX_BURST_START = BLADERF_META_FLAG_TX_BURST_START).
Proof.
  intros H0 r.
  destruct (writeStream_failure _txTicksToTimeNs _timeNsToTxTicks
              hw_time tx buffs numElems flags timeNs timeoutUs s H0)
    as (Hq & Hb & _).
  fold r in Hq, Hb.
  split.
  - subst r. unfold writeStream. rewrite (eqb_false_of_neq _ _ H0). cbn [negb].
    split_ifs; reflexivity.
  - split; [exact Hq|]. split; [exact Hb|].
    intros Hidle flags' timeNs'. unfold tx_md. rewrite Hb, Hidle.
    split_ifs; cbn [md_flags set_md_flags set_md_timestamp md_zero];
      rewrite ?Z.lor_0_l;
      auto using land_lor_has, Z.land_diag.
Qed.

(** The transmit conversions stay inside the conversion buffer. *)
Lemma tx_convert_length s buffs numElems :
  tx_stream_ok s ->
  0 <= numElems <= _txBuffSize s ->
  length (tx_convert s buffs numElems) = length (_txConvBuff s).
Proof.
  intros (Hch & Hsz & Hlen) Hn. unfold tx_convert.
  split_ifs; try reflexivity; apply store_length;
    rewrite ?length_map, ?length_seq, ?interleave_length;
    repeat match goal with
           | E : (_ && _) = true |- _ => apply andb_prop in E; destruct E
           | E : (_ =? _) = true |- _ => apply Z.eqb_eq in E
           end; nia.
Qed.

(** On a well-formed transmit stream a write sends at most the buffer
    size, which is what [getStreamMTU] reports, and never more than it
    was given; what it sends fits the conversion buffer, whose length the
    conversions do not change; and when the device accepts, the count
    returned is the count sent.  The stream is well formed afterwards. *)
Theorem writeStream_within_mtu
    (hw_time : Z) (tx : DevReply) (buffs : list AppBuf)
    (numElems flags timeNs timeoutUs : Z) (s : bladeRF_SoapySDR) :
  tx_stream_ok s ->
  0 <= numElems ->
  let r := writeStream _txTicksToTimeNs _timeNsToTxTicks
             hw_time tx buffs numElems flags timeNs timeoutUs s in
  let n := Z.min numElems (getStreamMTU SOAPY_SDR_TX s) in
  let nch := nchans (_txChans s) in
  (exists before samples md timeout_ms,
     _dev (wr_this r) = before ++ [bladerf_sync_tx samples (n * nch) md timeout_ms]) /\
  2 * (n * nch) <= Z.of_nat (length (_txConvBuff s)) /\
  length (_txConvBuff (wr_this r)) = length (_txConvBuff s) /\
  tx_stream_ok (wr_this r) /\
  (dr_ret tx = 0 -> wr_ret r = n /\ 0 <= wr_ret r <= numElems).
Proof.
  intros Hok Hn r n nch.
  assert (Hmtu : getStreamMTU SOAPY_SDR_TX s = _txBuffSize s).
  { unfold getStreamMTU.
    rewrite (eqb_false_of_neq SOAPY_SDR_TX SOAPY_SDR_RX)
      by (intro E; symmetry in E; revert E; apply direction_distinct).
    reflexivity. }
  subst n. rewrite Hmtu. set (n := Z.min numElems (_txBuffSize s)).
  pose proof Hok as (Hch & Hsz & Hlen). fold nch in Hch, Hlen.
  assert (Hnb : 0 <= n <= _txBuffSize s) by (subst n; lia).
  assert (Hfields : _txConvBuff (wr_this r) = tx_convert s buffs n /\
                    _txChans (wr_this r) = _txChans s /\
                    _txBuffSize (wr_this r) = _txBuffSize s).
  { subst r n. unfold writeStream, tx_convert.
    destruct (_inTxBurst s);
      destruct (negb (Z.land _ SOAPY_SDR_HAS_TIME =? 0));
      cbn; split_ifs; cbn; auto. }
  destruct Hfields as (Hbuf & Hchans & Hsize).
  split.
  { destruct (writeStream_calls_device _txTicksToTimeNs _timeNsToTxTicks
                hw_time tx buffs numElems flags timeNs timeoutUs s)
      as (before & samples & Hd).
    fold r n nch in Hd. exists before, samples. do 2 eexists.
    rewrite Hd. unfold to_uint at 1.
    rewrite Z.mod_small by (destruct Hch as [-> | ->]; lia). reflexivity. }
  split; [rewrite Hlen; destruct Hch as [-> | ->]; nia|].
  split; [rewrite Hbuf; apply tx_convert_length; assumption|].
  split.
  { unfold tx_stream_ok. rewrite Hchans, Hsize, Hbuf, tx_convert_length by assumption.
    exact Hok. }
  intros H0.
  destruct (writeStream_success _txTicksToTimeNs _timeNsToTxTicks
              hw_time tx buffs numElems flags timeNs timeoutUs s H0) as (Hret & _).
  fold r n in Hret. rewrite Hret. unfold to_int.
  assert (E : (n + 2 ^ 31) mod 2 ^ 32 = n + 2 ^ 31) by (apply Z.mod_small; lia).
  rewrite E. subst n. lia.
Qed.

End TransmitMore.

(** ** The two directions do not meet *)

Section Directions.

Context `{ApiConstants}.
Variable _rxTicksToTimeNs : Z -> Z.
Variable _timeNsToRxTicks : Z -> Z.
Variable _txTicksToTimeNs : Z -> Z.
Variable _timeNsToTxTicks : Z -> Z.

Local Ltac split_ifs :=
  repeat match goal with
         | |- context [if ?b then _ else _] => destruct b eqn:?
         end.

(** [readStream] leaves the transmit members alone. *)
Lemma readStream_tx_view rx numElems flags timeNs timeoutUs s :
  tx_view (rr_this (readStream _rxTicksToTimeNs _timeNsToRxTicks
                      rx numElems flags timeNs timeoutUs s)) = tx_view s.
Proof.
  unfold readStream, tx_view.
  destruct (_rxCmds s) as [|cmd rest]; [reflexivity|].
  split_ifs; reflexivity.
Qed.

(** [writeStream] leaves the receive members and the sample format
    alone. *)
Lemma writeStream_rx_view hw_time tx buffs numElems flags timeNs timeoutUs s :
  rx_view (wr_this (writeStream _txTicksToTimeNs _timeNsToTxTicks
                      hw_time tx buffs numElems flags timeNs timeoutUs s)) = rx_view s.
Proof.
  unfold writeStream, rx_view.
  destruct (_inTxBurst s);
    destruct (negb (Z.land _ SOAPY_SDR_HAS_TIME =? 0));
    cbn; split_ifs; reflexivity.
Qed.

(** What [readStream] returns and what it makes of the receive members
    is decided by the receive members. *)
Lemma readStream_by_rx_view rx numElems flags timeNs timeoutUs s s' :
  rx_view s = rx_view s' ->
  let r := readStream _rxTicksToTimeNs _timeNsToRxTicks
             rx numElems flags timeNs timeoutUs s in
  let r' := readStream _rxTicksToTimeNs _timeNsToRxTicks
              rx numElems flags timeNs timeoutUs s' in
  rr_ret r = rr_ret r' /\ rr_flags r = rr_flags r' /\ rr_timeNs r = rr_timeNs r' /\
  rr_buffs r = rr_buffs r' /\ rx_view (rr_this r) = rx_view (rr_this r').
Proof.
  intros E. destruct s, s'. unfold rx_view in E. cbn in E.
  injection E as -> -> -> -> -> -> -> -> ->.
  cbv zeta. unfold readStream, rx_view, rx_convert.
  cbn [_rxCmds _rxOverflow _rxChans _rxFloats _rxConvBuff _rxBuffSize
       _rxMinTimeoutMs _rxNextTicks _sample_format set_rxCmds bladerf_call
       set_rxConvBuff set_rxOverflow set_rxNextTicks].
  match goal with |- context [match ?q with [] => _ | _ :: _ => _ end] =>
    destruct q as [|cmd rest] end; [cbn; auto|].
  repeat (match goal with
          | |- context [if ?b then _ else _] => destruct b eqn:?
          end;
          cbn [_rxCmds _rxOverflow _rxChans _rxFloats _rxConvBuff _rxBuffSize
               _rxMinTimeoutMs _rxNextTicks _sample_format set_rxCmds bladerf_call
               set_rxConvBuff set_rxOverflow set_rxNextTicks
               rr_ret rr_flags rr_timeNs rr_buffs rr_this]);
    auto.
Qed.

(** What [writeStream] returns and what it makes of the transmit members
    is decided by the transmit members. *)
Lemma writeStream_by_tx_view hw_time tx buffs numElems flags timeNs timeoutUs s s' :
  tx_view s = tx_view s' ->
  let r := writeStream _txTicksToTimeNs _timeNsToTxTicks
             hw_time tx buffs numElems flags timeNs timeoutUs s in
  let r' := writeStream _txTicksToTimeNs _timeNsToTxTicks
              hw_time tx buffs numElems flags timeNs timeoutUs s' in
  wr_ret r = wr_ret r' /\ wr_flags r = wr_flags r' /\
  tx_view (wr_this r) = tx_view (wr_this r').
Proof.
  intros E. destruct s, s'. unfold tx_view in E. cbn in E.
  injection E as -> -> -> -> -> -> ->.
  cbv zeta. unfold writeStream, tx_view, tx_convert.
  cbn [_txFloats _txChans _txConvBuff _txBuffSize _inTxBurst _txNextTicks
       _txResps].
  match goal with |- context [if ?b then _ else _] => destruct b end;
    match goal with |- context [negb (Z.land ?f SOAPY_SDR_HAS_TIME =? 0)] =>
      destruct (negb (Z.land f SOAPY_SDR_HAS_TIME =? 0)) end;
    cbn [_txFloats _txChans _txConvBuff _txBuffSize _inTxBurst _txNextTicks
         _txResps set_txNextTicks bladerf_call set_txConvBuff set_inTxBurst
         set_txResps wr_ret wr_flags wr_this];
    repeat (match goal with
            | |- context [if ?b then _ else _] => destruct b eqn:?
            end;
            cbn [_txFloats _txChans _txConvBuff _txBuffSize _inTxBurst
                 _txNextTicks _txResps set_txNextTicks bladerf_call
                 set_txConvBuff set_inTxBurst set_txResps
                 wr_ret wr_flags wr_this]);
    auto.
Qed.

(** A read and a write in either order: the same results, the same
    buffers for the caller, and the same object apart from the order of
    the two device calls in the log. *)
Theorem readStream_writeStream_commute
    (rx tx : DevReply) (hw_time : Z) (buffs : list AppBuf)
    (rn rf rt rto wn wf wt wto : Z) (s : bladeRF_SoapySDR) :
  let r1 := readStream _rxTicksToTimeNs _timeNsToRxTicks rx rn rf rt rto s in
  let w1 := writeStream _txTicksToTimeNs _timeNsToTxTicks
              hw_time tx buffs wn wf wt wto (rr_this r1) in
  let w2 := writeStream _txTicksToTimeNs _timeNsToTxTicks
              hw_time tx buffs wn wf wt wto s in
  let r2 := readStream _rxTicksToTimeNs _timeNsToRxTicks rx rn rf rt rto
              (wr_this w2) in
  rr_ret r1 = rr_ret r2 /\ rr_flags r1 = rr_flags r2 /\
  rr_timeNs r1 = rr_timeNs r2 /\ rr_buffs r1 = rr_buffs r2 /\
  wr_ret w1 = wr_ret w2 /\ wr_flags w1 = wr_flags w2 /\
  rx_view (wr_this w1) = rx_view (rr_this r2) /\
  tx_view (wr_this w1) = tx_view (rr_this r2).
Proof.
  intros r1 w1 w2 r2.
  pose proof (writeStream_rx_view hw_time tx buffs wn wf wt wto s) as Wv.
  fold w2 in Wv.
  destruct (readStream_by_rx_view rx rn rf rt rto (wr_this w2) s Wv)
    as (A & B & C & D & E).
  fold r1 r2 in A, B, C, D, E.
  pose proof (readStream_tx_view rx rn rf rt rto s) as Rv. fold r1 in Rv.
  destruct (writeStream_by_tx_view hw_time tx buffs wn wf wt wto (rr_this r1) s Rv)
    as (F & G & K).
  fold w1 w2 in F, G, K.
  repeat split; try congruence.
  - rewrite E. apply writeStream_rx_view.
  - rewrite K. symmetry. apply readStream_tx_view.
Qed.

End Directions.

(** ** Runs of calls *)

Lemma to_size_t_add_l (a b : Z) : to_size_t (to_size_t a + b) = to_size_t (a + b).
Proof. unfold to_size_t. apply Zplus_mod_idemp_l. Qed.

Section ReceiveRuns.

Context `{ApiConstants}.
Variable _rxTicksToTimeNs : Z -> Z.
Variable _timeNsToRxTicks : Z -> Z.

(** A continuous command at the front of the queue is at the front after
    any run of reads, whatever the device answers, and what is queued
    behind it is still behind it: the commands after a continuous one are
    not reached until the stream is deactivated. *)
Theorem readStream_run_continuous_blocks
    (rxs : list DevReply) (numElems timeoutUs : Z) (s : bladeRF_SoapySDR)
    (cmd : StreamMetadata) (rest : list StreamMetadata) :
  _rxCmds s = cmd :: rest ->
  sm_numElems cmd = 0 ->
  exists cmd',
    _rxCmds (readStream_run _rxTicksToTimeNs _timeNsToRxTicks
               rxs numElems timeoutUs s) = cmd' :: rest /\
    sm_numElems cmd' = 0 /\ sm_timeNs cmd' = sm_timeNs cmd.
Proof.
  revert s cmd. induction rxs as [|rx rxs IH]; intros s cmd Hq Hn.
  - exists cmd. cbn. auto.
  - cbn [readStream_run].
    destruct (readStream_continuous_stays _rxTicksToTimeNs _timeNsToRxTicks
                rx numElems 0 0 timeoutUs s cmd rest Hq Hn) as (c1 & Hq1 & Hn1 & Ht1).
    destruct (IH _ c1 Hq1 Hn1) as (c2 & Hq2 & Hn2 & Ht2).
    exists c2. split; [exact Hq2|]. split; [exact Hn2|]. congruence.
Qed.

(** Deactivating the receive direction makes no device call and leaves a
    stream whose reads time out without reaching the device.  It does
    not clear a pending overflow: the first read after the next
    activation reports it, stamped with the tick recorded before the
    deactivation. *)
Theorem deactivateStream_rx_then_readStream
    (tx rx : DevReply) (dtimeNs numElems flags timeNs timeoutUs : Z)
    (s : bladeRF_SoapySDR) :
  let d := deactivateStream tx SOAPY_SDR_RX 0 dtimeNs s in
  let r := readStream _rxTicksToTimeNs _timeNsToRxTicks
             rx numElems flags timeNs timeoutUs (snd d) in
  fst d = 0 /\ _dev (snd d) = _dev s /\
  rr_ret r = SOAPY_SDR_TIMEOUT /\ rr_this r = snd d /\
  (_rxOverflow s = true ->
   forall aflags atimeNs anumElems rx' numElems' flags' timeNs' timeoutUs',
     let a := activateStream SOAPY_SDR_RX aflags atimeNs anumElems (snd d) in
     let r' := readStream _rxTicksToTimeNs _timeNsToRxTicks
                 rx' numElems' flags' timeNs' timeoutUs' (snd a) in
     rr_ret r' = SOAPY_SDR_OVERFLOW /\
     rr_timeNs r' = _rxTicksToTimeNs (_rxNextTicks s) /\
     _dev (rr_this r') = _dev s).
Proof.
  intros d r. subst d r. rewrite deactivateStream_rx. cbn [fst snd].
  rewrite (readStream_no_command _rxTicksToTimeNs _timeNsToRxTicks rx)
    by reflexivity.
  cbn [rr_ret rr_this]. repeat split.
  all: rewrite activateStream_rx; cbn [snd];
    rewrite readStream_overflow by (cbn; first [discriminate | assumption]);
    reflexivity.
Qed.

End ReceiveRuns.

Section TransmitRuns.

Context `{ApiConstants}.
Variable _txTicksToTimeNs : Z -> Z.
Variable _timeNsToTxTicks : Z -> Z.

Local Ltac split_ifs :=
  repeat match goal with
         | |- context [if ?b then _ else _] => destruct b eqn:?
         end.

(** The tick a write that the device accepts leaves in [_txNextTicks]:
    the count sent, added to the time given, or else to the tick of the
    open burst, or else to the hardware time. *)
Lemma writeStream_next_ticks hw_time tx buffs numElems flags timeNs timeoutUs s :
  dr_ret tx = 0 ->
  let r := writeStream _txTicksToTimeNs _timeNsToTxTicks
             hw_time tx buffs numElems flags timeNs timeoutUs s in
  let f := tx_flags numElems flags s in
  _txNextTicks (wr_this r) =
    to_size_t
      ((if negb (Z.land f SOAPY_SDR_HAS_TIME =? 0) then _timeNsToTxTicks timeNs
        else if _inTxBurst s then _txNextTicks s else hw_time) +
       Z.min numElems (_txBuffSize s)) /\
  _txChans (wr_this r) = _txChans s.
Proof.
  intros H0 r f. subst r f. unfold writeStream, tx_flags. rewrite H0.
  rewrite (eqb_false_of_neq 0 BLADERF_ERR_TIMEOUT),
          (eqb_false_of_neq 0 BLADERF_ERR_TIME_PAST)
    by (intro E; symmetry in E; revert E;
        first [apply err_timeout_nonzero | apply err_time_past_nonzero]).
  cbn [negb Z.eqb].
  destruct (_inTxBurst s);
    destruct (_txBuffSize s <? numElems);
    destruct (negb (Z.land _ SOAPY_SDR_HAS_TIME =? 0));
    cbn; split_ifs; cbn; auto.
Qed.

Lemma tx_flags_no_time numElems flags s :
  Z.land flags SOAPY_SDR_HAS_TIME = 0 ->
  Z.land (tx_flags numElems flags s) SOAPY_SDR_HAS_TIME = 0.
Proof.
  intros Hf. unfold tx_flags. destruct (_ <? _); [|exact Hf].
  rewrite <- Z.land_assoc, (Z.land_comm (Z.lnot _)), Z.land_assoc, Hf.
  apply Z.land_0_l.
Qed.

(** Inside an open burst, a run of writes that the device accepts and
    that carry neither a time nor the end-of-burst flag keeps the burst
    open, advances the expected tick by the elements sent in all (in
    64-bit arithmetic), and queues nothing but one underflow event for
    each underrun the device reports. *)
Theorem writeStream_run_in_burst
    (calls : list WriteCall) (s : bladeRF_SoapySDR) :
  _inTxBurst s = true ->
  0 <= _txNextTicks s < 2 ^ 64 ->
  Forall (fun c => dr_ret (wc_tx c) = 0 /\
                   Z.land (wc_flags c) SOAPY_SDR_HAS_TIME = 0 /\
                   Z.land (wc_flags c) SOAPY_SDR_END_BURST = 0) calls ->
  let s' := writeStream_run _txTicksToTimeNs _timeNsToTxTicks calls s in
  _inTxBurst s' = true /\
  _txBuffSize s' = _txBuffSize s /\
  _txNextTicks s' =
    to_size_t (_txNextTicks s + foldr Z.add 0 (map (tx_sent s) calls)) /\
  _txResps s' = _txResps s ++ flat_map (fun c => underrun_events (wc_tx c)) calls.
Proof.
  revert s. induction calls as [|c calls IH]; intros s Hb Ht Hall s'.
  - subst s'. cbn. rewrite Z.add_0_r, app_nil_r.
    unfold to_size_t. rewrite Z.mod_small by exact Ht. auto.
  - inversion Hall as [|c0 l (H0 & Hnt & Hne) Hall' E1]; subst c0 l.
    subst s'. cbn [writeStream_run map foldr flat_map].
    unfold writeStream_call.
    set (r := writeStream _txTicksToTimeNs _timeNsToTxTicks (wc_hw_time c)
                (wc_tx c) (wc_buffs c) (wc_numElems c) (wc_flags c) (wc_timeNs c)
                (wc_timeoutUs c) s).
    destruct (writeStream_success _txTicksToTimeNs _timeNsToTxTicks
                (wc_hw_time c) (wc_tx c) (wc_buffs c) (wc_numElems c) (wc_flags c)
                (wc_timeNs c) (wc_timeoutUs c) s H0) as (_ & Hq & Hb1 & Hsz).
    destruct (writeStream_next_ticks
                (wc_hw_time c) (wc_tx c) (wc_buffs c) (wc_numElems c) (wc_flags c)
                (wc_timeNs c) (wc_timeoutUs c) s H0) as (Htick & _).
    fold r in Hq, Hb1, Hsz, Htick.
    rewrite tx_flags_no_end in Hb1 by exact Hne.
    unfold tx_events in Hq. rewrite tx_flags_no_end in Hq by exact Hne.
    rewrite tx_flags_no_time in Htick by exact Hnt.
    cbn [Z.eqb negb] in Hb1, Hq, Htick. rewrite app_nil_r in Hq.
    rewrite Hb in Htick.
    assert (Hrange : 0 <= _txNextTicks (wr_this r) < 2 ^ 64).
    { rewrite Htick. unfold to_size_t. apply Z.mod_pos_bound. lia. }
    destruct (IH (wr_this r) Hb1 Hrange Hall') as (A & B & C & D).
    assert (Hsent : map (tx_sent (wr_this r)) calls = map (tx_sent s) calls).
    { apply map_ext. intros x. unfold tx_sent. rewrite Hsz. reflexivity. }
    rewrite Hsent in C.
    split; [exact A|]. split; [congruence|]. split.
    + rewrite C, Htick, to_size_t_add_l. f_equal. unfold tx_sent at 2. lia.
    + rewrite D, Hq, <- app_assoc. reflexivity.
Qed.

(** A burst as a whole.  The first write carries the start time, no end
    flag, and fits the buffer; the writes that follow carry neither a
    time nor the end flag; the last one carries the end flag, no time,
    and fits the buffer.  When the device accepts them all, the burst is
    closed and the last event queued is the burst end, stamped with the
    start tick plus the number of elements sent in the burst.  (A last
    write with a time would restart the count at that time, and one
    larger than the buffer would lose its end flag.) *)
Theorem writeStream_burst_end_time
    (first last_call : WriteCall) (calls : list WriteCall) (s : bladeRF_SoapySDR) :
  let accepted c := dr_ret (wc_tx c) = 0 in
  let has f c := Z.land (wc_flags c) f <> 0 in
  let lacks f c := Z.land (wc_flags c) f = 0 in
  accepted first -> has SOAPY_SDR_HAS_TIME first -> lacks SOAPY_SDR_END_BURST first ->
  wc_numElems first <= _txBuffSize s ->
  Forall (fun c => accepted c /\ lacks SOAPY_SDR_HAS_TIME c /\
                   lacks SOAPY_SDR_END_BURST c) calls ->
  accepted last_call -> lacks SOAPY_SDR_HAS_TIME last_call ->
  has SOAPY_SDR_END_BURST last_call ->
  wc_numElems last_call <= _txBuffSize s ->
  let s' := writeStream_run _txTicksToTimeNs _timeNsToTxTicks
              (first :: calls ++ [last_call]) s in
  let sent := foldr Z.add 0 (map (tx_sent s) (first :: calls ++ [last_call])) in
  _inTxBurst s' = false /\
  last (_txResps s') =
    Some (burst_end_event _txTicksToTimeNs
            (to_size_t (_timeNsToTxTicks (wc_timeNs first) + sent))).
Proof.
  intros accepted has lacks A1 T1 E1 N1 Hall A3 T3 E3 N3 s' sent.
  subst accepted has lacks s' sent. cbv beta in *.
  cbn [writeStream_run map foldr]. unfold writeStream_call.
  set (r1 := writeStream _txTicksToTimeNs _timeNsToTxTicks (wc_hw_time first)
               (wc_tx first) (wc_buffs first) (wc_numElems first) (wc_flags first)
               (wc_timeNs first) (wc_timeoutUs first) s).
  destruct (writeStream_success _txTicksToTimeNs _timeNsToTxTicks
              (wc_hw_time first) (wc_tx first) (wc_buffs first) (wc_numElems first)
              (wc_flags first) (wc_timeNs first) (wc_timeoutUs first) s A1)
    as (_ & _ & Hb1 & Hsz1).
  destruct (writeStream_next_ticks
              (wc_hw_time first) (wc_tx first) (wc_buffs first) (wc_numElems first)
              (wc_flags first) (wc_timeNs first) (wc_timeoutUs first) s A1)
    as (Ht1 & _).
  fold r1 in Hb1, Hsz1, Ht1.
  rewrite tx_flags_within in Hb1, Ht1 by exact N1.
  rewrite E1 in Hb1. cbn [Z.eqb] in Hb1.
  apply Z.eqb_neq in T1. rewrite T1 in Ht1. cbn [negb] in Ht1.
  assert (Hr1 : 0 <= _txNextTicks (wr_this r1) < 2 ^ 64).
  { rewrite Ht1. unfold to_size_t. apply Z.mod_pos_bound. lia. }
  (* the run in the middle, then the closing write *)
  assert (Hrun : forall l s0,
             writeStream_run _txTicksToTimeNs _timeNsToTxTicks (l ++ [last_call]) s0 =
             wr_this (writeStream_call _txTicksToTimeNs _timeNsToTxTicks last_call
                        (writeStream_run _txTicksToTimeNs _timeNsToTxTicks l s0))).
  { induction l as [|x l IHl]; intros s0; cbn; [reflexivity|]. apply IHl. }
  rewrite Hrun.
  destruct (writeStream_run_in_burst calls (wr_this r1) Hb1 Hr1 Hall)
    as (Hb2 & Hsz2 & Ht2 & _).
  set (s2 := writeStream_run _txTicksToTimeNs _timeNsToTxTicks calls (wr_this r1)) in *.
  unfold writeStream_call.
  set (r3 := writeStream _txTicksToTimeNs _timeNsToTxTicks (wc_hw_time last_call)
               (wc_tx last_call) (wc_buffs last_call) (wc_numElems last_call)
               (wc_flags last_call) (wc_timeNs last_call) (wc_timeoutUs last_call) s2).
  destruct (writeStream_success _txTicksToTimeNs _timeNsToTxTicks
              (wc_hw_time last_call) (wc_tx last_call) (wc_buffs last_call)
              (wc_numElems last_call) (wc_flags last_call) (wc_timeNs last_call)
              (wc_timeoutUs last_call) s2 A3) as (_ & Hq3 & Hb3 & _).
  destruct (writeStream_next_ticks
              (wc_hw_time last_call) (wc_tx last_call) (wc_buffs last_call)
              (wc_numElems last_call) (wc_flags last_call) (wc_timeNs last_call)
              (wc_timeoutUs last_call) s2 A3) as (Ht3 & _).
  fold r3 in Hq3, Hb3, Ht3.
  rewrite tx_flags_within in Hq3, Hb3, Ht3 by (rewrite Hsz2, Hsz1; exact N3).
  apply Z.eqb_neq in E3. rewrite E3 in Hb3. rewrite T3, Hb2 in Ht3.
  cbn [Z.eqb negb] in Ht3.
  unfold tx_events in Hq3. rewrite E3 in Hq3. cbn [negb] in Hq3.
  split; [exact Hb3|].
  rewrite Hq3, !app_assoc, last_snoc. f_equal. f_equal.
  rewrite Ht3, Ht2, Ht1.
  rewrite to_size_t_add_l, <- Z.add_assoc, to_size_t_add_l. f_equal.
  rewrite map_app, foldr_app. cbn [map foldr].
  assert (Hsent : map (tx_sent (wr_this r1)) calls = map (tx_sent s) calls).
  { apply map_ext. intros x. unfold tx_sent. rewrite Hsz1. reflexivity. }
  rewrite Hsent, Hsz2, Hsz1.
  assert (Hfold : forall l a, foldr Z.add a l = foldr Z.add 0 l + a).
  { induction l as [|x l IHl]; intros a; cbn; [lia|]. rewrite IHl. lia. }
  rewrite (Hfold (map (tx_sent s) calls) (tx_sent s last_call + 0)).
  unfold tx_sent. lia.
Qed.

End TransmitRuns.

(** ** The conversions between the two representations *)

Lemma all_from_spec (check : Z -> bool) (n : nat) (x : Z) :
  all_from check n x = true ->
  forall y, x <= y < x + Z.of_nat n -> check y = true.
Proof.
  revert x. induction n as [|n IH]; intros x Hall y Hy; [lia|].
  cbn [all_from] in Hall. apply andb_prop in Hall. destruct Hall as [Hx Hrest].
  destruct (Z.eq_dec y x) as [->|Hne]; [exact Hx|].
  apply (IH (x + 1) Hrest). lia.
Qed.

(** A sample received as a float and sent back as a float reaches the
    device as it came.  This holds for every 16-bit word in the 16-bit
    formats.  In the 8-bit formats the receive conversion reads bytes and
    divides by 128 while the transmit conversion, which does not look at
    the sample format, multiplies by 2048 and stores 16-bit words: the
    byte comes back multiplied by 16. *)
Theorem float_conversion_roundtrip
    (fmt : bladerf_format) (buf : list Z) (i : nat) :
  -32768 <= rd_int16 buf i <= 32767 ->
  tx_scaled (rx_float_cell fmt buf i) =
    if is_sc8 fmt then 16 * rd_int8 buf i else rd_int16 buf i.
Proof.
  intros Hr. unfold rx_float_cell. destruct (is_sc8 fmt).
  - assert (Hall : all_from float_roundtrip_8bit 256 (-128) = true)
      by (vm_compute; reflexivity).
    pose proof (rd_int8_range buf i) as Hb.
    pose proof (all_from_spec _ _ _ Hall (rd_int8 buf i) ltac:(lia)) as Hc.
    unfold float_roundtrip_8bit in Hc. apply Z.eqb_eq in Hc. exact Hc.
  - assert (Hall : all_from float_roundtrip (Z.to_nat 65536) (-32768) = true)
      by (vm_compute; reflexivity).
    pose proof (all_from_spec _ _ _ Hall (rd_int16 buf i)) as Hc.
    rewrite Z2Nat.id in Hc by lia. specialize (Hc ltac:(lia)).
    unfold float_roundtrip in Hc. apply Z.eqb_eq in Hc. exact Hc.
Qed.

Lemma flat_map_agree {A B} (f g : A -> list B) (l : list A) :
  (forall a, In a l -> f a = g a) -> flat_map f l = flat_map g l.
Proof.
  induction l as [|a l IH]; intros Hfg; cbn; [reflexivity|].
  rewrite Hfg by (left; reflexivity). f_equal. apply IH.
  intros b Hb. apply Hfg. right. exact Hb.
Qed.

(** Cell [4j + k] of the interleaved words, for [k < 4]. *)
Lemma interleave_nth (in0 in1 : nat -> Z) (numElems : Z) (j k : nat) (d : Z) :
  (j < Z.to_nat numElems)%nat -> (k < 4)%nat ->
  nth (4 * j + k) (interleave in0 in1 numElems) d =
  nth k [in0 (2 * j)%nat; in0 (2 * j + 1)%nat; in1 (2 * j)%nat; in1 (2 * j + 1)%nat] d.
Proof.
  unfold interleave. intros Hj Hk.
  assert (Hgen : forall m a j,
             (j < m)%nat ->
             nth (4 * j + k)
               (flat_map (fun g => [in0 (2 * g)%nat; in0 (2 * g + 1)%nat;
                                    in1 (2 * g)%nat; in1 (2 * g + 1)%nat])
                         (seq a m)) d =
             nth k [in0 (2 * (a + j))%nat; in0 (2 * (a + j) + 1)%nat;
                    in1 (2 * (a + j))%nat; in1 (2 * (a + j) + 1)%nat] d).
  { induction m as [|m IH]; intros a j' Hj'; [lia|].
    cbn [seq flat_map]. destruct j' as [|j'].
    - rewrite Nat.add_0_r. cbn [Nat.mul Nat.add].
      rewrite app_nth1 by (cbn; lia). reflexivity.
    - rewrite app_nth2 by (cbn; lia).
      replace (4 * S j' + k - length [in0 (2 * a)%nat; in0 (2 * a + 1)%nat;
                                       in1 (2 * a)%nat; in1 (2 * a + 1)%nat])%nat
        with (4 * j' + k)%nat by (cbn; lia).
      rewrite IH by lia.
      replace (S a + j')%nat with (a + S j')%nat by lia. reflexivity. }
  rewrite (Hgen _ 0%nat j Hj). reflexivity.
Qed.

(** Taking cells [2g] and [2g + 1] of a buffer for each round gives its
    first elements back. *)
Lemma pairs_take (b : list Z) (n : nat) :
  (2 * n <= length b)%nat ->
  flat_map (fun g => [nth (2 * g) b 0; nth (2 * g + 1) b 0]) (seq 0 n) = take (2 * n) b.
Proof.
  assert (Hgen : forall n a (l : list Z),
             (2 * n <= length l)%nat ->
             (forall i, nth i l 0 = nth (2 * a + i) b 0) ->
             flat_map (fun g => [nth (2 * g) b 0; nth (2 * g + 1) b 0]) (seq a n) =
             take (2 * n) l).
  { induction n0 as [|m IH]; intros a l Hl Hnth; [reflexivity|].
    destruct l as [|x [|y l']]; cbn in Hl; try lia.
    cbn [seq flat_map app].
    replace (2 * S m)%nat with (S (S (2 * m))) by lia. cbn [take].
    pose proof (Hnth 0%nat) as H0. pose proof (Hnth 1%nat) as H1.
    change (nth 0 (x :: y :: l') 0) with x in H0.
    change (nth 1 (x :: y :: l') 0) with y in H1.
    rewrite Nat.add_0_r in H0. rewrite <- H0, <- H1. do 2 f_equal.
    apply IH; [lia|].
    intros i. specialize (Hnth (S (S i))).
    change (nth (S (S i)) (x :: y :: l') 0) with (nth i l' 0) in Hnth.
    rewrite Hnth. f_equal. lia. }
  intros Hn. apply Hgen; [exact Hn|]. intros i. reflexivity.
Qed.

(** The two-channel integer path, there and back: what the transmit
    conversion stores in the conversion buffer for two buffers of the
    caller, read by the receive conversion of a 16-bit format, gives each
    channel the elements of its own buffer and none of the other's. *)
Theorem interleave_deinterleave_roundtrip
    (fmt : bladerf_format) (b0 b1 conv : list Z) (numElems : Z) :
  is_sc8 fmt = false ->
  (2 * Z.to_nat numElems <= length b0)%nat ->
  (2 * Z.to_nat numElems <= length b1)%nat ->
  let buf := store (interleave (int16_at (BufCS16 b0)) (int16_at (BufCS16 b1))
                      numElems) conv in
  deinterleave (rx_native fmt buf) 0 numElems = take (2 * Z.to_nat numElems) b0 /\
  deinterleave (rx_native fmt buf) 1 numElems = take (2 * Z.to_nat numElems) b1.
Proof.
  intros H16 Hl0 Hl1 buf.
  assert (Hcell : forall j k,
             (j < Z.to_nat numElems)%nat -> (k < 4)%nat ->
             rx_native fmt buf (4 * j + k) =
             nth k [nth (2 * j) b0 0; nth (2 * j + 1) b0 0;
                    nth (2 * j) b1 0; nth (2 * j + 1) b1 0] 0).
  { intros j k Hj Hk. unfold rx_native, rd_int16, buf, store. rewrite H16.
    rewrite app_nth1 by (rewrite interleave_length; lia).
    rewrite interleave_nth by assumption. reflexivity. }
  unfold deinterleave. split.
  - rewrite <- pairs_take by exact Hl0. apply flat_map_agree.
    intros g Hg. apply in_seq in Hg.
    replace (4 * g + 2 * 0)%nat with (4 * g + 0)%nat by lia.
    replace (4 * g + 0 + 1)%nat with (4 * g + 1)%nat by lia.
    rewrite !Hcell by lia. reflexivity.
  - rewrite <- pairs_take by exact Hl1. apply flat_map_agree.
    intros g Hg. apply in_seq in Hg.
    replace (4 * g + 2 * 1)%nat with (4 * g + 2)%nat by lia.
    replace (4 * g + 2 + 1)%nat with (4 * g + 3)%nat by lia.
    rewrite !Hcell by lia. reflexivity.
Qed.

(** The integer part of the magnitude of a finite float. *)
Lemma Qfloor_float_magnitude (m : positive) (e : Z) :
  Qfloor (inject_Z (Z.pos m) * Qpower 2 e) =
  if 0 <=? e then Z.pos m * 2 ^ e else Z.pos m / 2 ^ (- e).
Proof.
  destruct e as [|p|p]; cbn [Z.leb Z.compare Z.opp].
  - cbn [Qpower]. rewrite Qmult_1_r, Qfloor_Z. cbn. lia.
  - assert (E : (inject_Z (Z.pos m) * Qpower 2 (Z.pos p) ==
                 inject_Z (Z.pos m * 2 ^ Z.pos p))%Q).
    { rewrite inject_Z_mult, (Zpower_Qpower 2 (Z.pos p)) by lia. reflexivity. }
    rewrite (Qfloor_comp _ _ E). apply Qfloor_Z.
  - rewrite Zdiv_Qdiv. apply Qfloor_comp.
    rewrite (Zpower_Qpower 2 (Z.pos p)) by lia. reflexivity.
Qed.

(** The transmit conversion truncates: the 16-bit word stored for a
    float [x] is the product [x * 2048], as computed in single precision
    and when it lies within the 16-bit range, with its fractional part
    dropped, towards zero and not to the nearest integer. *)
Theorem tx_scaled_truncates (x : float) (q : Q) :
  float_value (fmul x (float_of_int 2048)) = Some q ->
  (inject_Z (-32768) < q)%Q -> (q < inject_Z 32768)%Q ->
  tx_scaled x = Qtruncate q.
Proof.
  unfold tx_scaled. generalize (fmul x (float_of_int 2048)). intros y Hy Hlo Hhi.
  destruct y as [s| | |s m e]; try discriminate.
  - cbn in Hy. injection Hy as <-. reflexivity.
  - cbn [float_value] in Hy. injection Hy as <-.
    unfold int16_of_float, Qtruncate.
    rewrite <- (Qfloor_float_magnitude m e).
    set (a := Qfloor (inject_Z (Z.pos m) * Qpower 2 e)).
    assert (Hpow : (0 < Qpower 2 e)%Q).
    { apply Qpower_0_lt. reflexivity. }
    assert (Hmag : (0 < inject_Z (Z.pos m) * Qpower 2 e)%Q).
    { apply Qmult_lt_0_compat; [reflexivity|exact Hpow]. }
    assert (Ha0 : 0 <= a).
    { subst a. rewrite <- (Qfloor_Z 0). apply Qfloor_resp_le.
      apply Qlt_le_weak. exact Hmag. }
    destruct s.
    + (* negative *)
      assert (Eneg : (inject_Z (Z.neg m) * Qpower 2 e ==
                      - (inject_Z (Z.pos m) * Qpower 2 e))%Q).
      { change (Z.neg m) with (- Z.pos m). rewrite inject_Z_opp. ring. }
      assert (Hle : Qle_bool 0 (inject_Z (Z.neg m) * Qpower 2 e) = false).
      { destruct (Qle_bool 0 _) eqn:E; [|reflexivity].
        apply Qle_bool_iff in E. rewrite Eneg in E.
        exfalso. apply (Qlt_not_le _ _ Hmag).
        apply Qopp_le_compat in E. rewrite Qopp_involutive in E. exact E. }
      rewrite Hle. unfold Qceiling.
      assert (Ec : Qfloor (- (inject_Z (Z.neg m) * Qpower 2 e)) = a).
      { subst a. apply Qfloor_comp. rewrite Eneg. apply Qopp_involutive. }
      rewrite Ec.
      assert (Hb : a <= 32768).
      { rewrite <- (Qfloor_Z 32768). subst a. apply Qfloor_resp_le.
        apply Qlt_le_weak. rewrite Eneg in Hlo.
        apply Qopp_lt_compat in Hlo. rewrite Qopp_involutive in Hlo. exact Hlo. }
      unfold to_int16.
      destruct (Z.eq_dec a 32768) as [E|E].
      * rewrite E. reflexivity.
      * rewrite Z.mod_small by lia. lia.
    + assert (Hle : Qle_bool 0 (inject_Z (Z.pos m) * Qpower 2 e) = true).
      { apply Qle_bool_iff. apply Qlt_le_weak. exact Hmag. }
      rewrite Hle. fold a.
      assert (Hb : a < 32768).
      { assert (Hq := Qfloor_le (inject_Z (Z.pos m) * Qpower 2 e)). fold a in Hq.
        assert (Hlt : (inject_Z a < inject_Z 32768)%Q)
          by (eapply Qle_lt_trans; [exact Hq|exact Hhi]).
        rewrite <- Zlt_Qlt in Hlt. exact Hlt. }
      unfold to_int16. rewrite Z.mod_small by lia. lia.
Qed.

(** ** Status events *)

Section StatusProperties.

Context `{ApiConstants}.

(** An event without a time at the front ends the loop before any
    reading. *)
Lemma status_wait_untimed exitTime e rest polls slept :
  (Z.land (sm_flags e) SOAPY_SDR_HAS_TIME =? 0) = true ->
  status_wait exitTime (e :: rest) polls slept = Some (WaitReady, slept).
Proof.
  intros Hf. destruct polls; cbn [status_wait front_untimed]; rewrite Hf; reflexivity.
Qed.

(** While the queue is empty the polling loop can only end on the
    deadline. *)
Lemma status_wait_empty exitTime polls :
  forall slept w sl,
    status_wait exitTime [] polls slept = Some (w, sl) ->
    w = WaitTimeout /\ exists p, In p polls /\ exitTime < poll_timeAfter p.
Proof.
  induction polls as [|p polls IH]; intros slept w sl; cbn.
  - discriminate.
  - destruct (Z.ltb_spec exitTime (poll_timeAfter p)) as [Hlt|Hge].
    + intros [= <- <-]. split; [reflexivity|]. exists p. split; [now left|exact Hlt].
    + intros Hw. destruct (IH _ _ _ Hw) as [-> (p' & Hin & Hp')].
      split; [reflexivity|]. exists p'. split; [now right|exact Hp'].
Qed.

(** With a timed event at the front the loop ends on a reading of the
    hardware time beyond the time of the event, or on the deadline. *)
Lemma status_wait_timed exitTime e rest polls :
  Z.land (sm_flags e) SOAPY_SDR_HAS_TIME <> 0 ->
  forall slept w sl,
    status_wait exitTime (e :: rest) polls slept = Some (w, sl) ->
    match w with
    | WaitReady => exists p, In p polls /\ sm_timeNs e < poll_hardwareTime p
    | WaitTimeout => exists p, In p polls /\ exitTime < poll_timeAfter p
    end.
Proof.
  intros Ht. apply Z.eqb_neq in Ht.
  induction polls as [|p polls IH]; intros slept w sl;
    cbn [status_wait front_untimed front_expired]; rewrite Ht.
  - discriminate.
  - destruct (Z.ltb_spec (sm_timeNs e) (poll_hardwareTime p)) as [Hlt|Hge].
    + intros [= <- <-]. exists p. split; [now left|exact Hlt].
    + destruct (Z.ltb_spec exitTime (poll_timeAfter p)) as [Hlt|Hge'].
      * intros [= <- <-]. exists p. split; [now left|exact Hlt].
      * intros Hw. specialize (IH _ _ _ Hw).
        destruct w; destruct IH as (p' & Hin & Hp'); exists p';
          (split; [now right|exact Hp']).
Qed.

(** The loop ends once the clock has been seen past the deadline, and
    never sleeps for more than a millisecond at a time. *)
Lemma status_wait_ends exitTime q polls :
  (exists p, In p polls /\ exitTime < poll_timeAfter p) ->
  forall slept, Forall (fun d => d <= 1000) slept ->
    exists w sl, status_wait exitTime q polls slept = Some (w, sl) /\
                 Forall (fun d => d <= 1000) sl /\
                 (length sl <= length slept + length polls)%nat.
Proof.
  induction polls as [|p polls IH]; intros (p' & Hin & Hp') slept Hs.
  - destruct Hin.
  - cbn [status_wait]. destruct (front_untimed q).
    { exists WaitReady, slept. repeat split; [exact Hs|cbn; lia]. }
    destruct (front_expired q (poll_hardwareTime p)).
    { exists WaitReady, slept. repeat split; [exact Hs|cbn; lia]. }
    set (slept' := slept ++ [Z.min 1000 (Z.quot (exitTime - poll_timeNow p) 1000)]).
    assert (Hs' : Forall (fun d => d <= 1000) slept').
    { apply Forall_app. split; [exact Hs|]. constructor; [lia|constructor]. }
    assert (Hl : length slept' = S (length slept)).
    { unfold slept'. rewrite length_app. cbn. lia. }
    destruct (Z.ltb_spec exitTime (poll_timeAfter p)) as [Hlt|Hge].
    + exists WaitTimeout, slept'. repeat split; [exact Hs'|cbn; lia].
    + destruct Hin as [->|Hin]; [lia|].
      destruct (IH (ex_intro _ p' (conj Hin Hp')) slept' Hs')
        as (w & sl & E & Hsl & Hlen).
      exists w, sl. repeat split; [exact E|exact Hsl|cbn; lia].
Qed.

(** The status of a receive stream cannot be read: the call answers
    [SOAPY_SDR_NOT_SUPPORTED] at once.  On every other stream a call that
    returns either takes the event at the front of the queue, and hands
    out its code, flags and time, or answers [SOAPY_SDR_TIMEOUT] with the
    queue and the caller's variables as they were; the events behind the
    front one are never touched, and the other members of the object
    never change. *)
Theorem readStreamStatus_effect
    (start : Z) (polls : list Poll) (stream flags timeNs timeoutUs : Z)
    (s : bladeRF_SoapySDR) (r : StatusResult) :
  readStreamStatus start polls stream flags timeNs timeoutUs s = Some r ->
  (stream = SOAPY_SDR_RX ->
   sr_ret r = SOAPY_SDR_NOT_SUPPORTED /\ sr_slept r = [] /\ sr_this r = s /\
   sr_flags r = flags /\ sr_timeNs r = timeNs) /\
  (stream <> SOAPY_SDR_RX ->
   (sr_ret r = SOAPY_SDR_TIMEOUT /\ sr_this r = s /\
    sr_flags r = flags /\ sr_timeNs r = timeNs) \/
   (exists e rest, _txResps s = e :: rest /\ sr_this r = set_txResps rest s /\
      sr_ret r = sm_code e /\ sr_flags r = sm_flags e /\
      sr_timeNs r = sm_timeNs e)).
Proof.
  unfold readStreamStatus. intros Hr. split; intros Hd.
  - apply Z.eqb_eq in Hd. rewrite Hd in Hr. injection Hr as <-. cbn. auto.
  - apply Z.eqb_neq in Hd. rewrite Hd in Hr.
    destruct (status_wait _ _ _ _) as [[[|] slept]|]; [| |discriminate].
    + destruct (_txResps s) as [|e rest] eqn:Eq.
      * injection Hr as <-. left. cbn. auto.
      * injection Hr as <-. right. exists e, rest. cbn. auto.
    + injection Hr as <-. left. cbn. auto.
Qed.

(** An event without a time is handed out at once: whatever the timeout,
    the clock and the hardware time, the call does not sleep, and it
    returns even with a timeout of zero or less. *)
Theorem readStreamStatus_untimed_event
    (start : Z) (polls : list Poll) (stream flags timeNs timeoutUs : Z)
    (s : bladeRF_SoapySDR) (e : StreamMetadata) (rest : list StreamMetadata) :
  stream <> SOAPY_SDR_RX ->
  _txResps s = e :: rest ->
  Z.land (sm_flags e) SOAPY_SDR_HAS_TIME = 0 ->
  readStreamStatus start polls stream flags timeNs timeoutUs s =
    Some {| sr_ret := sm_code e; sr_flags := sm_flags e;
            sr_timeNs := sm_timeNs e; sr_slept := [];
            sr_this := set_txResps rest s |}.
Proof.
  intros Hd Hq Hf. unfold readStreamStatus.
  apply Z.eqb_neq in Hd. rewrite Hd, Hq.
  rewrite status_wait_untimed by (rewrite Hf; reflexivity). reflexivity.
Qed.

(** An event that carries a time is held back until the hardware time is
    read beyond that time: a call that hands it out has seen such a
    reading, and a call that has not ends on the deadline, with
    [SOAPY_SDR_TIMEOUT], the event still queued. *)
Theorem readStreamStatus_timed_event
    (start : Z) (polls : list Poll) (stream flags timeNs timeoutUs : Z)
    (s : bladeRF_SoapySDR) (e : StreamMetadata) (rest : list StreamMetadata)
    (r : StatusResult) :
  stream <> SOAPY_SDR_RX ->
  _txResps s = e :: rest ->
  Z.land (sm_flags e) SOAPY_SDR_HAS_TIME <> 0 ->
  readStreamStatus start polls stream flags timeNs timeoutUs s = Some r ->
  (_txResps (sr_this r) = rest /\ sr_ret r = sm_code e /\
   sr_flags r = sm_flags e /\ sr_timeNs r = sm_timeNs e /\
   exists p, In p polls /\ sm_timeNs e < poll_hardwareTime p) \/
  (_txResps (sr_this r) = e :: rest /\ sr_ret r = SOAPY_SDR_TIMEOUT /\
   sr_flags r = flags /\ sr_timeNs r = timeNs /\
   exists p, In p polls /\ start + timeoutUs * 1000 < poll_timeAfter p).
Proof.
  intros Hd Hq Hf. unfold readStreamStatus.
  apply Z.eqb_neq in Hd. rewrite Hd, Hq.
  destruct (status_wait _ _ _ _) as [[w slept]|] eqn:Ew; [|discriminate].
  pose proof (status_wait_timed _ _ _ _ Hf _ _ _ Ew) as Hw.
  destruct w; intros [= <-]; cbn [sr_ret sr_flags sr_timeNs sr_this].
  - left. destruct s; cbn in *. auto.
  - right. rewrite Hq. auto.
Qed.

(** With nothing queued the call can only time out, and it does not
    return before the clock has been read past the deadline: the start
    plus the timeout. *)
Theorem readStreamStatus_empty_queue
    (start : Z) (polls : list Poll) (stream flags timeNs timeoutUs : Z)
    (s : bladeRF_SoapySDR) (r : StatusResult) :
  stream <> SOAPY_SDR_RX ->
  _txResps s = [] ->
  readStreamStatus start polls stream flags timeNs timeoutUs s = Some r ->
  sr_ret r = SOAPY_SDR_TIMEOUT /\ sr_this r = s /\
  sr_slept r <> [] /\
  exists p, In p polls /\ start + timeoutUs * 1000 < poll_timeAfter p.
Proof.
  intros Hd Hq. unfold readStreamStatus.
  apply Z.eqb_neq in Hd. rewrite Hd, Hq.
  destruct (status_wait _ _ _ _) as [[w slept]|] eqn:Ew; [|discriminate].
  destruct (status_wait_empty _ _ _ _ _ Ew) as [-> Hp].
  intros [= <-]. cbn. repeat split; [|exact Hp].
  destruct polls as [|p polls]; [discriminate|].
  cbn in Ew. destruct (_ <? _).
  - injection Ew as <-. discriminate.
  - clear -Ew. intros ->.
    assert (G : forall polls sl0, status_wait (start + timeoutUs * 1000) [] polls sl0 =
                  Some (WaitTimeout, []) -> sl0 = []).
    { clear. induction polls as [|p ps IH]; intros sl0; cbn; [discriminate|].
      destruct (_ <? _).
      - intros [= E]. destruct sl0; discriminate.
      - intros E. apply IH in E. destruct sl0; discriminate. }
    apply G in Ew. discriminate.
Qed.

(** The call returns: once the clock is read past the deadline the loop
    has ended, whatever is queued; it has slept at most once for each
    reading, and never for more than 1000 microseconds at a time. *)
Theorem readStreamStatus_returns
    (start : Z) (polls : list Poll) (stream flags timeNs timeoutUs : Z)
    (s : bladeRF_SoapySDR) (p : Poll) :
  In p polls ->
  start + timeoutUs * 1000 < poll_timeAfter p ->
  exists r, readStreamStatus start polls stream flags timeNs timeoutUs s = Some r /\
            Forall (fun d => d <= 1000) (sr_slept r) /\
            (length (sr_slept r) <= length polls)%nat.
Proof.
  intros Hin Hp. unfold readStreamStatus.
  destruct (stream =? SOAPY_SDR_RX).
  { eexists. split; [reflexivity|]. cbn. split; [constructor|lia]. }
  destruct (status_wait_ends (start + timeoutUs * 1000) (_txResps s) polls
              (ex_intro _ p (conj Hin Hp)) [] ltac:(constructor))
    as (w & sl & E & Hsl & Hlen).
  rewrite E. destruct w.
  - destruct (_txResps s); eexists; (split; [reflexivity|]); cbn; auto.
  - eexists. split; [reflexivity|]. cbn. auto.
Qed.

End StatusProperties.

(** ** Transmit events, from [writeStream] to [readStreamStatus] *)

Section StatusAfterWrite.

Context `{ApiConstants}.
Variable _txTicksToTimeNs : Z -> Z.
Variable _timeNsToTxTicks : Z -> Z.



(** An underrun is reported first and at once: after a write during which
    the device reported an underrun, the next status read hands out
    [SOAPY_SDR_UNDERFLOW], with no flag and without a wait, and leaves
    behind it the event for the end of the burst when the write ended
    one. *)
Theorem writeStream_underrun_then_readStreamStatus
    (hw_time : Z) (tx : DevReply) (buffs : list AppBuf)
    (numElems flags timeNs timeoutUs : Z) (s : bladeRF_SoapySDR)
    (start : Z) (polls : list Poll) (stream flags0 timeNs0 timeout0 : Z) :
  stream <> SOAPY_SDR_RX ->
  _txResps s = [] ->
  dr_ret tx = 0 ->
  Z.land (md_status (dr_md tx)) BLADERF_META_STATUS_UNDERRUN <> 0 ->
  let w := writeStream _txTicksToTimeNs _timeNsToTxTicks
             hw_time tx buffs numElems flags timeNs timeoutUs s in
  exists r,
    readStreamStatus start polls stream flags0 timeNs0 timeout0 (wr_this w) = Some r /\
    sr_ret r = SOAPY_SDR_UNDERFLOW /\ sr_flags r = 0 /\ sr_slept r = [] /\
    _txResps (sr_this r) =
      if Z.land (wr_flags w) SOAPY_SDR_END_BURST =? 0 then []
      else [burst_end_event _txTicksToTimeNs (_txNextTicks (wr_this w))].
Proof.
  intros Hd Hq Hret Hun w.
  destruct (writeStream_success _txTicksToTimeNs _timeNsToTxTicks
              hw_time tx buffs numElems flags timeNs timeoutUs s Hret)
    as (_ & Hresps & _).
  fold w in Hresps. rewrite Hq in Hresps.
  unfold tx_events, underrun_events in Hresps.
  apply Z.eqb_neq in Hun. rewrite Hun in Hresps. cbn [negb app] in Hresps.
  pose proof (writeStream_flags _txTicksToTimeNs _timeNsToTxTicks
                hw_time tx buffs numElems flags timeNs timeoutUs s) as Hfl.
  fold w in Hfl. rewrite <- Hfl in Hresps.
  eexists. split.
  - unfold readStreamStatus. apply Z.eqb_neq in Hd. rewrite Hd, Hresps.
    rewrite status_wait_untimed by reflexivity. reflexivity.
  - cbn [sr_ret sr_flags sr_slept sr_this underflow_event sm_code sm_flags].
    repeat split.
    assert (Hset : forall q s0, _txResps (set_txResps q s0) = q)
      by (intros q []; reflexivity).
    rewrite Hset.
    destruct (Z.land (wr_flags w) SOAPY_SDR_END_BURST =? 0); reflexivity.
Qed.

End StatusAfterWrite.

(** ** The statements above, on the concrete streams *)

Lemma setupStream_rejected_keeps_sample_format_witness :
  let r := setupStream (H := upstream) ex_minTimeoutMs 0 (fun _ => 0)
             SOAPY_SDR_RX "CF32" [2] {[ "format" := "sc8_meta" ]}%string ex_object in
  fst r = inl invalid_channel_selection /\
  _sample_format (snd r) = BLADERF_FORMAT_SC8_Q7_META /\
  _dev (snd r) = [].
Proof.
  intros r.
  assert (Hr : fst r = inl invalid_channel_selection) by (vm_compute; reflexivity).
  destruct (setupStream_rejected_keeps_sample_format (H := upstream) ex_minTimeoutMs
              0 (fun _ => 0) SOAPY_SDR_RX "CF32" [2]
              {[ "format" := "sc8_meta" ]}%string ex_object (or_introl Hr))
    as (fmt & Hfmt & _ & Hsf & Hdev).
  split; [exact Hr|]. split; [|exact Hdev].
  fold r in Hsf. rewrite Hsf.
  vm_compute in Hfmt. injection Hfmt as <-. reflexivity.
Defined.

Lemma setupStream_device_failure_witness :
  let r := setupStream (H := upstream) ex_minTimeoutMs 0 (fun ch => if ch =? 1 then -5 else 0)
             SOAPY_SDR_TX "CS16" [0; 1] ex_args ex_object in
  fst r = inl (device_error (-5)) /\
  length (_dev (snd r)) = 3%nat.
Proof.
  intros r.
  assert (Hr : fst r = inl (device_error (-5))) by (vm_compute; reflexivity).
  destruct (setupStream_device_failure (H := upstream) ex_minTimeoutMs
              0 (fun ch => if ch =? 1 then -5 else 0) SOAPY_SDR_TX "CS16" [0; 1]
              ex_args ex_object (-5) Hr)
    as (_ & fmt & layout & done & Hp & Hs & [(Hc & _)|(_ & ch & Hl & Hch)]).
  - discriminate Hc.
  - split; [exact Hr|]. fold r in Hs. rewrite Hs.
    assert (Hdone : done = [0; 1]).
    { destruct Hp as [k Hk].
      destruct done as [|d0 [|d1 [|d2 ds]]]; cbn in Hk, Hl.
      - discriminate Hl.
      - injection Hl as <-. injection Hk as <- _. discriminate Hch.
      - injection Hk as <- <- _. reflexivity.
      - destruct ds; discriminate Hk. }
    rewrite Hdone. reflexivity.
Defined.


Lemma closeStream_after_setupStream_witness :
  let r := setupStream (H := upstream) ex_minTimeoutMs 0 (fun _ => 0)
             SOAPY_SDR_TX "CS16" [0; 1] ex_args ex_object in
  let c := closeStream (H := upstream) (fun _ => 0) 0 (snd r) in
  fst r = inr 0 /\ fst c = None /\ _txChans (snd c) = [].
Proof.
  intros r c.
  assert (Hr : fst r = inr 0) by (vm_compute; reflexivity).
  destruct (closeStream_after_setupStream (H := upstream) ex_minTimeoutMs
              0 (fun _ => 0) (fun _ => 0) SOAPY_SDR_TX "CS16" [0; 1] ex_args
              ex_object 0 Hr (or_intror eq_refl) (fun _ => eq_refl))
    as (Hc & _ & He).
  split; [exact Hr|]. split; [exact Hc|exact He].
Defined.

Lemma readStream_time_applies_once_witness :
  let s := snd (activateStream (H := upstream) SOAPY_SDR_RX 4 5000000 0 ex_rx) in
  let r1 := readStream (H := upstream) ex_ticksToTimeNs ex_timeNsToTicks
              (ex_reply 100 5000 0) 100 0 0 1000000 s in
  let r2 := readStream (H := upstream) ex_ticksToTimeNs ex_timeNsToTicks
              (ex_reply 100 5100 0) 100 0 0 1000000 (rr_this r1) in
  length (_rxCmds (rr_this r1)) = 1%nat /\
  length (_dev (rr_this r2)) = (length (_dev s) + 2)%nat.
Proof.
  intros s r1 r2.
  assert (Hlen : length (_rxCmds (rr_this r1)) = length (_rxCmds s))
    by (vm_compute; reflexivity).
  destruct (readStream_time_applies_once (H := upstream)
              ex_ticksToTimeNs ex_timeNsToTicks
              (ex_reply 100 5000 0) (ex_reply 100 5100 0)
              100 100 0 0 0 0 1000000 1000000 s
              {| sm_flags := 4; sm_timeNs := 5000000; sm_numElems := 0; sm_code := 0 |}
              [])
    as (c1 & m1 & c2 & m2 & Hdev);
    [vm_compute; reflexivity | vm_compute; reflexivity | vm_compute; discriminate
    | exact Hlen | vm_compute; reflexivity |].
  split; [rewrite Hlen; vm_compute; reflexivity|].
  fold r1 r2 in Hdev. rewrite Hdev, length_app. reflexivity.
Defined.

Lemma readStream_request_bounded_witness :
  let s := ex_rx_active 50 in
  let r := readStream (H := upstream) ex_ticksToTimeNs ex_timeNsToTicks
             (ex_reply 50 5000 0) 100 0 0 1000000 s in
  rx_stream_ok s /\
  exists n md timeout_ms,
    _dev (rr_this r) = _dev s ++ [bladerf_sync_rx (n * 1) md timeout_ms] /\
    n <= 50.
Proof.
  intros s r.
  assert (Hok : rx_stream_ok s).
  { split; [left; reflexivity|].
    split; [vm_compute; split; reflexivity|vm_compute; reflexivity]. }
  split; [exact Hok|].
  destruct (readStream_request_bounded (H := upstream)
              ex_ticksToTimeNs ex_timeNsToTicks
              (ex_reply 50 5000 0) 100 0 0 1000000 s
              {| sm_flags := 0; sm_timeNs := 0; sm_numElems := 50; sm_code := 0 |}
              [] Hok)
    as (n & md & t & Hdev & _ & _ & Hcmd & _);
    [vm_compute; reflexivity | vm_compute; reflexivity | lia
    | cbn; lia |].
  exists n, md, t. split; [exact Hdev|].
  cbn [sm_numElems] in Hcmd. apply Hcmd. lia.
Defined.

Lemma readStream_overrun_then_overflow_witness :
  let s := ex_rx_active 0 in
  let r1 := readStream (H := upstream) ex_ticksToTimeNs ex_timeNsToTicks
              (ex_reply 100 5000 1) 100 0 0 1000000 s in
  let r2 := readStream (H := upstream) ex_ticksToTimeNs ex_timeNsToTicks
              (ex_reply 100 5100 0) 100 0 0 1000000 (rr_this r1) in
  rr_ret r1 = 100 /\ rr_ret r2 = -4 /\ rr_timeNs r2 = 5100000.
Proof.
  intros s r1 r2.
  destruct (readStream_overrun_then_overflow (H := upstream)
              ex_ticksToTimeNs ex_timeNsToTicks
              (ex_reply 100 5000 1) (ex_reply 100 5100 0)
              100 100 0 0 0 0 1000000 1000000 s
              {| sm_flags := 0; sm_timeNs := 0; sm_numElems := 0; sm_code := 0 |}
              [])
    as (A & _ & B & C & _);
    [vm_compute; reflexivity | vm_compute; reflexivity | reflexivity
    | vm_compute; discriminate | vm_compute; discriminate |].
  fold r1 in A. fold r1 r2 in B, C.
  split; [rewrite A; vm_compute; reflexivity|].
  split; [exact B|]. rewrite C. vm_compute. reflexivity.
Defined.

Lemma readStream_run_continuous_blocks_witness :
  exists cmd',
    _rxCmds (readStream_run (H := upstream) ex_ticksToTimeNs ex_timeNsToTicks
               [ex_reply 100 5000 0; ex_reply 100 5100 0] 100 1000000
               (ex_rx_active 0)) = [cmd'] /\
    sm_numElems cmd' = 0 /\ sm_timeNs cmd' = 0.
Proof.
  apply (readStream_run_continuous_blocks (H := upstream)
           ex_ticksToTimeNs ex_timeNsToTicks
           [ex_reply 100 5000 0; ex_reply 100 5100 0] 100 1000000 (ex_rx_active 0)
           {| sm_flags := 0; sm_timeNs := 0; sm_numElems := 0; sm_code := 0 |} []);
    vm_compute; reflexivity.
Defined.

Lemma readStream_run_finite_command_witness :
  _rxCmds (readStream_run (H := upstream) ex_ticksToTimeNs ex_timeNsToTicks
             [ex_reply 100 5000 0; ex_reply 100 5100 0] 100 1000000
             (ex_rx_active 200)) = [].
Proof.
  destruct (readStream_run_finite_command (H := upstream)
              ex_ticksToTimeNs ex_timeNsToTicks
              [ex_reply 100 5000 0; ex_reply 100 5100 0] 100 1000000
              (ex_rx_active 200)
              {| sm_flags := 0; sm_timeNs := 0; sm_numElems := 200; sm_code := 0 |}
              [])
    as (_ & A);
    [vm_compute; reflexivity | vm_compute; reflexivity
    | repeat constructor; vm_compute; congruence
    | vm_compute; reflexivity | vm_compute; discriminate |].
  apply A; vm_compute; reflexivity.
Defined.

Lemma writeStream_device_failure_witness :
  let r := writeStream (H := upstream) ex_ticksToTimeNs ex_timeNsToTicks
             7000 (ex_error (-6)) [BufCS16 (replicate 200 1)] 100 0 0 1000000
             ex_tx in
  wr_ret r = -1 /\ _txResps (wr_this r) = [] /\ _inTxBurst (wr_this r) = false.
Proof.
  intros r.
  destruct (writeStream_device_failure (H := upstream)
              ex_ticksToTimeNs ex_timeNsToTicks
              7000 (ex_error (-6)) [BufCS16 (replicate 200 1)] 100 0 0 1000000
              ex_tx)
    as (A & B & C & _); [vm_compute; discriminate|].
  fold r in A, B, C. split; [exact A|]. split; [exact B|exact C].
Defined.

Lemma writeStream_within_mtu_witness :
  let r := writeStream (H := upstream) ex_ticksToTimeNs ex_timeNsToTicks
             7000 (ex_reply 1024 0 0) [BufCS16 (replicate 4000 1)] 2000 0 0 1000000
             ex_tx in
  tx_stream_ok ex_tx /\ wr_ret r = 1024 /\ tx_stream_ok (wr_this r).
Proof.
  intros r.
  assert (Hok : tx_stream_ok ex_tx).
  { split; [left; reflexivity|].
    split; [vm_compute; split; reflexivity|vm_compute; reflexivity]. }
  destruct (writeStream_within_mtu (H := upstream)
              ex_ticksToTimeNs ex_timeNsToTicks
              7000 (ex_reply 1024 0 0) [BufCS16 (replicate 4000 1)] 2000 0 0 1000000
              ex_tx Hok)
    as (_ & _ & _ & A & B); [lia|].
  destruct (B eq_refl) as (C & _).
  fold r in A, C. split; [exact Hok|]. split; [|exact A].
  rewrite C. vm_compute. reflexivity.
Defined.

Lemma writeStream_burst_end_time_witness :
  let call flags :=
    {| wc_hw_time := 7000; wc_tx := ex_reply 100 0 0;
       wc_buffs := [BufCS16 (replicate 200 1)]; wc_numElems := 100;
       wc_flags := flags; wc_timeNs := 5000000; wc_timeoutUs := 1000000 |} in
  let s' := writeStream_run (H := upstream) ex_ticksToTimeNs ex_timeNsToTicks
              [call 4; call 0; call 2] ex_tx in
  _inTxBurst s' = false /\
  last (_txResps s') =
    Some {| sm_flags := 6; sm_timeNs := 5300000; sm_numElems := 0; sm_code := 0 |}.
Proof.
  intros call s'.
  destruct (writeStream_burst_end_time (H := upstream)
              ex_ticksToTimeNs ex_timeNsToTicks (call 4) (call 2) [call 0] ex_tx)
    as (A & B);
    [reflexivity | vm_compute; discriminate | reflexivity | vm_compute; discriminate
    | repeat constructor
    | reflexivity | reflexivity | vm_compute; discriminate | vm_compute; discriminate |].
  split; [exact A|]. etransitivity; [exact B|]. vm_compute. reflexivity.
Defined.

Lemma float_conversion_roundtrip_witness :
  tx_scaled (rx_float_cell BLADERF_FORMAT_SC16_Q11_META [1234; -5] 1) = -5.
Proof.
  apply (float_conversion_roundtrip BLADERF_FORMAT_SC16_Q11_META [1234; -5] 1).
  vm_compute. split; discriminate.
Defined.

Lemma interleave_deinterleave_roundtrip_witness :
  let buf := store (interleave (int16_at (BufCS16 [1; 2; 3; 4]))
                               (int16_at (BufCS16 [5; 6; 7; 8])) 2)
                   (replicate 8 0) in
  deinterleave (rx_native BLADERF_FORMAT_SC16_Q11 buf) 0 2 = [1; 2; 3; 4] /\
  deinterleave (rx_native BLADERF_FORMAT_SC16_Q11 buf) 1 2 = [5; 6; 7; 8].
Proof.
  apply (interleave_deinterleave_roundtrip BLADERF_FORMAT_SC16_Q11
           [1; 2; 3; 4] [5; 6; 7; 8] (replicate 8 0) 2);
    [reflexivity | vm_compute; lia | vm_compute; lia].
Defined.

Lemma tx_scaled_truncates_witness :
  tx_scaled (fdiv (float_of_int (-3)) (float_of_int 4096)) = -1.
Proof.
  rewrite (tx_scaled_truncates (fdiv (float_of_int (-3)) (float_of_int 4096))
             (-12582912 # 8388608));
    [reflexivity | vm_compute; reflexivity | reflexivity | reflexivity].
Defined.

Lemma readStreamStatus_effect_witness :
  let r := {| sr_ret := -1; sr_flags := 0; sr_timeNs := 0; sr_slept := [1000];
              sr_this := ex_tx |} in
  readStreamStatus (H := upstream) 0
    [{| poll_hardwareTime := 0; poll_timeNow := 0; poll_timeAfter := 2000000 |}]
    0 0 0 1000 ex_tx = Some r /\
  (sr_ret r = -1 /\ sr_this r = ex_tx /\ sr_flags r = 0 /\ sr_timeNs r = 0 \/
   exists e rest, _txResps ex_tx = e :: rest /\ sr_this r = set_txResps rest ex_tx /\
      sr_ret r = sm_code e /\ sr_flags r = sm_flags e /\ sr_timeNs r = sm_timeNs e).
Proof.
  intros r.
  assert (Hr : readStreamStatus (H := upstream) 0
                 [{| poll_hardwareTime := 0; poll_timeNow := 0;
                     poll_timeAfter := 2000000 |}]
                 0 0 0 1000 ex_tx = Some r) by (vm_compute; reflexivity).
  split; [exact Hr|].
  apply (readStreamStatus_effect (H := upstream) 0 _ 0 0 0 1000 ex_tx r Hr).
  discriminate.
Defined.

Lemma readStreamStatus_timed_event_witness :
  let s := wr_this (writeStream (H := upstream) ex_ticksToTimeNs ex_timeNsToTicks
                      7000 (ex_reply 100 0 0) [BufCS16 (replicate 200 1)]
                      100 2 0 1000000 ex_tx) in
  let polls :=
    [{| poll_hardwareTime := 7000000; poll_timeNow := 0; poll_timeAfter := 1000 |};
     {| poll_hardwareTime := 7200000; poll_timeNow := 1000; poll_timeAfter := 2000 |}] in
  let r := {| sr_ret := 0; sr_flags := 6; sr_timeNs := 7100000; sr_slept := [1000];
              sr_this := set_txResps [] s |} in
  readStreamStatus (H := upstream) 0 polls 0 0 0 1000 s = Some r /\
  exists p, In p polls /\ 7100000 < poll_hardwareTime p.
Proof.
  intros s polls r.
  assert (Hr : readStreamStatus (H := upstream) 0 polls 0 0 0 1000 s = Some r)
    by (vm_compute; reflexivity).
  split; [exact Hr|].
  destruct (readStreamStatus_timed_event (H := upstream) 0 polls 0 0 0 1000 s
              {| sm_flags := 6; sm_timeNs := 7100000; sm_numElems := 0; sm_code := 0 |}
              [] r)
    as [(_ & _ & _ & _ & Hp)|(Hq & _)];
    [discriminate | vm_compute; reflexivity | vm_compute; discriminate | exact Hr
    | exact Hp | vm_compute in Hq; discriminate Hq].
Defined.

Lemma readStreamStatus_empty_queue_witness :
  let polls :=
    [{| poll_hardwareTime := 0; poll_timeNow := 0; poll_timeAfter := 2000000 |}] in
  let r := {| sr_ret := -1; sr_flags := 0; sr_timeNs := 0; sr_slept := [1000];
              sr_this := ex_tx |} in
  readStreamStatus (H := upstream) 0 polls 0 0 0 1000 ex_tx = Some r /\
  sr_ret r = SOAPY_SDR_TIMEOUT /\ sr_slept r <> [].
Proof.
  intros polls r.
  assert (Hr : readStreamStatus (H := upstream) 0 polls 0 0 0 1000 ex_tx = Some r)
    by (vm_compute; reflexivity).
  split; [exact Hr|].
  destruct (readStreamStatus_empty_queue (H := upstream) 0 polls 0 0 0 1000 ex_tx r)
    as (A & _ & B & _);
    [discriminate | vm_compute; reflexivity | exact Hr |].
  split; [exact A|exact B].
Defined.

Lemma readStreamStatus_returns_witness :
  let polls :=
    [{| poll_hardwareTime := 0; poll_timeNow := 0; poll_timeAfter := 1000 |};
     {| poll_hardwareTime := 0; poll_timeNow := 1000; poll_timeAfter := 2000000 |}] in
  exists r, readStreamStatus (H := upstream) 0 polls 0 0 0 1000 ex_tx = Some r /\
            Forall (fun d => d <= 1000) (sr_slept r) /\
            (length (sr_slept r) <= length polls)%nat.
Proof.
  intros polls.
  apply (readStreamStatus_returns (H := upstream) 0 polls 0 0 0 1000 ex_tx
           {| poll_hardwareTime := 0; poll_timeNow := 1000; poll_timeAfter := 2000000 |});
    [right; left; reflexivity | vm_compute; reflexivity].
Defined.


Lemma writeStream_underrun_then_readStreamStatus_witness :
  let w := writeStream (H := upstream) ex_ticksToTimeNs ex_timeNsToTicks
             7000 (ex_reply 100 0 2) [BufCS16 (replicate 200 1)]
             100 2 0 1000000 ex_tx in
  exists r,
    readStreamStatus (H := upstream) 0 [] 0 0 0 0 (wr_this w) = Some r /\
    sr_ret r = -7 /\ sr_flags r = 0 /\ sr_slept r = [] /\
    length (_txResps (sr_this r)) = 1%nat.
Proof.
  intros w.
  destruct (writeStream_underrun_then_readStreamStatus (H := upstream)
              ex_ticksToTimeNs ex_timeNsToTicks
              7000 (ex_reply 100 0 2) [BufCS16 (replicate 200 1)]
              100 2 0 1000000 ex_tx 0 [] 0 0 0 0)
    as (r & Hr & A & B & C & D);
    [discriminate | vm_compute; reflexivity | reflexivity | vm_compute; discriminate |].
  exists r. fold w in Hr, D. split; [exact Hr|]. split; [exact A|].
  split; [exact B|]. split; [exact C|].
  rewrite D. vm_compute. reflexivity.
Defined.
